(** * The conversation state machine of the trainer bot (bot.js)

    A shallow embedding of the Telegraf middleware chain of [bot.js]: the
    two in-memory stores ([states], [adminSessions]), the persisted
    collections the handlers touch, every registered handler in registration
    order, and the router that runs them.  The theorems at the end of the
    file settle the properties of the specification against this embedding.

    Conventions.
    - JavaScript strings are byte strings here (UTF-8 for the emoji of the
      menu labels).  [trim] and [toLowerCase] act on the ASCII range only.
    - A JavaScript number is a [jsnum]: NaN, the two infinities, or an exact
      rational.  IEEE rounding and overflow are not modelled.
    - A mongoose document is a local copy: a change is persisted only by
      [save], so a handler that returns before [save] leaves the collection
      as it was.
    - What the environment decides during one update (clock, uuid, outcome
      of each outbound send) is the [Env] argument of the handlers. *)

From Stdlib Require Import Ascii String DecimalString QArith Qreduction Qround.
From stdpp Require Import gmap strings list.

Open Scope Z_scope.
Open Scope string_scope.
Open Scope list_scope.

(** ** JavaScript strings *)

Module Js.

Definition is_ws (c : ascii) : bool :=
  let n := nat_of_ascii c in
  ((9 <=? n) && (n <=? 13))%nat || (n =? 32)%nat.

Fixpoint trimStart (s : string) : string :=
  match s with
  | String c r => if is_ws c then trimStart r else s
  | EmptyString => EmptyString
  end.

Fixpoint trimEnd (s : string) : string :=
  match s with
  | String c r =>
      match trimEnd r with
      | EmptyString => if is_ws c then EmptyString else String c EmptyString
      | r' => String c r'
      end
  | EmptyString => EmptyString
  end.

(** [s.trim()] *)
Definition trim (s : string) : string := trimEnd (trimStart s).

Definition lower_char (c : ascii) : ascii :=
  let n := nat_of_ascii c in
  if ((65 <=? n) && (n <=? 90))%nat then ascii_of_nat (n + 32) else c.

(** [s.toLowerCase()] *)
Fixpoint toLowerCase (s : string) : string :=
  match s with
  | String c r => String (lower_char c) (toLowerCase r)
  | EmptyString => EmptyString
  end.

(** [s.startsWith(p)] *)
Fixpoint startsWith (p s : string) : bool :=
  match p, s with
  | EmptyString, _ => true
  | String a p', String b s' => if Ascii.eqb a b then startsWith p' s' else false
  | String _ _, EmptyString => false
  end.

(** The rest of [s] after its first [n] characters: [s.slice(n)]. *)
Fixpoint slice_from (n : nat) (s : string) : string :=
  match n, s with
  | O, _ => s
  | S n', String _ r => slice_from n' r
  | S _, EmptyString => EmptyString
  end.

(** [s.split(sep)] for a one-character separator. *)
Fixpoint split (sep : ascii) (s : string) : list string :=
  match s with
  | EmptyString => [EmptyString]
  | String c r =>
      if Ascii.eqb c sep then EmptyString :: split sep r
      else match split sep r with
           | x :: xs => String c x :: xs
           | [] => [String c EmptyString]
           end
  end.

(** [parts.join(sep)] *)
Fixpoint join (sep : string) (l : list string) : string :=
  match l with
  | [] => EmptyString
  | [x] => x
  | x :: xs => x +:+ sep +:+ join sep xs
  end.

(** [l.includes(x)] on strings *)
Definition includes (l : list string) (x : string) : bool :=
  existsb (String.eqb x) l.

(** ** JavaScript numbers *)

Inductive jsnum : Type :=
| NaN
| PosInf
| NegInf
| Fin (q : Q).

Definition isNaN (n : jsnum) : bool :=
  match n with NaN => true | _ => false end.

Definition ofZ (z : Z) : jsnum := Fin (inject_Z z).

Definition Qltb (a b : Q) : bool :=
  (Qnum a * Zpos (Qden b) <? Qnum b * Zpos (Qden a))%Z.

(** [a < b] *)
Definition lt (a b : jsnum) : bool :=
  match a, b with
  | NaN, _ | _, NaN => false
  | PosInf, _ => false
  | _, NegInf => false
  | NegInf, _ => true
  | _, PosInf => true
  | Fin x, Fin y => Qltb x y
  end.

(** [a > b] *)
Definition gt (a b : jsnum) : bool := lt b a.

(** [a === b] on numbers *)
Definition eqn (a b : jsnum) : bool :=
  match a, b with
  | PosInf, PosInf | NegInf, NegInf => true
  | Fin x, Fin y => Qeq_bool x y
  | _, _ => false
  end.

(** The array index that the property key [n - 1] denotes: an element is
    found only for an integral, non-negative key ([arr[0.5]] is undefined). *)
Definition index_pred (n : jsnum) : option nat :=
  match n with
  | Fin q =>
      let r := Qred (q - 1) in
      if (Zpos (Qden r) =? 1)%Z && (0 <=? Qnum r)%Z then Some (Z.to_nat (Qnum r))
      else None
  | _ => None
  end.

(** The start position [splice(n - 1, 1)] uses when [1 <= n]: the key is
    truncated to an integer (ToIntegerOrInfinity). *)
Definition splice_start (n : jsnum) : nat :=
  match n with
  | Fin q => Z.to_nat (Qfloor (q - 1))
  | _ => O
  end.

(** *** [Number(string)]: the StringNumericLiteral grammar *)

Definition is_digit (c : ascii) : bool :=
  let n := nat_of_ascii c in ((48 <=? n) && (n <=? 57))%nat.

Definition digit_val (c : ascii) : Z := Z.of_nat (nat_of_ascii c) - 48.

Definition hex_val (c : ascii) : option Z :=
  let n := nat_of_ascii c in
  if ((48 <=? n) && (n <=? 57))%nat then Some (Z.of_nat n - 48)
  else if ((97 <=? n) && (n <=? 102))%nat then Some (Z.of_nat n - 87)
  else if ((65 <=? n) && (n <=? 70))%nat then Some (Z.of_nat n - 55)
  else None.

(** Reads the longest prefix of decimal digits: its value (continuing from
    [acc]), its length and the rest. *)
Fixpoint digits (acc : Z) (len : nat) (s : string) : Z * nat * string :=
  match s with
  | String c r => if is_digit c then digits (10 * acc + digit_val c) (S len) r
                  else (acc, len, s)
  | EmptyString => (acc, len, s)
  end.

(** A whole string of digits in the given radix (at least one digit). *)
Fixpoint radix_digits (radix : Z) (acc : Z) (s : string) : option Z :=
  match s with
  | String c r =>
      match hex_val c with
      | Some d => if (d <? radix)%Z
                  then match r with
                       | EmptyString => Some (radix * acc + d)
                       | _ => radix_digits radix (radix * acc + d) r
                       end
                  else None
      | None => None
      end
  | EmptyString => None
  end.

(** ExponentPart followed by the end of the string; [None] is a syntax
    error. An absent exponent is 0. *)
Definition exponent (s : string) : option Z :=
  match s with
  | EmptyString => Some 0
  | String c r =>
      if Ascii.eqb c "e" || Ascii.eqb c "E" then
        let '(neg, r1) :=
          match r with
          | String "+" r' => (false, r')
          | String "-" r' => (true, r')
          | _ => (false, r)
          end in
        match digits 0 0 r1 with
        | (_, O, _) => None
        | (e, S _, EmptyString) => Some (if neg then - e else e)
        | (_, S _, String _ _) => None
        end
      else None
  end.

(** The value [m * 10^e]. *)
Definition scale (m e : Z) : Q :=
  if (0 <=? e)%Z then inject_Z (m * 10 ^ e)
  else Qred (Qmake m (Z.to_pos (10 ^ (- e)))).

(** StrUnsignedDecimalLiteral other than [Infinity]. *)
Definition unsigned_decimal (s : string) : option Q :=
  let '(ip, ilen, r) := digits 0 0 s in
  match r with
  | String "." r1 =>
      let '(m, flen, r2) := digits ip 0 r1 in
      if ((ilen =? 0) && (flen =? 0))%nat then None
      else match exponent r2 with
           | Some e => Some (scale m (e - Z.of_nat flen))
           | None => None
           end
  | _ =>
      if (ilen =? 0)%nat then None
      else match exponent r with
           | Some e => Some (scale ip e)
           | None => None
           end
  end.

Definition str_decimal (s : string) : jsnum :=
  let '(neg, r) :=
    match s with
    | String "+" r' => (false, r')
    | String "-" r' => (true, r')
    | _ => (false, s)
    end in
  if String.eqb r "Infinity" then (if neg then NegInf else PosInf)
  else match unsigned_decimal r with
       | Some q => Fin (if neg then Qred (- q) else q)
       | None => NaN
       end.

Definition non_decimal (s : string) : option jsnum :=
  match s with
  | String "0" (String p r) =>
      let radix :=
        if Ascii.eqb p "x" || Ascii.eqb p "X" then Some 16
        else if Ascii.eqb p "o" || Ascii.eqb p "O" then Some 8
        else if Ascii.eqb p "b" || Ascii.eqb p "B" then Some 2
        else None in
      match radix with
      | Some b => Some match radix_digits b 0 r with
                       | Some v => ofZ v
                       | None => NaN
                       end
      | None => None
      end
  | _ => None
  end.

(** [Number(s)] *)
Definition Number (s : string) : jsnum :=
  match trim s with
  | EmptyString => ofZ 0
  | t => match non_decimal t with
         | Some n => n
         | None => str_decimal t
         end
  end.

End Js.

Import Js.

(** ** Persisted documents *)

(** [profileSub]. A field the schema gives no default is [None] until set. *)
Record Profile : Type := mkProfile {
  p_id : string;
  p_name : option string;
  p_age : option jsnum;
  p_weightKg : option jsnum;
  p_heightCm : option jsnum;
  p_fitnessLevel : option string;
  p_goal : option string;
  p_goalTargetDate : option string;
  p_equipment : list string;
  p_timeAvailabilityMins : option jsnum
}.

(** An entry of [stats.weightHistory]. *)
Record WeightEntry : Type := mkWeightEntry {
  wh_profileId : string;
  wh_value : jsnum;
  wh_date : Z
}.

(** An entry of [stats.meals]. *)
Record Meal : Type := mkMeal {
  meal_profileId : option string;
  meal_calories : jsnum;
  meal_desc : string;
  meal_date : Z
}.

(** An entry of [stats.workoutsCompleted]. *)
Record WorkoutDone : Type := mkWorkoutDone {
  wd_profileId : option string;
  wd_workoutId : string;
  wd_date : Z
}.

(** [userSchema] *)
Record User : Type := mkUser {
  telegramId : Z;
  firstName : string;
  username : string;
  profiles : list Profile;
  activeProfileId : option string;
  consentDataCollection : bool;
  workoutDailyAt : option string;
  waterReminderTimes : list string;
  streak : Z;
  badges : list string;
  weightHistory : list WeightEntry;
  workoutsCompleted : list WorkoutDone;
  meals : list Meal;
  role : string
}.

(** [messageRelaySchema] *)
Record MessageRelay : Type := mkRelay {
  mr_id : string;
  mr_fromId : Z;
  mr_profileId : option string;
  mr_text : string;
  mr_type : string;
  mr_read : bool
}.

(** A document of the Exercise collection: the fields of the pipe format,
    or the JSON text it was created from (JSON is not interpreted here). *)
Inductive Exercise : Type :=
| ExFields (name category difficulty : string) (muscleGroups equipmentNeeded : list string)
    (tips description : string)
| ExJson (json : string).

(** A document of the Workout or Challenge collection, kept as the text it
    was created from (for a seeded document, its name). *)
Record Content : Type := mkContent { c_source : string }.

(** ** The two in-memory stores *)

(** The [data] object of a session entry. *)
Record Data : Type := mkData {
  d_profileId : option string;
  d_profiles : option (list Profile);
  d_list : option (list Exercise);
  d_toId : option jsnum
}.

Definition noData : Data :=
  {| d_profileId := None; d_profiles := None; d_list := None; d_toId := None |}.

(** A value of the [states] map: [{ step, data }]. [data] is [None] where
    the entry was stored without one. *)
Record Session : Type := mkSession {
  step : string;
  data : option Data
}.

(** Everything a handler can read or write. *)
Record World : Type := mkWorld {
  states : gmap Z Session;
  adminSessions : gset Z;
  users : list User;
  exercises : list Exercise;
  workouts : list Content;
  challenges : list Content;
  relays : list MessageRelay
}.

Definition set_states (f : gmap Z Session → gmap Z Session) (w : World) : World :=
  {| states := f (states w); adminSessions := adminSessions w; users := users w;
     exercises := exercises w; workouts := workouts w; challenges := challenges w; relays := relays w |}.

Definition set_admins (f : gset Z → gset Z) (w : World) : World :=
  {| states := states w; adminSessions := f (adminSessions w); users := users w;
     exercises := exercises w; workouts := workouts w; challenges := challenges w; relays := relays w |}.

Definition set_users (f : list User → list User) (w : World) : World :=
  {| states := states w; adminSessions := adminSessions w; users := f (users w);
     exercises := exercises w; workouts := workouts w; challenges := challenges w; relays := relays w |}.

Definition set_relays (f : list MessageRelay → list MessageRelay) (w : World) : World :=
  {| states := states w; adminSessions := adminSessions w; users := users w;
     exercises := exercises w; workouts := workouts w; challenges := challenges w; relays := f (relays w) |}.

Definition add_exercise (c : Exercise) (w : World) : World :=
  {| states := states w; adminSessions := adminSessions w; users := users w;
     exercises := exercises w ++ [c]; workouts := workouts w; challenges := challenges w; relays := relays w |}.

Definition add_workout (c : Content) (w : World) : World :=
  {| states := states w; adminSessions := adminSessions w; users := users w;
     exercises := exercises w; workouts := workouts w ++ [c]; challenges := challenges w; relays := relays w |}.

Definition add_challenge (c : Content) (w : World) : World :=
  {| states := states w; adminSessions := adminSessions w; users := users w;
     exercises := exercises w; workouts := workouts w; challenges := challenges w ++ [c]; relays := relays w |}.

(** [states.set(id, s)], [states.delete(id)] *)
Definition states_set (id : Z) (s : Session) : World → World :=
  set_states (λ m, <[id := s]> m).
Definition states_delete (id : Z) : World → World :=
  set_states (λ m, delete id m).

(** ** The persistence collaborator *)

(** [User.findOne({ telegramId: id })] *)
Definition findOne (id : Z) (us : list User) : option User :=
  List.find (λ u, (telegramId u =? id)%Z) us.

(** [User.findOne({ telegramId: n })] for a key read from text. *)
Definition findOneNum (n : jsnum) (us : list User) : option User :=
  List.find (λ u, eqn (ofZ (telegramId u)) n) us.

(** [user.save()]: the stored document with the same [telegramId] is
    replaced by the local copy. *)
Fixpoint save (u : User) (us : list User) : list User :=
  match us with
  | [] => []
  | v :: r => if (telegramId v =? telegramId u)%Z then u :: r else v :: save u r
  end.

(** [User.deleteOne({ telegramId: n })] *)
Fixpoint deleteOne (n : jsnum) (us : list User) : list User :=
  match us with
  | [] => []
  | v :: r => if eqn (ofZ (telegramId v)) n then r else v :: deleteOne n r
  end.

(** [user.profiles.find(p => p.id === id) || user.profiles[0]]: the position
    of the sub-document the handler then writes through. *)
Definition targetProfile (id : option string) (ps : list Profile) : option (nat * Profile) :=
  match id with
  | Some i =>
      match list_find (λ p, p_id p = i) ps with
      | Some ip => Some ip
      | None => pair O <$> head ps
      end
  | None => pair O <$> head ps
  end.

(** [user.profiles.find(p => p.id === id)] without the fallback. *)
Definition findProfile (id : option string) (ps : list Profile) : option Profile :=
  match id with
  | Some i => snd <$> list_find (λ p, p_id p = i) ps
  | None => None
  end.

(** Field writes on a profile sub-document. *)
Definition set_name (v : string) (p : Profile) : Profile :=
  mkProfile (p_id p) (Some v) (p_age p) (p_weightKg p) (p_heightCm p) (p_fitnessLevel p)
    (p_goal p) (p_goalTargetDate p) (p_equipment p) (p_timeAvailabilityMins p).
Definition set_age (v : jsnum) (p : Profile) : Profile :=
  mkProfile (p_id p) (p_name p) (Some v) (p_weightKg p) (p_heightCm p) (p_fitnessLevel p)
    (p_goal p) (p_goalTargetDate p) (p_equipment p) (p_timeAvailabilityMins p).
Definition set_weightKg (v : jsnum) (p : Profile) : Profile :=
  mkProfile (p_id p) (p_name p) (p_age p) (Some v) (p_heightCm p) (p_fitnessLevel p)
    (p_goal p) (p_goalTargetDate p) (p_equipment p) (p_timeAvailabilityMins p).
Definition set_heightCm (v : jsnum) (p : Profile) : Profile :=
  mkProfile (p_id p) (p_name p) (p_age p) (p_weightKg p) (Some v) (p_fitnessLevel p)
    (p_goal p) (p_goalTargetDate p) (p_equipment p) (p_timeAvailabilityMins p).
Definition set_fitnessLevel (v : string) (p : Profile) : Profile :=
  mkProfile (p_id p) (p_name p) (p_age p) (p_weightKg p) (p_heightCm p) (Some v)
    (p_goal p) (p_goalTargetDate p) (p_equipment p) (p_timeAvailabilityMins p).
Definition set_goal (v : string) (p : Profile) : Profile :=
  mkProfile (p_id p) (p_name p) (p_age p) (p_weightKg p) (p_heightCm p) (p_fitnessLevel p)
    (Some v) (p_goalTargetDate p) (p_equipment p) (p_timeAvailabilityMins p).
Definition set_goalTargetDate (v : string) (p : Profile) : Profile :=
  mkProfile (p_id p) (p_name p) (p_age p) (p_weightKg p) (p_heightCm p) (p_fitnessLevel p)
    (p_goal p) (Some v) (p_equipment p) (p_timeAvailabilityMins p).
Definition set_equipment (v : list string) (p : Profile) : Profile :=
  mkProfile (p_id p) (p_name p) (p_age p) (p_weightKg p) (p_heightCm p) (p_fitnessLevel p)
    (p_goal p) (p_goalTargetDate p) v (p_timeAvailabilityMins p).
Definition set_timeAvailabilityMins (v : jsnum) (p : Profile) : Profile :=
  mkProfile (p_id p) (p_name p) (p_age p) (p_weightKg p) (p_heightCm p) (p_fitnessLevel p)
    (p_goal p) (p_goalTargetDate p) (p_equipment p) (Some v).

(** Field writes on a user document. *)
Definition set_profiles (ps : list Profile) (u : User) : User :=
  mkUser (telegramId u) (firstName u) (username u) ps (activeProfileId u)
    (consentDataCollection u) (workoutDailyAt u) (waterReminderTimes u) (streak u)
    (badges u) (weightHistory u) (workoutsCompleted u) (meals u) (role u).
Definition set_activeProfileId (a : option string) (u : User) : User :=
  mkUser (telegramId u) (firstName u) (username u) (profiles u) a
    (consentDataCollection u) (workoutDailyAt u) (waterReminderTimes u) (streak u)
    (badges u) (weightHistory u) (workoutsCompleted u) (meals u) (role u).
Definition set_consent (b : bool) (u : User) : User :=
  mkUser (telegramId u) (firstName u) (username u) (profiles u) (activeProfileId u)
    b (workoutDailyAt u) (waterReminderTimes u) (streak u)
    (badges u) (weightHistory u) (workoutsCompleted u) (meals u) (role u).
Definition set_reminders (d : option string) (ws : list string) (u : User) : User :=
  mkUser (telegramId u) (firstName u) (username u) (profiles u) (activeProfileId u)
    (consentDataCollection u) d ws (streak u)
    (badges u) (weightHistory u) (workoutsCompleted u) (meals u) (role u).
Definition set_streak (n : Z) (bs : list string) (u : User) : User :=
  mkUser (telegramId u) (firstName u) (username u) (profiles u) (activeProfileId u)
    (consentDataCollection u) (workoutDailyAt u) (waterReminderTimes u) n
    bs (weightHistory u) (workoutsCompleted u) (meals u) (role u).
Definition push_weightHistory (e : WeightEntry) (u : User) : User :=
  mkUser (telegramId u) (firstName u) (username u) (profiles u) (activeProfileId u)
    (consentDataCollection u) (workoutDailyAt u) (waterReminderTimes u) (streak u)
    (badges u) (weightHistory u ++ [e]) (workoutsCompleted u) (meals u) (role u).
Definition push_workoutsCompleted (e : WorkoutDone) (u : User) : User :=
  mkUser (telegramId u) (firstName u) (username u) (profiles u) (activeProfileId u)
    (consentDataCollection u) (workoutDailyAt u) (waterReminderTimes u) (streak u)
    (badges u) (weightHistory u) (workoutsCompleted u ++ [e]) (meals u) (role u).
Definition push_meals (e : Meal) (u : User) : User :=
  mkUser (telegramId u) (firstName u) (username u) (profiles u) (activeProfileId u)
    (consentDataCollection u) (workoutDailyAt u) (waterReminderTimes u) (streak u)
    (badges u) (weightHistory u) (workoutsCompleted u) (meals u ++ [e]) (role u).
Definition set_role (r : string) (u : User) : User :=
  mkUser (telegramId u) (firstName u) (username u) (profiles u) (activeProfileId u)
    (consentDataCollection u) (workoutDailyAt u) (waterReminderTimes u) (streak u)
    (badges u) (weightHistory u) (workoutsCompleted u) (meals u) r.

(** [User.create({ telegramId, firstName, username })] with the schema's
    defaults. *)
Definition newUser (id : Z) (first user_name : string) : User :=
  mkUser id first user_name [] None true None [] 0 [] [] [] [] "user".

(** A profile literal as mongoose stores it: the given fields, a fresh [id]. *)
Definition newProfile (id name : string) (mins : option jsnum) : Profile :=
  mkProfile id (Some name) None None None (Some "beginner") (Some "general fitness")
    None [] mins.

(** ** Updates, environment, observable effects *)

(** [ctx.from]. An absent [first_name] or [username] is the empty string
    (both are falsy). *)
Record From : Type := mkFrom {
  from_id : Z;
  first_name : string;
  from_username : string
}.

Inductive Update : Type :=
| Text (from : From) (text : string)
| CallbackQuery (from : From) (cbdata : string).

Definition sender (u : Update) : Z :=
  match u with
  | Text f _ | CallbackQuery f _ => from_id f
  end.

(** What the outside world decides while one update is handled. [sendOk i]
    tells whether the [i]-th outbound [sendMessage] of the update is
    delivered or throws. *)
Record Env : Type := mkEnv {
  now : Z;
  uuid : string;
  objectId : string;
  sendOk : nat → bool;
  sendError : string
}.

(** The call sites of [bot.telegram.sendMessage]. *)
Inductive SendSite : Type :=
| TrainerNotify
| BroadcastSend
| AdminReplySend
| BroadcastFallbackSend
| BugNotify.

Inductive Event : Type :=
| Reply (text : string)
| ReplyDoc (what : string)
| ReplyWithPhoto (caption : string)
| AnswerCbQuery (text : string)
| SendMessage (site : SendSite) (chat : jsnum) (text : string) (delivered : bool).

(** The registered middleware that consumed an update; for the three
    state-driven [bot.on('text')] middlewares, the branch taken. *)
Inductive Handler : Type :=
| H_start
| H_hears (label : string)
| H_command (name : string)
| H_states (branch : string)
| H_callback_query
| H_admin_reply
| H_admin_states (branch : string)
| H_report_bug
| H_message
| H_unhandled.

Record Result : Type := mkResult {
  r_handler : Handler;
  r_world : World;
  r_events : list Event;
  r_threw : bool
}.

(** A handler that ran to its [return]. *)
Definition ret (h : Handler) (w : World) (evs : list Event) : Result :=
  mkResult h w evs false.

(** A handler that threw (a TypeError on [null] or [undefined]): the world is
    the one at the throw. *)
Definition thrown (h : Handler) (w : World) (evs : list Event) : Result :=
  mkResult h w evs true.

Definition nl : string := String (ascii_of_nat 10) EmptyString.

Definition show_nat (n : nat) : string := NilEmpty.string_of_uint (Nat.to_uint n).

(** [mention(ctx.from)]: [ctx.from] has no [firstName] property, so the
    fallback is always ['user']. *)
Definition mention (f : From) : string :=
  if String.eqb (from_username f) EmptyString then "user" else "@" +:+ from_username f.

(** [for (const x of recipients) { try { await sendMessage(x, text); sent+:+; }
    catch (e) { failed+:+; } }] from the counters and events so far; [i] is
    the position of the next send. *)
Fixpoint sendLoop (site : SendSite) (text : string) (ok : nat → bool) (i : nat)
    (recipients : list Z) (sent failed : nat) (evs : list Event)
  : list Event * nat * nat :=
  match recipients with
  | [] => (evs, sent, failed)
  | c :: rest =>
      if ok i
      then sendLoop site text ok (S i) rest (S sent) failed
             (evs ++ [SendMessage site (ofZ c) text true])
      else sendLoop site text ok (S i) rest sent (S failed)
             (evs ++ [SendMessage site (ofZ c) text false])
  end.

(** The same loop where the handler keeps no counters
    ([try { await sendMessage(..) } catch (e) {}]). *)
Definition notifyAll (site : SendSite) (text : string) (ok : nat → bool)
    (recipients : list Z) : list Event :=
  (sendLoop site text ok O recipients O O []).1.1.

(** [/^\d{1,2}:\d{2}$/.test(s)] *)
Definition is_hhmm (s : string) : bool :=
  match s with
  | String a (String ":" (String c (String d EmptyString))) =>
      is_digit a && is_digit c && is_digit d
  | String a (String b (String ":" (String c (String d EmptyString)))) =>
      is_digit a && is_digit b && is_digit c && is_digit d
  | _ => false
  end.

(** [moment(s, 'YYYY-MM-DD', true).isValid()]: strict format and a day that
    exists in the calendar. *)
Definition is_date (s : string) : bool :=
  match s with
  | String y1 (String y2 (String y3 (String y4 (String "-" (String m1 (String m2
      (String "-" (String d1 (String d2 EmptyString))))))))) =>
      if forallb is_digit [y1; y2; y3; y4; m1; m2; d1; d2] then
        let y := 1000 * digit_val y1 + 100 * digit_val y2 + 10 * digit_val y3 + digit_val y4 in
        let m := 10 * digit_val m1 + digit_val m2 in
        let d := 10 * digit_val d1 + digit_val d2 in
        let leap := (((y mod 4 =? 0) && negb (y mod 100 =? 0)) || (y mod 400 =? 0))%Z in
        let dim :=
          (if m =? 2 then (if leap then 29 else 28)
           else if (m =? 4) || (m =? 6) || (m =? 9) || (m =? 11) then 30 else 31)%Z in
        ((1 <=? m) && (m <=? 12) && (1 <=? d) && (d <=? dim))%Z
      else false
  | _ => false
  end.

(** A command as the transport marks it: the text starts with [/name] and
    the command name ends there. ([/name@bot] is not modelled.) *)
Definition is_command (name text : string) : bool :=
  let cmd := "/" +:+ name in
  startsWith cmd text &&
  match slice_from (String.length cmd) text with
  | EmptyString => true
  | String c _ =>
      let n := nat_of_ascii c in
      negb (is_digit c || ((65 <=? n) && (n <=? 90))%nat
            || ((97 <=? n) && (n <=? 122))%nat || (n =? 95)%nat || (n =? 64)%nat)
  end.

Definition dq : string := String (ascii_of_nat 34) EmptyString.

(** [a || b] on strings *)
Definition or_else (a b : string) : string :=
  if String.eqb a EmptyString then b else a.

Definition dataProfileId (id : option string) : Data :=
  {| d_profileId := id; d_profiles := None; d_list := None; d_toId := None |}.

(** [arr.slice(-n)] *)
Definition lastN {A} (n : nat) (l : list A) : list A := drop (length l - n) l.

(** ** The handlers, in registration order *)

Section Bot.

(** [process.env.ADMIN_PASS] *)
Variable env_ADMIN_PASS : option string.

(** [JSON.parse(t)]: [None] when it throws, else whether the parsed value is
    truthy. *)
Variable JSON_parse : string → option bool.

(** [process.env.ADMIN_PASS || null] *)
Definition ADMIN_PASS : option string :=
  match env_ADMIN_PASS with
  | Some EmptyString => None
  | p => p
  end.

Definition Middleware : Type := Update → Env → World → option Result.

(** [bot.hears(label, handler)]: the handler runs on a text message whose
    text is exactly [label], and never calls [next]. *)
Definition hears (label : string) (handler : From → Env → World → Result) : Middleware :=
  λ upd e w,
    match upd with
    | Text f t => if String.eqb t label then Some (handler f e w) else None
    | CallbackQuery _ _ => None
    end.

(** [bot.command(name, handler)] *)
Definition command (name : string) (handler : From → Env → World → Result) : Middleware :=
  λ upd e w,
    match upd with
    | Text f t => if is_command name t then Some (handler f e w) else None
    | CallbackQuery _ _ => None
    end.

(** [bot.start] (line 216) *)
Definition on_start (f : From) (e : Env) (w : World) : Result :=
  match findOne (from_id f) (users w) with
  | None =>
      let created := newUser (from_id f) (first_name f) (from_username f) in
      let p := newProfile (uuid e) (or_else (first_name f) "You") (Some (ofZ 30)) in
      let user := set_activeProfileId (Some (p_id p)) (set_profiles [p] created) in
      let w1 := set_users (λ us, save user (us ++ [created])) w in
      let w2 := states_set (from_id f)
                  {| step := "edit_profile_full";
                     data := Some (dataProfileId (activeProfileId user)) |} w1 in
      ret H_start w2
        [Reply ("Welcome " +:+ first_name f +:+ "! Profile created. Please complete your profile.");
         Reply "Send your age (number) to complete profile setup."]
  | Some _ =>
      ret H_start w [Reply ("Welcome back " +:+ first_name f +:+ "! Use the menu.")]
  end.

(** [bot.hears('📋 Profile')] (line 235) *)
Definition hears_Profile (f : From) (e : Env) (w : World) : Result :=
  let h := H_hears "📋 Profile" in
  match findOne (from_id f) (users w) with
  | None => ret h w [Reply "Please /start first."]
  | Some u => ret h w [ReplyDoc "*Profiles*"]
  end.

(** [bot.hears('✏️ Edit Profile')] *)
Definition hears_EditProfile (f : From) (e : Env) (w : World) : Result :=
  let h := H_hears "✏️ Edit Profile" in
  match findOne (from_id f) (users w) with
  | None => ret h w [Reply "Start with /start"]
  | Some u =>
      match targetProfile (activeProfileId u) (profiles u) with
      | None => thrown h w []
      | Some (_, active) =>
          ret h
            (states_set (from_id f)
               {| step := "editing_profile_field";
                  data := Some (dataProfileId (Some (p_id active))) |} w)
            [Reply "Which field do you want to edit? (name, age, weight, height, fitnessLevel, goal, targetDate, equipment, timeAvailability)"]
      end
  end.

(** [bot.hears('🔁 Switch Profile')] *)
Definition hears_SwitchProfile (f : From) (e : Env) (w : World) : Result :=
  let h := H_hears "🔁 Switch Profile" in
  match findOne (from_id f) (users w) with
  | None => ret h w [Reply "Start with /start"]
  | Some u =>
      match profiles u with
      | [] => ret h w [Reply "No profiles. Add one."]
      | ps =>
          ret h
            (states_set (from_id f)
               {| step := "switch_profile";
                  data := Some {| d_profileId := None; d_profiles := Some ps;
                                  d_list := None; d_toId := None |} |} w)
            [ReplyDoc "Send profile number to switch:"]
      end
  end.

(** [bot.hears('➕ Add Profile')] *)
Definition hears_AddProfile (f : From) (e : Env) (w : World) : Result :=
  let h := H_hears "➕ Add Profile" in
  match findOne (from_id f) (users w) with
  | None => ret h w [Reply "Start with /start"]
  | Some u =>
      let np := newProfile (uuid e) (or_else (first_name f) "Profile") None in
      let u1 := set_profiles (profiles u ++ [np]) u in
      let u2 := set_activeProfileId (Some (p_id np)) u1 in
      ret h (set_users (save u2) w)
        [Reply ("Added profile " +:+ dq +:+ or_else (first_name f) "Profile" +:+ dq
                +:+ " and switched to it. Use Edit Profile to complete details.")]
  end.

(** A menu entry that only opens a flow:
    [states.set(ctx.from.id, { step, data: {} }); return ctx.reply(prompt)]. *)
Definition open_flow (label step prompt : string) (f : From) (e : Env) (w : World)
  : Result :=
  ret (H_hears label)
    (states_set (from_id f) {| step := step; data := Some noData |} w)
    [Reply prompt].

(** A menu entry that only replies. *)
Definition just_reply (label text : string) (f : From) (e : Env) (w : World) : Result :=
  ret (H_hears label) w [Reply text].

(** [bot.hears('🏋️ Today')] *)
Definition hears_Today (f : From) (e : Env) (w : World) : Result :=
  let h := H_hears "🏋️ Today" in
  match workouts w with
  | [] => ret h w [Reply "No workouts configured."]
  | _ =>
      match findOne (from_id f) (users w) with
      | None => thrown h w []
      | Some u =>
          match targetProfile (activeProfileId u) (profiles u) with
          | None => thrown h w []
          | Some _ => ret h w [ReplyDoc "*Today's Workout*"]
          end
      end
  end.

(** [bot.hears('📝 My Plan')] *)
Definition hears_MyPlan (f : From) (e : Env) (w : World) : Result :=
  let h := H_hears "📝 My Plan" in
  match findOne (from_id f) (users w) with
  | None => thrown h w []
  | Some u =>
      match findProfile (activeProfileId u) (profiles u) with
      | None => thrown h w []
      | Some active =>
          let recent :=
            lastN 7 (List.filter
                       (λ d, bool_decide (wd_profileId d = Some (p_id active)))
                       (workoutsCompleted u)) in
          match recent with
          | [] => ret h w [ReplyDoc "*Your 3-day starter plan:*"]
          | _ => ret h w [Reply "Showing recent workouts (from history). Use Browse Exercises to build a plan."]
          end
      end
  end.

(** [bot.hears('🔎 Browse Exercises')] *)
Definition hears_BrowseExercises (f : From) (e : Env) (w : World) : Result :=
  let exs := take 30 (exercises w) in
  ret (H_hears "🔎 Browse Exercises")
    (states_set (from_id f)
       {| step := "browse_exercises";
          data := Some {| d_profileId := None; d_profiles := None;
                          d_list := Some exs; d_toId := None |} |} w)
    [ReplyDoc "*Exercise Library*"].

(** [bot.hears('📜 View Meals')] *)
Definition hears_ViewMeals (f : From) (e : Env) (w : World) : Result :=
  let h := H_hears "📜 View Meals" in
  match findOne (from_id f) (users w) with
  | None => thrown h w []
  | Some u =>
      match rev (lastN 10 (meals u)) with
      | [] => ret h w [Reply "No meals logged yet."]
      | _ => ret h w [ReplyDoc "*Recent Meals*"]
      end
  end.

(** [bot.hears('🍽️ Macro Advice')] *)
Definition hears_MacroAdvice (f : From) (e : Env) (w : World) : Result :=
  let h := H_hears "🍽️ Macro Advice" in
  match findOne (from_id f) (users w) with
  | None => thrown h w []
  | Some u =>
      match findProfile (activeProfileId u) (profiles u) with
      | None => ret h w [Reply "Set up profile first."]
      | Some _ => ret h w [ReplyDoc "Estimated daily calories"]
      end
  end.

(** [bot.hears('📊 Progress')] *)
Definition hears_Progress (f : From) (e : Env) (w : World) : Result :=
  let h := H_hears "📊 Progress" in
  match findOne (from_id f) (users w) with
  | None => thrown h w []
  | Some u =>
      match List.filter (λ x, bool_decide (Some (wh_profileId x) = activeProfileId u))
              (weightHistory u) with
      | [] => ret h w [Reply "No weight history yet. Log weight in profile edits or via /log (menu)."]
      | _ => ret h w [ReplyWithPhoto "Weight progress"]
      end
  end.

(** [bot.hears('Remove Reminders')] *)
Definition hears_RemoveReminders (f : From) (e : Env) (w : World) : Result :=
  let h := H_hears "Remove Reminders" in
  match findOne (from_id f) (users w) with
  | None => ret h w [Reply "Start with /start."]
  | Some u => ret h (set_users (save (set_reminders None [] u)) w) [Reply "Removed reminders."]
  end.

(** [bot.hears('🏆 Challenges')]. Which challenges are active depends on
    their dates, which are not interpreted: the listing stands for either
    reply when the collection is not empty. *)
Definition hears_Challenges (f : From) (e : Env) (w : World) : Result :=
  let h := H_hears "🏆 Challenges" in
  match challenges w with
  | [] => ret h w [Reply "No active challenges. Admin can create one from content management."]
  | _ => ret h w [ReplyDoc "*Active Challenges:*"]
  end.

(** The menu handlers registered before the state dispatcher (lines 235-426). *)
Definition menu_before_table : list (string * (From → Env → World → Result)) :=
  [
    ("📋 Profile", hears_Profile);
    ("✏️ Edit Profile", hears_EditProfile);
    ("🔁 Switch Profile", hears_SwitchProfile);
    ("➕ Add Profile", hears_AddProfile);
    ("🗑️ Delete Profile",
       open_flow "🗑️ Delete Profile" "delete_profile"
         "Send profile number to delete (cannot delete last profile).");
    ("💪 Workouts", just_reply "💪 Workouts" "Workouts menu");
    ("🏋️ Today", hears_Today);
    ("📝 My Plan", hears_MyPlan);
    ("🔎 Browse Exercises", hears_BrowseExercises);
    ("🍎 Nutrition", just_reply "🍎 Nutrition" "Nutrition menu");
    ("➕ Log Meal", open_flow "➕ Log Meal" "log_meal" "Send meal like: 600 oats + banana");
    ("📜 View Meals", hears_ViewMeals);
    ("🍽️ Macro Advice", hears_MacroAdvice);
    ("💧 Water Tracker",
       open_flow "💧 Water Tracker" "set_water_times"
         ("Send water reminder times separated by comma (e.g., 10:00,14:00,18:00) or "
         +:+ dq +:+ "off" +:+ dq +:+ " to disable."));
    ("📊 Progress", hears_Progress);
    ("📅 Reminders", just_reply "📅 Reminders" "Reminders menu");
    ("Set Daily Workout",
       open_flow "Set Daily Workout" "set_daily_reminder"
         "Send time like 18:30 (HH:mm) to receive daily workout reminder.");
    ("Set Water Reminders",
       open_flow "Set Water Reminders" "set_water_reminders"
         "Send times list like 09:00,12:00,15:00");
    ("Remove Reminders", hears_RemoveReminders);
    ("💬 Trainer",
       open_flow "💬 Trainer" "message_trainer"
         "Type your message for the trainer / admin (feedback or question).");
    ("🏆 Challenges", hears_Challenges);
    ("⚙️ Settings",
       just_reply "⚙️ Settings"
         "Settings: language, notifications, data request. Use buttons or type option.");
    ("ℹ️ Help",
       just_reply "ℹ️ Help"
         ("Help:" +:+ nl +:+ "• Use the menu to navigate features." +:+ nl
          +:+ "• Admins: use /admin to login." +:+ nl
          +:+ "• For data deletion or privacy queries, use Settings -> Request Data Deletion.")) ].

(** Each entry registered with [bot.hears]. *)
Definition menu_before : list Middleware :=
  List.map (λ lb, hears lb.1 lb.2) menu_before_table.

(** *** The state dispatcher: [bot.on('text')] at line 429 *)

(** [const user = await User.findOne(..); const prof = user.profiles.find(p =>
    p.id === state.data.profileId) || user.profiles[0]] followed by a write
    through [prof]: [None] when that throws (no user document, a session
    stored without [data], or no profile at all). *)
Definition userAndProfile (id : Z) (state : Session) (w : World)
  : option (User * nat * Profile) :=
  match findOne id (users w), data state with
  | Some user, Some d =>
      match targetProfile (d_profileId d) (profiles user) with
      | Some (i, prof) => Some (user, i, prof)
      | None => None
      end
  | _, _ => None
  end.

(** [prof.x = v] for the profile at position [i] of [user.profiles]. *)
Definition writeProfile (i : nat) (f : Profile → Profile) (user : User) : User :=
  set_profiles (alter f i (profiles user)) user.

(** Lines 434-444. *)
Definition flow_await_admin_pass (id : Z) (text : string) (w : World) : Result :=
  let h := H_states "await_admin_pass" in
  let w1 := states_delete id w in
  if bool_decide (ADMIN_PASS = Some text)
  then ret h (set_admins (λ s, {[id]} ∪ s) w1) [Reply "Admin access granted"]
  else ret h w1 [Reply "Wrong password"].

(** Lines 447-456. *)
Definition flow_edit_profile_full (id : Z) (state : Session) (text : string) (w : World)
  : Result :=
  let h := H_states "edit_profile_full" in
  let age := Number text in
  if isNaN age then ret h w [Reply "Please send a number for age."]
  else match userAndProfile id state w with
       | None => thrown h w []
       | Some (user, i, prof) =>
           let user1 := writeProfile i (set_age age) user in
           let w1 := set_users (save user1) w in
           ret h
             (states_set id {| step := "edit_profile_weight";
                               data := Some (dataProfileId (Some (p_id prof))) |} w1)
             [Reply "Send weight in kg (number)."]
       end.

(** Lines 457-468. *)
Definition flow_edit_profile_weight (id : Z) (state : Session) (text : string) (e : Env)
    (w : World) : Result :=
  let h := H_states "edit_profile_weight" in
  let val := Number text in
  if isNaN val then ret h w [Reply "Send numeric weight in kg."]
  else match userAndProfile id state w with
       | None => thrown h w []
       | Some (user, i, prof) =>
           let user1 := writeProfile i (set_weightKg val) user in
           let user2 := push_weightHistory (mkWeightEntry (p_id prof) val (now e)) user1 in
           let w1 := set_users (save user2) w in
           ret h
             (states_set id {| step := "edit_profile_height";
                               data := Some (dataProfileId (Some (p_id prof))) |} w1)
             [Reply "Send height in cm (number)."]
       end.

(** Lines 469-478. *)
Definition flow_edit_profile_height (id : Z) (state : Session) (text : string) (w : World)
  : Result :=
  let h := H_states "edit_profile_height" in
  let val := Number text in
  if isNaN val then ret h w [Reply "Send numeric height in cm."]
  else match userAndProfile id state w with
       | None => thrown h w []
       | Some (user, i, prof) =>
           let user1 := writeProfile i (set_heightCm val) user in
           let w1 := set_users (save user1) w in
           ret h (states_delete id w1) [Reply "Profile updated. Use the menu."]
       end.

Definition allowed : list string :=
  ["name"; "age"; "weight"; "height"; "fitnesslevel"; "goal"; "targetdate";
   "equipment"; "timeavailability"].

(** Lines 481-486. *)
Definition flow_editing_profile_field (id : Z) (state : Session) (text : string)
    (w : World) : Result :=
  let h := H_states "editing_profile_field" in
  let field := toLowerCase text in
  if negb (includes allowed field)
  then ret h w [Reply ("Field not recognized. Allowed: " +:+ join ", " allowed)]
  else ret h
         (states_set id {| step := "editing_profile_" +:+ field; data := data state |} w)
         [Reply ("Send new value for " +:+ field +:+ ".")].

(** Lines 487-519. The last branch, [prof[field] = text], is modelled for
    the two keys the field menu can produce there ([name], [goal]); any other
    key is taken as absent from the schema, so the write is dropped. *)
Definition flow_editing_profile (id : Z) (state : Session) (text : string) (e : Env)
    (w : World) : Result :=
  let h := H_states (step state) in
  let field := slice_from (String.length "editing_profile_") (step state) in
  match userAndProfile id state w with
  | None => thrown h w []
  | Some (user, i, prof) =>
      let finish (user1 : User) : Result :=
        ret h (states_delete id (set_users (save user1) w)) [Reply "Profile updated."] in
      if includes ["age"; "weight"; "height"; "timeavailability"] field then
        let num := Number text in
        if isNaN num then ret h w [Reply "Send a number."]
        else
          let user1 := if String.eqb field "age" then writeProfile i (set_age num) user
                       else user in
          let user2 := if String.eqb field "weight"
                       then push_weightHistory (mkWeightEntry (p_id prof) num (now e))
                              (writeProfile i (set_weightKg num) user1)
                       else user1 in
          let user3 := if String.eqb field "height"
                       then writeProfile i (set_heightCm num) user2 else user2 in
          let user4 := if String.eqb field "timeavailability"
                       then writeProfile i (set_timeAvailabilityMins num) user3
                       else user3 in
          finish user4
      else if String.eqb field "targetdate" then
        if negb (is_date text) then ret h w [Reply "Send date as YYYY-MM-DD"]
        else finish (writeProfile i (set_goalTargetDate text) user)
      else if String.eqb field "equipment" then
        finish (writeProfile i
                  (set_equipment
                     (List.filter (λ s, negb (String.eqb s EmptyString))
                        (List.map trim (split "," text)))) user)
      else if String.eqb field "fitnesslevel" then
        finish (writeProfile i (set_fitnessLevel (toLowerCase text)) user)
      else if String.eqb field "name" then finish (writeProfile i (set_name text) user)
      else if String.eqb field "goal" then finish (writeProfile i (set_goal text) user)
      else finish user
  end.

(** Lines 522-532. *)
Definition flow_switch_profile (id : Z) (state : Session) (text : string) (w : World)
  : Result :=
  let h := H_states "switch_profile" in
  let idx := Number text in
  if isNaN idx then ret h w [Reply "Send profile number."]
  else match data state with
       | None => thrown h w []
       | Some d =>
           let arr := default [] (d_profiles d) in
           if lt idx (ofZ 1) || gt idx (ofZ (Z.of_nat (length arr)))
           then ret h w [Reply "Invalid number."]
           else match findOne id (users w), index_pred idx ≫= (λ k, arr !! k) with
                | Some user, Some p =>
                    let w1 := set_users (save (set_activeProfileId (Some (p_id p)) user)) w in
                    ret h (states_delete id w1) [ReplyDoc "Switched to profile"]
                | _, _ => thrown h w []
                end
       end.

(** Lines 535-545. [user.profiles] is read only once the first two tests of
    the [||] chain have failed. *)
Definition flow_delete_profile (id : Z) (text : string) (w : World) : Result :=
  let h := H_states "delete_profile" in
  let idx := Number text in
  if isNaN idx || lt idx (ofZ 1) then ret h w [Reply "Invalid number."]
  else match findOne id (users w) with
       | None => thrown h w []
       | Some user =>
           let ps := profiles user in
           if gt idx (ofZ (Z.of_nat (length ps))) then ret h w [Reply "Invalid number."]
           else if (length ps =? 1)%nat then ret h w [Reply "Cannot delete last profile."]
           else
             let k := splice_start idx in
             match ps !! k, delete k ps with
             | Some removed, (first :: _) as rest =>
                 let user1 := set_profiles rest user in
                 let user2 :=
                   if bool_decide (activeProfileId user1 = Some (p_id removed))
                   then set_activeProfileId (Some (p_id first)) user1
                   else user1 in
                 ret h (states_delete id (set_users (save user2) w)) [Reply "Profile deleted."]
             | _, _ => thrown h w []
             end
       end.

(** Lines 548-556. *)
Definition flow_browse_exercises (id : Z) (state : Session) (text : string) (w : World)
  : Result :=
  let h := H_states "browse_exercises" in
  let idx := Number text in
  match data state with
  | None => thrown h w []
  | Some d =>
      let list := default [] (d_list d) in
      if isNaN idx || lt idx (ofZ 1) || gt idx (ofZ (Z.of_nat (length list)))
      then ret h w [Reply "Send exercise number to view details."]
      else match index_pred idx ≫= (λ k, list !! k) with
           | None => thrown h w []
           | Some ex => ret h (states_delete id w) [ReplyDoc "exercise details"]
           end
  end.

(** [await User.findOne({ telegramId }) || await User.create({ telegramId })]:
    the document and the collection that holds it. *)
Definition findOrCreate (id : Z) (us : list User) : User * list User :=
  match findOne id us with
  | Some u => (u, us)
  | None => (newUser id EmptyString EmptyString, us ++ [newUser id EmptyString EmptyString])
  end.

(** Lines 559-572. *)
Definition flow_log_meal (id : Z) (text : string) (e : Env) (w : World) : Result :=
  let h := H_states "log_meal" in
  let parts := split " " text in
  let calories := Number (default EmptyString (head parts)) in
  if isNaN calories
  then ret h w [Reply ("Start with calories, e.g., " +:+ dq +:+ "600 oats + banana" +:+ dq)]
  else
    let desc := or_else (join " " (tail parts)) "meal" in
    match findOne id (users w) with
    | None => thrown h w []
    | Some user =>
        let user1 := push_meals (mkMeal (activeProfileId user) calories desc (now e)) user in
        ret h (states_delete id (set_users (save user1) w)) [Reply "Meal logged."]
    end.

(** Lines 575-583. *)
Definition flow_set_daily_reminder (id : Z) (text : string) (w : World) : Result :=
  let h := H_states "set_daily_reminder" in
  if negb (is_hhmm text) then ret h w [Reply "Time format HH:mm"]
  else
    let '(user, us) := findOrCreate id (users w) in
    let user1 := set_reminders (Some text) (waterReminderTimes user) user in
    ret h (states_delete id (set_users (λ _, save user1 us) w))
      [Reply ("Daily reminder set at " +:+ text +:+ " (server time).")].

(** Lines 586-601. *)
Definition flow_set_water_reminders (id : Z) (text : string) (w : World) : Result :=
  let h := H_states "set_water_reminders" in
  if String.eqb (toLowerCase text) "off" then
    let w1 := match findOne id (users w) with
              | Some user => set_users (save (set_reminders (workoutDailyAt user) [] user)) w
              | None => w
              end in
    ret h (states_delete id w1) [Reply "Water reminders disabled."]
  else
    let times := List.filter is_hhmm (List.map trim (split "," text)) in
    match times with
    | [] => ret h w [Reply "Send times separated by comma in HH:mm format."]
    | _ =>
        let '(user, us) := findOrCreate id (users w) in
        let user1 := set_reminders (workoutDailyAt user) times user in
        ret h (states_delete id (set_users (λ _, save user1 us) w))
          [Reply "Water reminders set."]
    end.

(** Lines 604-615. *)
Definition flow_message_trainer (f : From) (text : string) (e : Env) (w : World) : Result :=
  let h := H_states "message_trainer" in
  let id := from_id f in
  match findOne id (users w) with
  | None => thrown h w []
  | Some user =>
      let w1 := set_relays
                  (λ rs, rs ++ [mkRelay (objectId e) id (activeProfileId user) text
                                  "message" false]) w in
      let evs := notifyAll TrainerNotify ("Message from " +:+ mention f +:+ ":" +:+ nl +:+ text)
                   (sendOk e) (elements (adminSessions w)) in
      ret h (states_delete id w1)
        (evs ++ [Reply "Message sent to trainer/admin. They will reply via admin panel."])
  end.

(** Lines 620-629: the broadcast branch of the state dispatcher. *)
Definition flow_admin_broadcast (id : Z) (text : string) (e : Env) (w : World) : Result :=
  let allUsers := List.map telegramId (users w) in
  let '(evs, sent, failed) :=
    sendLoop BroadcastSend ("📢 Message from Admin:" +:+ nl +:+ nl +:+ text) (sendOk e) O
      allUsers O O [] in
  ret (H_states "admin_broadcast") (states_delete id w)
    (evs ++ [Reply ("Broadcast complete. Sent " +:+ show_nat sent +:+ ", failed "
                    +:+ show_nat failed +:+ ".")]).

(** [bot.on('text', async (ctx, next) => ..)] at line 429. [None] is
    [return next()]. *)
Definition on_text_states : Middleware :=
  λ upd e w,
    match upd with
    | CallbackQuery _ _ => None
    | Text f raw =>
        let text := trim raw in
        let id := from_id f in
        match states w !! id with
        | None => None
        | Some state =>
            let s := step state in
            if String.eqb s "await_admin_pass" then Some (flow_await_admin_pass id text w)
            else if String.eqb s "edit_profile_full"
              then Some (flow_edit_profile_full id state text w)
            else if String.eqb s "edit_profile_weight"
              then Some (flow_edit_profile_weight id state text e w)
            else if String.eqb s "edit_profile_height"
              then Some (flow_edit_profile_height id state text w)
            else if String.eqb s "editing_profile_field"
              then Some (flow_editing_profile_field id state text w)
            else if startsWith "editing_profile_" s
              then Some (flow_editing_profile id state text e w)
            else if String.eqb s "switch_profile"
              then Some (flow_switch_profile id state text w)
            else if String.eqb s "delete_profile" then Some (flow_delete_profile id text w)
            else if String.eqb s "browse_exercises"
              then Some (flow_browse_exercises id state text w)
            else if String.eqb s "log_meal" then Some (flow_log_meal id text e w)
            else if String.eqb s "set_daily_reminder"
              then Some (flow_set_daily_reminder id text w)
            else if String.eqb s "set_water_reminders"
              then Some (flow_set_water_reminders id text w)
            else if String.eqb s "message_trainer"
              then Some (flow_message_trainer f text e w)
            else if bool_decide (id ∈ adminSessions w) && String.eqb s "admin_broadcast"
              then Some (flow_admin_broadcast id text e w)
            else None
        end
    end.

(** *** [bot.on('callback_query')] at line 637 *)

(** [data.split(':')[1]] *)
Definition after_colon (s : string) : string :=
  default EmptyString (split ":" s !! 1%nat).

Definition on_callback_query : Middleware :=
  λ upd e w,
    match upd with
    | Text _ _ => None
    | CallbackQuery f cb =>
        let h := H_callback_query in
        let id := from_id f in
        if startsWith "done:" cb then
          match findOne id (users w) with
          | None => Some (thrown h w [])
          | Some user =>
              let user1 := push_workoutsCompleted
                             (mkWorkoutDone (activeProfileId user) (after_colon cb) (now e))
                             user in
              let n := (streak user1 + 1)%Z in
              let bs := if (n =? 7)%Z && negb (includes (badges user1) "7-day-streak")
                        then badges user1 ++ ["7-day-streak"] else badges user1 in
              Some (ret h (set_users (save (set_streak n bs user1)) w)
                      [AnswerCbQuery "Logged done!"; Reply "Workout logged. Good job!"])
          end
        else if startsWith "skip:" cb then
          match findOne id (users w) with
          | None => Some (thrown h w [])
          | Some user =>
              Some (ret h (set_users (save (set_streak 0 (badges user) user)) w)
                      [AnswerCbQuery "Skipped"; Reply "Skipped. Streak reset."])
          end
        else if startsWith "replyto:" cb then
          let target := Number (after_colon cb) in
          if negb (bool_decide (id ∈ adminSessions w))
          then Some (ret h w [AnswerCbQuery "Unauthorized"])
          else Some (ret h
                       (states_set id
                          {| step := "admin_reply";
                             data := Some {| d_profileId := None; d_profiles := None;
                                             d_list := None; d_toId := Some target |} |} w)
                       [AnswerCbQuery EmptyString; Reply "Type reply to forward to user."])
        else if startsWith "markread:" cb then
          let rId := after_colon cb in
          Some (ret h
                  (set_relays
                     (List.map (λ r, if String.eqb (mr_id r) rId
                                     then mkRelay (mr_id r) (mr_fromId r) (mr_profileId r)
                                            (mr_text r) (mr_type r) true
                                     else r)) w)
                  [AnswerCbQuery "Marked read"])
        else Some (ret h w [AnswerCbQuery EmptyString])
    end.

(** *** Admin reply forwarding: [bot.on('text')] at line 676 *)

Definition on_text_admin_reply : Middleware :=
  λ upd e w,
    match upd with
    | CallbackQuery _ _ => None
    | Text f text =>
        let id := from_id f in
        match states w !! id with
        | Some st =>
            if String.eqb (step st) "admin_reply" && bool_decide (id ∈ adminSessions w) then
              match data st with
              | None => Some (thrown H_admin_reply w [])
              | Some d =>
                  let toId := default NaN (d_toId d) in
                  let msg := "Trainer reply:" +:+ nl +:+ nl +:+ text in
                  if sendOk e O
                  then Some (ret H_admin_reply (states_delete id w)
                               [SendMessage AdminReplySend toId msg true;
                                Reply "Reply forwarded."])
                  else Some (ret H_admin_reply (states_delete id w)
                               [SendMessage AdminReplySend toId msg false;
                                Reply ("Failed to forward: " +:+ sendError e)])
              end
            else None
        | None => None
        end
    end.

(** *** Admin commands and menu (lines 694-796) *)

(** [bot.command('admin')] *)
Definition command_admin (f : From) (e : Env) (w : World) : Result :=
  let h := H_command "admin" in
  match ADMIN_PASS with
  | None => ret h w [Reply "No admin password set on server."]
  | Some _ =>
      ret h (states_set (from_id f) {| step := "await_admin_pass"; data := None |} w)
        [Reply "Enter admin password (it will not be stored)."]
  end.

(** [bot.hears('⬅️ Logout Admin')] *)
Definition hears_LogoutAdmin (f : From) (e : Env) (w : World) : Result :=
  let h := H_hears "⬅️ Logout Admin" in
  if bool_decide (from_id f ∈ adminSessions w)
  then ret h (set_admins (λ s, s ∖ {[from_id f]}) w) [Reply "Logged out of admin."]
  else ret h w [Reply "You are not admin."].

(** An admin menu entry: [if (!adminSessions.has(ctx.from.id)) return
    ctx.reply(denial);] then the body. *)
Definition admin_only (label denial : string) (body : From → Env → World → Result)
    (f : From) (e : Env) (w : World) : Result :=
  if negb (bool_decide (from_id f ∈ adminSessions w))
  then ret (H_hears label) w [Reply denial]
  else body f e w.

(** An admin menu entry that opens a flow:
    [states.set(ctx.from.id, { step }); return ctx.reply(prompt)]. *)
Definition admin_open_flow (label step prompt : string) : From → Env → World → Result :=
  admin_only label "Admin only."
    (λ f e w, ret (H_hears label)
                (states_set (from_id f) {| step := step; data := None |} w)
                [Reply prompt]).

(** [bot.hears('🐞 Feedback')] after the guard: one reply per stored
    feedback or bug item. *)
Definition hears_Feedback (f : From) (e : Env) (w : World) : Result :=
  let h := H_hears "🐞 Feedback" in
  let items := take 50 (rev (List.filter
                               (λ r, includes ["feedback"; "bug"] (mr_type r)) (relays w))) in
  match items with
  | [] => ret h w [Reply "No feedback/bugs reported."]
  | _ => ret h w (List.map (λ _, ReplyDoc "feedback item") items)
  end.

(** The menu handlers registered after the admin-reply middleware. *)
Definition menu_admin_table : list (string * (From → Env → World → Result)) :=
  [
    ("⬅️ Logout Admin", hears_LogoutAdmin);
    ("👥 User Mgmt",
       admin_only "👥 User Mgmt" "Admin only. Use /admin."
         (λ f e w, ret (H_hears "👥 User Mgmt") w [ReplyDoc "Users"]));
    ("Promote User",
       admin_open_flow "Promote User" "promote_user"
         "Send telegramId to promote to admin (user will be able to access admin panel).");
    ("Demote User",
       admin_open_flow "Demote User" "demote_user"
         "Send telegramId to demote (remove admin role).");
    ("Remove User",
       admin_open_flow "Remove User" "remove_user"
         "Send telegramId to remove user from DB (this cannot be undone here).");
    ("✍️ Content Mgmt",
       admin_only "✍️ Content Mgmt" "Admin only."
         (just_reply "✍️ Content Mgmt"
         "Content management: Create Workout / Create Exercise / Create Challenge / View Content"));
    ("Create Exercise",
       admin_open_flow "Create Exercise" "create_exercise"
         ("Send exercise JSON or simple text " +:+ dq
         +:+ "name | category | difficulty | muscles | equipment | tips | description"
         +:+ dq));
    ("Create Workout",
       admin_open_flow "Create Workout" "create_workout"
         "Send workout JSON or text. For JSON use the schema: {name, description, exercises:[{name,sets,reps}], difficulty, durationMins}");
    ("Create Challenge",
       admin_open_flow "Create Challenge" "create_challenge"
         "Send challenge JSON: {name,description,startDate(YYYY-MM-DD),endDate(YYYY-MM-DD)}");
    ("View Content",
       admin_only "View Content" "Admin only."
         (λ f e w, ret (H_hears "View Content") w [ReplyDoc "Content counts"]));
    ("📊 Analytics",
       admin_only "📊 Analytics" "Admin only."
         (λ f e w, ret (H_hears "📊 Analytics") w [ReplyDoc "Analytics"]));
    ("📢 Broadcast",
       admin_open_flow "📢 Broadcast" "admin_broadcast"
         "Send the broadcast message to all users (text).");
    ("🐞 Feedback", admin_only "🐞 Feedback" "Admin only." hears_Feedback) ].

(** Each entry registered with [bot.hears]. *)
Definition menu_admin : list Middleware :=
  List.map (λ lb, hears lb.1 lb.2) menu_admin_table.

(** *** Fallback state handlers for admin operations: [bot.on('text')] at
    line 834 *)

(** Lines 839-856: promote and demote. A key that is not the id of a stored
    user (NaN included) finds no document. *)
Definition flow_set_role (branch newRole : string) (id : Z) (t : string) (w : World)
  : Result :=
  let h := H_admin_states branch in
  match findOneNum (Number t) (users w) with
  | None => ret h (states_delete id w) [Reply "User not found"]
  | Some u =>
      ret h (states_delete id (set_users (save (set_role newRole u)) w))
        [ReplyDoc (if String.eqb newRole "admin" then "Promoted" else "Demoted")]
  end.

(** Lines 857-862. *)
Definition flow_remove_user (id : Z) (t : string) (w : World) : Result :=
  ret (H_admin_states "remove_user")
    (states_delete id (set_users (deleteOne (Number t)) w))
    [ReplyDoc "Delete result"].

(** [s ? s.split(',').map(x => x.trim()) : []] for an optional part. *)
Definition csv (s : option string) : list string :=
  match s with
  | Some x => if String.eqb x EmptyString then [] else List.map trim (split "," x)
  | None => []
  end.

(** Lines 865-878. *)
Definition flow_create_exercise (id : Z) (t : string) (w : World) : Result :=
  let h := H_admin_states "create_exercise" in
  let invalid :=
    ret h w [Reply ("Invalid format. Send JSON or " +:+ dq
                    +:+ "name | category | difficulty | muscles | equipment | tips | description"
                    +:+ dq)] in
  let created (ex : Exercise) :=
    ret h (states_delete id (add_exercise ex w)) [Reply "Exercise created."] in
  match JSON_parse t with
  | Some true => created (ExJson t)
  | Some false => invalid
  | None =>
      let parts := List.map trim (split "|" t) in
      if (2 <=? length parts)%nat then
        created (ExFields (default EmptyString (parts !! 0%nat))
                   (default EmptyString (parts !! 1%nat))
                   (or_else (default EmptyString (parts !! 2%nat)) "medium")
                   (csv (parts !! 3%nat)) (csv (parts !! 4%nat))
                   (default EmptyString (parts !! 5%nat))
                   (default EmptyString (parts !! 6%nat)))
      else invalid
  end.

(** Lines 881-887. *)
Definition flow_create_workout (id : Z) (t : string) (w : World) : Result :=
  let h := H_admin_states "create_workout" in
  match JSON_parse t with
  | None => ret h w [Reply "Send valid JSON for workout"]
  | Some _ => ret h (states_delete id (add_workout (mkContent t) w)) [Reply "Workout created."]
  end.

(** Lines 890-898. A falsy parsed value is taken to be [null], on which
    [obj.startDate] throws. *)
Definition flow_create_challenge (id : Z) (t : string) (w : World) : Result :=
  let h := H_admin_states "create_challenge" in
  match JSON_parse t with
  | None => ret h w [Reply "Send valid JSON for challenge"]
  | Some false => thrown h w []
  | Some true =>
      ret h (states_delete id (add_challenge (mkContent t) w)) [Reply "Challenge created."]
  end.

(** Lines 901-910: the broadcast branch of the fallback middleware. *)
Definition flow_admin_broadcast_fallback (id : Z) (t : string) (e : Env) (w : World)
  : Result :=
  let message := t in
  let users_ := List.map telegramId (users w) in
  let '(evs, sent, failed) :=
    sendLoop BroadcastFallbackSend ("📢 Admin Broadcast:" +:+ nl +:+ nl +:+ message)
      (sendOk e) O users_ O O [] in
  ret (H_admin_states "admin_broadcast") (states_delete id w)
    (evs ++ [Reply ("Broadcast sent to " +:+ show_nat sent +:+ " users, failed "
                    +:+ show_nat failed +:+ ".")]).

Definition on_text_admin_states : Middleware :=
  λ upd e w,
    match upd with
    | CallbackQuery _ _ => None
    | Text f raw =>
        let t := trim raw in
        let id := from_id f in
        match states w !! id with
        | None => None
        | Some st =>
            let s := step st in
            let has := bool_decide (id ∈ adminSessions w) in
            if String.eqb s "promote_user" && has then Some (flow_set_role s "admin" id t w)
            else if String.eqb s "demote_user" && has
              then Some (flow_set_role s "user" id t w)
            else if String.eqb s "remove_user" && has then Some (flow_remove_user id t w)
            else if String.eqb s "create_exercise" && has
              then Some (flow_create_exercise id t w)
            else if String.eqb s "create_workout" && has
              then Some (flow_create_workout id t w)
            else if String.eqb s "create_challenge" && has
              then Some (flow_create_challenge id t w)
            else if String.eqb s "admin_broadcast" && has
              then Some (flow_admin_broadcast_fallback id t e w)
            else None
        end
    end.

(** *** Privacy, bug reports and the final fallback (lines 917-950) *)

(** [bot.hears('Request Data Deletion')] *)
Definition hears_RequestDataDeletion (f : From) (e : Env) (w : World) : Result :=
  let h := H_hears "Request Data Deletion" in
  match findOne (from_id f) (users w) with
  | None => ret h w [Reply "No account found."]
  | Some u =>
      let w1 := set_users (save (set_consent false u)) w in
      let w2 := set_relays
                  (λ rs, rs ++ [mkRelay (objectId e) (from_id f) None
                                  "User requested data deletion" "privacy" false]) w1 in
      ret h w2 [Reply "Your deletion request has been submitted to admins. We will process it manually. (Full automated deletion will be implemented server-side.)"]
  end.

(** [bot.command('report')] *)
Definition command_report (f : From) (e : Env) (w : World) : Result :=
  ret (H_command "report")
    (states_set (from_id f) {| step := "report_bug"; data := None |} w)
    [Reply "Please describe the bug or feedback. Send message now."].

(** [bot.on('text')] at line 932 *)
Definition on_text_report : Middleware :=
  λ upd e w,
    match upd with
    | CallbackQuery _ _ => None
    | Text f text =>
        let id := from_id f in
        match states w !! id with
        | Some st =>
            if String.eqb (step st) "report_bug" then
              let w1 := set_relays
                          (λ rs, rs ++ [mkRelay (objectId e) id None text "bug" false]) w in
              let evs := notifyAll BugNotify
                           ("🐞 Bug reported by " +:+ mention f +:+ ":" +:+ nl +:+ text)
                           (sendOk e) (elements (adminSessions w)) in
              Some (ret H_report_bug (states_delete id w1)
                      (evs ++ [Reply "Thanks — bug report submitted."]))
            else None
        | None => None
        end
    end.

(** [bot.on('message')] *)
Definition on_message : Middleware :=
  λ upd e w,
    match upd with
    | Text _ _ =>
        Some (ret H_message w [Reply "I did not understand that. Use the menu below or /help."])
    | CallbackQuery _ _ => None
    end.

(** ** The router *)

(** Every middleware of the bot, in registration order. *)
Definition middlewares : list Middleware :=
  [command "start" on_start]
  ++ menu_before
  ++ [on_text_states; on_callback_query; on_text_admin_reply; command "admin" command_admin]
  ++ menu_admin
  ++ [on_text_admin_states;
      hears "Request Data Deletion" hears_RequestDataDeletion;
      command "report" command_report;
      on_text_report;
      on_message].

(** Telegraf runs the middlewares in order; each either consumes the update
    or calls [next]. *)
Fixpoint run (ms : list Middleware) (upd : Update) (e : Env) (w : World) : option Result :=
  match ms with
  | [] => None
  | m :: rest =>
      match m upd e w with
      | Some r => Some r
      | None => run rest upd e w
      end
  end.

(** One update handled by the bot. An update that no middleware consumes
    changes nothing. *)
Definition turn (upd : Update) (e : Env) (w : World) : Result :=
  default (mkResult H_unhandled w [] false) (run middlewares upd e w).

End Bot.

(** ** Which texts never reach the state dispatcher *)

(** The labels of the menu handlers registered before the state dispatcher. *)
Definition labels_before : list string := List.map fst menu_before_table.

(** A text that [bot.start] or one of those menu handlers consumes. *)
Definition preempted (raw : string) : bool :=
  is_command "start" raw || includes labels_before raw.

(** The steps whose branch of the state dispatcher needs no elevation. *)
Definition dispatcher_step (s : string) : bool :=
  includes ["await_admin_pass"; "edit_profile_full"; "edit_profile_weight";
            "edit_profile_height"; "editing_profile_field"; "switch_profile";
            "delete_profile"; "browse_exercises"; "log_meal"; "set_daily_reminder";
            "set_water_reminders"; "message_trainer"] s
  || startsWith "editing_profile_" s.

(** The middlewares from the state dispatcher on. *)
Definition from_dispatcher (pass : option string) (J : string → option bool)
  : list Middleware :=
  [on_text_states pass; on_callback_query; on_text_admin_reply;
   command "admin" (command_admin pass)]
  ++ menu_admin
  ++ [on_text_admin_states J;
      hears "Request Data Deletion" hears_RequestDataDeletion;
      command "report" command_report;
      on_text_report;
      on_message].

(** The steps that validate a number: the three onboarding steps and the
    four numeric branches of the field editor. *)
Definition numeric_steps : list string :=
  ["edit_profile_full"; "edit_profile_weight"; "edit_profile_height";
   "editing_profile_age"; "editing_profile_weight"; "editing_profile_height";
   "editing_profile_timeavailability"].

(** The events of a fan-out whose first send has position [i]. *)
Fixpoint sends (site : SendSite) (text : string) (ok : nat → bool) (i : nat)
    (recipients : list Z) : list Event :=
  match recipients with
  | [] => []
  | c :: rest => SendMessage site (ofZ c) text (ok i) :: sends site text ok (S i) rest
  end.

(** How many of the [n] sends from position [i] on fail. *)
Fixpoint failures (ok : nat → bool) (i n : nat) : nat :=
  match n with
  | O => O
  | S n' => (if ok i then O else 1%nat) + failures ok (S i) n'
  end.


(** The fitness levels of the schema comment. *)
Definition fitness_levels : list string := ["beginner"; "intermediate"; "advanced"].

(** ** Privileged effects *)

(** The branches that perform an admin operation: the two broadcast
    branches, the admin reply, and the promote, demote, remove and create
    branches of the fallback middleware. *)
Definition privileged_handler (h : Handler) : bool :=
  match h with
  | H_states b => String.eqb b "admin_broadcast"
  | H_admin_reply | H_admin_states _ => true
  | _ => false
  end.

(** The sends of a broadcast or of an admin reply. *)
Definition privileged_event (ev : Event) : bool :=
  match ev with
  | SendMessage (BroadcastSend | AdminReplySend | BroadcastFallbackSend) _ _ _ => true
  | _ => false
  end.

(** Who is stored, with which role. *)
Definition idroles (us : list User) : list (Z * string) :=
  List.map (λ u, (telegramId u, role u)) us.

(** No stored user is removed or changes role; users may be added, with the
    role [user]. *)
Definition users_kept (us us' : list User) : Prop :=
  ∃ new, idroles us' = idroles us ++ new ∧ Forall (λ x : Z * string, x.2 = "user") new.

(** The result of a turn that performed no admin operation. *)
Definition no_privileged_effect (w : World) (r : Result) : Prop :=
  privileged_handler (r_handler r) = false ∧
  users_kept (users w) (users (r_world r)) ∧
  exercises (r_world r) = exercises w ∧
  workouts (r_world r) = workouts w ∧
  challenges (r_world r) = challenges w ∧
  Forall (λ ev, privileged_event ev = false) (r_events r).

(** A property of every result a middleware can return. *)
Definition holds_for (P : Update → Env → World → Result → Prop) (m : Middleware) : Prop :=
  ∀ upd e w r, m upd e w = Some r → P upd e w r.

(** The statement of C6 for one result. *)
Definition unprivileged_turn : Update → Env → World → Result → Prop :=
  λ upd e w r, sender upd ∉ adminSessions w → no_privileged_effect w r.

(** ** Elevation over several turns *)

(** The explicit logout action of user [uid]: the text of the logout button. *)
Definition is_logout (uid : Z) (upd : Update) : Prop :=
  ∃ f, upd = Text f "⬅️ Logout Admin" ∧ from_id f = uid.

(** How one turn may change the elevation set: not at all, by adding the
    sender in the password branch, or by removing the sender who sent the
    logout text. *)
Definition elevation_change : Update → Env → World → Result → Prop :=
  λ upd e w r,
    adminSessions (r_world r) = adminSessions w
    ∨ (r_handler r = H_states "await_admin_pass"
       ∧ adminSessions (r_world r) = {[sender upd]} ∪ adminSessions w)
    ∨ (is_logout (sender upd) upd
       ∧ adminSessions (r_world r) = adminSessions w ∖ {[sender upd]}).

(** The world after a list of updates, each with its environment. *)
Fixpoint turns (pass : option string) (J : string → option bool)
    (l : list (Update * Env)) (w : World) : World :=
  match l with
  | [] => w
  | (upd, e) :: rest => turns pass J rest (r_world (turn pass J upd e w))
  end.

(** The result is not the broadcast branch of the fallback middleware. *)
Definition not_fallback_broadcast : Update → Env → World → Result → Prop :=
  λ upd e w r, r_handler r ≠ H_admin_states "admin_broadcast".

(** ** Concrete inputs for the examples *)

Definition no_json : string → option bool := λ _, None.

Definition alice : From := mkFrom 7 "Alice" "alice".

Definition env0 : Env := mkEnv 1000 "uuid-1" "oid-1" (λ _, true) "blocked".

Definition env1 : Env := mkEnv 2000 "uuid-2" "oid-2" (λ _, true) "blocked".

Definition empty_world : World := mkWorld ∅ ∅ [] [] [] [] [].

(** The world after a list of texts sent by [alice], one after the other. *)
Definition after_texts (pass : option string) (texts : list string) (w : World) : World :=
  foldl (λ w t, r_world (turn pass no_json (Text alice t) env0 w)) w texts.

(** A user with two profiles, the second one active, in the delete flow. *)
Definition two_profiles : World :=
  Eval vm_compute in
    after_texts None ["🗑️ Delete Profile"]
      (r_world (turn None no_json (Text alice "➕ Add Profile") env1
                  (after_texts None ["/start"; "29"; "82"; "180"] empty_world))).


(** An admin who opened the promote flow and then logged out. *)
Definition logged_out_mid_flow : World :=
  Eval vm_compute in
    after_texts (Some "secret")
      ["/admin"; "secret"; "Promote User"; "⬅️ Logout Admin"] empty_world.

(** The steps whose branch is in the admin fallback middleware (line 834)
    and is reached there. *)
Definition fallback_steps : list string :=
  ["promote_user"; "demote_user"; "remove_user"; "create_exercise"; "create_workout";
   "create_challenge"].

(** [alice], elevated, about to name the user to promote. *)
Definition admin_in_promote_flow : World :=
  Eval vm_compute in
    after_texts (Some "secret") ["/admin"; "secret"; "Promote User"] empty_world.

(** * Definitions for the further properties *)

(** ** What one update may touch *)

(** A turn leaves the session of everybody but the sender alone. *)
Definition sessions_of_others_kept : Update → Env → World → Result → Prop :=
  λ upd e w r, ∀ k, k ≠ sender upd → states (r_world r) !! k = states w !! k.

(** The three logs of a user document only grow from [u0] to [u]. *)
Definition logs_grow (u0 u : User) : Prop :=
  weightHistory u0 `prefix_of` weightHistory u ∧
  meals u0 `prefix_of` meals u ∧
  workoutsCompleted u0 `prefix_of` workoutsCompleted u.

(** What one turn may do to the stored users: nothing; save one document
    again, the sender's own with its role kept, or any when the sender is
    elevated, with its logs only grown; store a new document for the sender,
    with the role [user]; or, for an elevated sender in the remove branch,
    delete one document. *)
Definition users_touch : Update → Env → World → Result → Prop :=
  λ upd e w r,
    users (r_world r) = users w
    ∨ (∃ t u0 u,
         findOne t (users w) = Some u0 ∧ users (r_world r) = save u (users w) ∧
         telegramId u = t ∧ logs_grow u0 u ∧
         ((t = sender upd ∧ role u = role u0) ∨ sender upd ∈ adminSessions w))
    ∨ (∃ u,
         findOne (sender upd) (users w) = None ∧ users (r_world r) = users w ++ [u] ∧
         telegramId u = sender upd ∧ role u = "user")
    ∨ (sender upd ∈ adminSessions w ∧ r_handler r = H_admin_states "remove_user"
       ∧ ∃ n, users (r_world r) = deleteOne n (users w)).

Definition bob : From := mkFrom 9 "Bob" "bob".

(** [bob] has opened the meal flow and logged a meal; nobody else is stored. *)
Definition bob_logging : World :=
  Eval vm_compute in
    r_world (turn None no_json (Text bob "➕ Log Meal") env0
               (r_world (turn None no_json (Text bob "/start") env1 empty_world))).

(** A stored relay after a turn: the same message, its read flag not unset. *)
Definition relay_same (a b : MessageRelay) : Prop :=
  mr_id b = mr_id a ∧ mr_fromId b = mr_fromId a ∧ mr_profileId b = mr_profileId a ∧
  mr_text b = mr_text a ∧ mr_type b = mr_type a ∧ (mr_read a = true → mr_read b = true).

(** What one turn may do to the relayed messages: keep each one, and append
    at most one. *)
Definition relays_touch : Update → Env → World → Result → Prop :=
  λ upd e w r,
    ∃ kept new, relays (r_world r) = kept ++ new ∧
                Forall2 relay_same (relays w) kept ∧ (length new ≤ 1)%nat.

(** Whoever is elevated after a turn was elevated before it, or has just
    sent the configured password in the password step. *)
Definition elevated_by_password (pass : option string)
  : Update → Env → World → Result → Prop :=
  λ upd e w r,
    ∀ id, id ∈ adminSessions (r_world r) →
          id ∈ adminSessions w
          ∨ ∃ f raw st, upd = Text f raw ∧ from_id f = id ∧ states w !! id = Some st ∧
                        step st = "await_admin_pass" ∧ ADMIN_PASS pass = Some (trim raw).

(** An idle user who asked for the password prompt. *)
Definition awaiting_password : World :=
  Eval vm_compute in after_texts (Some "secret") ["/admin"] empty_world.

(** ** Texts and steps nobody owns *)

(** The labels of the menu handlers registered after the admin-reply
    middleware. *)
Definition labels_admin : list string := List.map fst menu_admin_table.

(** A text that no command and no menu handler consumes. *)
Definition plain_text (raw : string) : bool :=
  negb (preempted raw) && negb (is_command "admin" raw) && negb (includes labels_admin raw)
  && negb (String.eqb raw "Request Data Deletion") && negb (is_command "report" raw).

(** The steps for which some text middleware has a branch. *)
Definition owned_step (s : string) : bool :=
  dispatcher_step s
  || includes ["admin_broadcast"; "admin_reply"; "promote_user"; "demote_user";
               "remove_user"; "create_exercise"; "create_workout"; "create_challenge";
               "report_bug"] s.

(** The session of a user is absent or in a step without a branch. *)
Definition no_owned_session (w : World) (id : Z) : Prop :=
  match states w !! id with
  | None => True
  | Some st => owned_step (step st) = false
  end.

(** The session of a user lets a text through to the admin menu: it is
    absent, or in a step that neither the state dispatcher nor the
    admin-reply middleware has a branch for. *)
Definition reaches_admin_menu (w : World) (id : Z) : Prop :=
  match states w !! id with
  | None => True
  | Some st =>
      dispatcher_step (step st) = false ∧ step st ≠ "admin_broadcast"
      ∧ step st ≠ "admin_reply"
  end.

(** [alice] after pressing the water tracker entry. *)
Definition water_tracker_open : World :=
  Eval vm_compute in after_texts None ["/start"; "💧 Water Tracker"] empty_world.

(** [alice], elevated, composing a broadcast. *)
Definition composing_broadcast : World :=
  Eval vm_compute in
    after_texts (Some "secret") ["/admin"; "secret"; "📢 Broadcast"] empty_world.

(** [alice] with a streak of six completed workouts. *)
Definition six_day_streak : World :=
  Eval vm_compute in
    foldl (λ w d, r_world (turn None no_json (CallbackQuery alice d) env0 w))
      (after_texts None ["/start"] empty_world)
      ["done:a"; "done:b"; "done:c"; "done:d"; "done:e"; "done:f"].

(** [alice], elevated and idle. *)
Definition elevated_idle : World :=
  Eval vm_compute in after_texts (Some "secret") ["/admin"; "secret"] empty_world.



(** Whether the character [c] occurs in [s]. *)
Fixpoint has_char (c : ascii) (s : string) : bool :=
  match s with
  | EmptyString => false
  | String a r => Ascii.eqb a c || has_char c r
  end.

(** [alice] about to log a meal. *)
Definition logging_meal : World :=
  Eval vm_compute in after_texts None ["/start"; "➕ Log Meal"] empty_world.

(** ** The scheduled jobs (lines 799-831) *)

(** A two-digit field of [moment().format(..)]. *)
Definition two_digits (n : nat) : string :=
  if (n <? 10)%nat then "0" +:+ show_nat n else show_nat n.

(** [moment().format('HH:mm')] at hour [h] and minute [m] of the server
    clock. *)
Definition format_HHmm (h m : nat) : string := two_digits h +:+ ":" +:+ two_digits m.

(** A [bot.telegram.sendMessage] of a job: the kind of message, the chat it
    goes to and whether it was delivered or threw. *)
Inductive JobSend : Type :=
| WorkoutReminder (chat : Z) (delivered : bool)
| WaterReminder (chat : Z) (delivered : bool)
| WeeklySummary (chat : Z) (count : nat) (delivered : bool).

(** The job of every minute (line 799), run at [h]:[m]. Nothing is written,
    and a failed send is swallowed by its [try]. [ok i] tells whether the
    [i]-th send of the run is delivered. The test on
    [preferences.notifications.reminders] never skips a user: the schema
    gives the flag the default [true] and no code writes it. *)
Definition reminders_job (h m : nat) (ok : nat → bool) (w : World) : list JobSend :=
  let hhmm := format_HHmm h m in
  let users_ := List.filter (λ u, bool_decide (workoutDailyAt u = Some hhmm)) (users w) in
  let waterUsers := List.filter (λ u, includes (waterReminderTimes u) hhmm) (users w) in
  imap (λ i u, WorkoutReminder (telegramId u) (ok i)) users_
  ++ imap (λ i u, WaterReminder (telegramId u) (ok (length users_ + i)%nat)) waterUsers.

(** The completions the weekly summary counts for a document at time [t]
    (milliseconds): those of the active profile in the last seven days. *)
Definition weekly_count (t : Z) (u : User) : nat :=
  length (List.filter
            (λ s, bool_decide (wd_profileId s = activeProfileId u)
                  && (t - 7 * 24 * 3600 * 1000 <=? wd_date s)%Z)
            (workoutsCompleted u)).

(** The job of Sunday 08:00 (line 819), run at time [t]. *)
Definition weekly_job (t : Z) (ok : nat → bool) (w : World) : list JobSend :=
  imap (λ i u, WeeklySummary (telegramId u) (weekly_count t u) (ok i)) (users w).

(** [alice] about to send the time of her daily reminder. *)
Definition setting_reminder : World :=
  Eval vm_compute in after_texts None ["/start"; "Set Daily Workout"] empty_world.

(** [alice] with a daily reminder and two water reminders. *)
Definition with_reminders : World :=
  Eval vm_compute in
    after_texts None
      ["/start"; "Set Daily Workout"; "18:30"; "Set Water Reminders"; "09:00, 12:00"]
      empty_world.

(** [alice] about to send her water reminder times. *)
Definition setting_water : World :=
  Eval vm_compute in after_texts None ["/start"; "Set Water Reminders"] empty_world.

(** ** The steps a session can be in *)

(** The steps of the [states.set] calls of the program, in source order; the
    field editor stores one step for each field it allows. *)
Definition stored_steps : list string :=
  ["edit_profile_full"; "editing_profile_field"; "switch_profile"; "delete_profile";
   "browse_exercises"; "log_meal"; "set_water_times"; "set_daily_reminder";
   "set_water_reminders"; "message_trainer"; "edit_profile_weight"; "edit_profile_height"]
  ++ List.map (λ field, "editing_profile_" +:+ field) allowed
  ++ ["admin_reply"; "await_admin_pass"; "promote_user"; "demote_user"; "remove_user";
      "create_exercise"; "create_workout"; "create_challenge"; "admin_broadcast";
      "report_bug"].

(** Every session of the world is in one of those steps. *)
Definition steps_known (w : World) : Prop :=
  map_Forall (λ (_ : Z) st, includes stored_steps (step st) = true) (states w).

Definition steps_stay_known : Update → Env → World → Result → Prop :=
  λ upd e w r, steps_known w → steps_known (r_world r).

(** [alice], elevated, about to name the user to promote; [bob] is stored. *)
Definition promoting : World :=
  Eval vm_compute in
    after_texts (Some "secret") ["/admin"; "secret"; "Promote User"]
      (r_world (turn (Some "secret") no_json (Text bob "/start") env1 empty_world)).

(** [alice], elevated, about to name the user to remove; [bob] is stored and
    has opened the meal flow. *)
Definition removing : World :=
  Eval vm_compute in
    after_texts (Some "secret") ["/admin"; "secret"; "Remove User"] bob_logging.



(** * Properties *)

(** ** The number parser on a few inputs *)

Example Number_29 : Js.Number "29" = Js.ofZ 29.
Proof. reflexivity. Qed.

Example Number_abc : Js.Number "abc" = Js.NaN.
Proof. reflexivity. Qed.

Example Number_frac : Js.Number " 1.50e1 " = Js.ofZ 15.
Proof. reflexivity. Qed.

Example Number_hex : Js.Number "0x1f" = Js.ofZ 31.
Proof. reflexivity. Qed.

Example Number_half : Js.Number ".5" = Js.Fin (1 # 2).
Proof. reflexivity. Qed.

(** ** Routing lemmas *)

Lemma run_app ms1 ms2 upd e w :
  run (ms1 ++ ms2) upd e w =
  match run ms1 upd e w with
  | Some r => Some r
  | None => run ms2 upd e w
  end.
Proof.
  induction ms1 as [|m ms1 IH]; simpl; [reflexivity|].
  destruct (m upd e w); [reflexivity | apply IH].
Qed.

Lemma middlewares_split pass J :
  middlewares pass J = ([command "start" on_start] ++ menu_before) ++ from_dispatcher pass J.
Proof. unfold middlewares, from_dispatcher. rewrite <- !app_assoc. reflexivity. Qed.

Lemma run_hears tbl f raw e w :
  run (List.map (λ lb, hears lb.1 lb.2) tbl) (Text f raw) e w =
  (λ lb : string * (From → Env → World → Result), lb.2 f e w)
    <$> List.find (λ lb, String.eqb raw lb.1) tbl.
Proof.
  induction tbl as [|[l b] tbl IH]; [reflexivity|].
  cbn [List.map run List.find hears fst snd].
  destruct (String.eqb raw l); [reflexivity | exact IH].
Qed.

Lemma find_label_None (tbl : list (string * (From → Env → World → Result))) raw :
  includes (List.map fst tbl) raw = false →
  List.find (λ lb, String.eqb raw lb.1) tbl = None.
Proof.
  unfold includes. induction tbl as [|[l b] tbl IH]; [reflexivity|].
  cbn [List.map existsb List.find fst]. intros H.
  apply orb_false_elim in H as [-> H]. exact (IH H).
Qed.

Lemma find_label_Some (tbl : list (string * (From → Env → World → Result))) raw :
  includes (List.map fst tbl) raw = true →
  ∃ b, List.find (λ lb, String.eqb raw lb.1) tbl = Some (raw, b) ∧ In (raw, b) tbl.
Proof.
  unfold includes. induction tbl as [|[l b] tbl IH]; [discriminate|].
  cbn [List.map existsb List.find fst]. intros H.
  destruct (String.eqb raw l) eqn:E.
  - apply String.eqb_eq in E. subst l. exists b. split; [reflexivity | left; reflexivity].
  - destruct (IH H) as (b' & Hf & Hin). exists b'. split; [exact Hf | right; exact Hin].
Qed.

Lemma run_before_None f raw e w :
  preempted raw = false →
  run ([command "start" on_start] ++ menu_before) (Text f raw) e w = None.
Proof.
  unfold preempted. intros H. apply orb_false_elim in H as [Hc Hl].
  cbn [app run command]. rewrite Hc. unfold menu_before.
  rewrite run_hears, find_label_None by exact Hl. reflexivity.
Qed.

Lemma turn_not_preempted pass J f raw e w :
  preempted raw = false →
  turn pass J (Text f raw) e w =
  default (mkResult H_unhandled w [] false) (run (from_dispatcher pass J) (Text f raw) e w).
Proof.
  intros H. unfold turn. rewrite middlewares_split, run_app, run_before_None by exact H.
  reflexivity.
Qed.

(** ** Numeric texts are never menu labels *)

Lemma trim_slash r : ∃ r', trim (String "/" r) = String "/" r'.
Proof.
  unfold trim. cbn [trimStart]. change (is_ws "/") with false. cbn [trimEnd].
  destruct (trimEnd r); eauto.
Qed.

Lemma Number_slash r : Number (String "/" r) = NaN.
Proof.
  unfold Number. destruct (trim_slash r) as [r' ->]. reflexivity.
Qed.

Lemma startsWith_slash p s : startsWith (String "/" p) s = true → ∃ r, s = String "/" r.
Proof.
  destruct s as [|b s']; cbn [startsWith]; [discriminate|].
  destruct (Ascii.eqb "/" b) eqn:E; [|discriminate].
  apply Ascii.eqb_eq in E. subst b. eauto.
Qed.

Lemma preempted_NaN raw : preempted raw = true → Number (trim raw) = NaN.
Proof.
  unfold preempted. intros H. apply orb_true_iff in H as [H|H].
  - unfold is_command in H. apply andb_true_iff in H as [H _].
    apply startsWith_slash in H as [r ->].
    destruct (trim_slash r) as [r' ->]. apply Number_slash.
  - unfold includes in H. apply existsb_exists in H as (l & Hin & Heq).
    apply String.eqb_eq in Heq. subst l.
    unfold labels_before in Hin. simpl in Hin.
    repeat (destruct Hin as [<-|Hin]; [vm_compute; reflexivity|]).
    destruct Hin.
Qed.

Lemma numeric_not_preempted raw :
  isNaN (Number (trim raw)) = false → preempted raw = false.
Proof.
  intros H. destruct (preempted raw) eqn:Hp; [|reflexivity].
  rewrite (preempted_NaN _ Hp) in H. discriminate.
Qed.

(** ** Which handler answers *)

Ltac tag_cases := try reflexivity; repeat (case_match; try reflexivity).

Lemma on_start_tag f e w : r_handler (on_start f e w) = H_start.
Proof. unfold on_start. tag_cases. Qed.

Lemma flow_await_admin_pass_tag pass id text w :
  r_handler (flow_await_admin_pass pass id text w) = H_states "await_admin_pass".
Proof. unfold flow_await_admin_pass. tag_cases. Qed.

Lemma flow_edit_profile_full_tag id st text w :
  r_handler (flow_edit_profile_full id st text w) = H_states "edit_profile_full".
Proof. unfold flow_edit_profile_full. tag_cases. Qed.

Lemma flow_edit_profile_weight_tag id st text e w :
  r_handler (flow_edit_profile_weight id st text e w) = H_states "edit_profile_weight".
Proof. unfold flow_edit_profile_weight. tag_cases. Qed.

Lemma flow_edit_profile_height_tag id st text w :
  r_handler (flow_edit_profile_height id st text w) = H_states "edit_profile_height".
Proof. unfold flow_edit_profile_height. tag_cases. Qed.

Lemma flow_editing_profile_field_tag id st text w :
  r_handler (flow_editing_profile_field id st text w) = H_states "editing_profile_field".
Proof. unfold flow_editing_profile_field. tag_cases. Qed.

Lemma flow_editing_profile_tag id st text e w :
  r_handler (flow_editing_profile id st text e w) = H_states (step st).
Proof. unfold flow_editing_profile. tag_cases. Qed.

Lemma flow_switch_profile_tag id st text w :
  r_handler (flow_switch_profile id st text w) = H_states "switch_profile".
Proof. unfold flow_switch_profile. tag_cases. Qed.

Lemma flow_delete_profile_tag id text w :
  r_handler (flow_delete_profile id text w) = H_states "delete_profile".
Proof. unfold flow_delete_profile. tag_cases. Qed.

Lemma flow_browse_exercises_tag id st text w :
  r_handler (flow_browse_exercises id st text w) = H_states "browse_exercises".
Proof. unfold flow_browse_exercises. tag_cases. Qed.

Lemma flow_log_meal_tag id text e w :
  r_handler (flow_log_meal id text e w) = H_states "log_meal".
Proof. unfold flow_log_meal. tag_cases. Qed.

Lemma flow_set_daily_reminder_tag id text w :
  r_handler (flow_set_daily_reminder id text w) = H_states "set_daily_reminder".
Proof. unfold flow_set_daily_reminder. tag_cases. Qed.

Lemma flow_set_water_reminders_tag id text w :
  r_handler (flow_set_water_reminders id text w) = H_states "set_water_reminders".
Proof. unfold flow_set_water_reminders. tag_cases. Qed.

Lemma flow_message_trainer_tag f text e w :
  r_handler (flow_message_trainer f text e w) = H_states "message_trainer".
Proof. unfold flow_message_trainer. tag_cases. Qed.

Lemma flow_admin_broadcast_tag id text e w :
  r_handler (flow_admin_broadcast id text e w) = H_states "admin_broadcast".
Proof. unfold flow_admin_broadcast. tag_cases. Qed.

Create Rewrite HintDb tags.
#[local] Hint Rewrite on_start_tag flow_await_admin_pass_tag flow_edit_profile_full_tag
  flow_edit_profile_weight_tag flow_edit_profile_height_tag
  flow_editing_profile_field_tag flow_editing_profile_tag flow_switch_profile_tag
  flow_delete_profile_tag flow_browse_exercises_tag flow_log_meal_tag
  flow_set_daily_reminder_tag flow_set_water_reminders_tag flow_message_trainer_tag
  flow_admin_broadcast_tag : tags.

(** The state dispatcher consumes every text of a user whose step it owns,
    in the branch of that step. *)
Lemma on_text_states_owned pass f raw e w st :
  states w !! from_id f = Some st →
  dispatcher_step (step st) = true →
  ∃ r, on_text_states pass (Text f raw) e w = Some r ∧ r_handler r = H_states (step st).
Proof.
  intros Hst Hd. unfold on_text_states. rewrite Hst.
  unfold dispatcher_step, includes in Hd. cbn [existsb] in Hd.
  repeat match goal with
         | |- context [if String.eqb (step st) ?l then _ else _] =>
             let E := fresh "E" in
             destruct (String.eqb (step st) l) eqn:E;
             [apply String.eqb_eq in E; rewrite E; eexists; split; [reflexivity|];
              autorewrite with tags; reflexivity|]
         end.
  cbn [orb] in Hd. rewrite Hd.
  eexists; split; [reflexivity|]. apply flow_editing_profile_tag.
Qed.

Ltac unfold_menu :=
  unfold hears_Profile, hears_EditProfile, hears_SwitchProfile, hears_AddProfile,
    hears_Today, hears_MyPlan, hears_BrowseExercises, hears_ViewMeals, hears_MacroAdvice,
    hears_Progress, hears_RemoveReminders, hears_Challenges, open_flow, just_reply.

Lemma menu_before_tags :
  Forall (λ lb : string * (From → Env → World → Result),
            ∀ f e w, r_handler (lb.2 f e w) = H_hears lb.1) menu_before_table.
Proof.
  unfold menu_before_table.
  repeat (constructor; [intros f e w; cbn [fst snd]; unfold_menu; tag_cases|]).
  constructor.
Qed.

(** What happens to a text that a menu handler registered before the state
    dispatcher consumes. *)
Lemma turn_label pass J f raw e w :
  is_command "start" raw = false →
  includes labels_before raw = true →
  ∃ b, In (raw, b) menu_before_table ∧ turn pass J (Text f raw) e w = b f e w.
Proof.
  intros Hc Hl. destruct (find_label_Some _ _ Hl) as (b & Hf & Hin).
  exists b. split; [exact Hin|].
  unfold turn. rewrite middlewares_split, run_app.
  cbn [app run command]. rewrite Hc. unfold menu_before. rewrite run_hears, Hf.
  reflexivity.
Qed.

Lemma turn_start pass J f raw e w :
  is_command "start" raw = true → turn pass J (Text f raw) e w = on_start f e w.
Proof.
  intros Hc. unfold turn, middlewares. cbn [app run command]. rewrite Hc. reflexivity.
Qed.


(** ** The persistence collaborator *)

Lemma findOne_id id us u : findOne id us = Some u → telegramId u = id.
Proof.
  unfold findOne. intros H. apply find_some in H as [_ H]. apply Z.eqb_eq in H. exact H.
Qed.

Lemma findOne_save id us u u' :
  findOne id us = Some u → telegramId u' = id → findOne id (save u' us) = Some u'.
Proof.
  unfold findOne. intros H Hid. induction us as [|v us IH]; [discriminate|].
  cbn [List.find save] in *. rewrite Hid.
  destruct (telegramId v =? id)%Z eqn:E.
  - cbn [List.find]. rewrite Hid, Z.eqb_refl. reflexivity.
  - cbn [List.find]. rewrite E. exact (IH H).
Qed.

Lemma findOne_save_app id us u u' :
  findOne id us = None → telegramId u = id → telegramId u' = id →
  findOne id (save u' (us ++ [u])) = Some u'.
Proof.
  unfold findOne. intros H Hu Hu'. induction us as [|v us IH].
  - cbn [app save List.find]. rewrite Hu, Hu', Z.eqb_refl. cbn [List.find].
    rewrite Hu', Z.eqb_refl. reflexivity.
  - cbn [app save List.find] in *. rewrite Hu'.
    destruct (telegramId v =? id)%Z eqn:E; [discriminate|].
    cbn [List.find]. rewrite E. exact (IH H).
Qed.

Lemma targetProfile_lookup id ps i p : targetProfile id ps = Some (i, p) → ps !! i = Some p.
Proof.
  unfold targetProfile. intros H.
  assert (Hhead : pair O <$> head ps = Some (i, p) → ps !! i = Some p).
  { destruct ps as [|q ps]; cbn; [discriminate|]. intros [= <- <-]. reflexivity. }
  destruct id as [x|]; [|exact (Hhead H)].
  destruct (list_find (λ q, p_id q = x) ps) as [[j q]|] eqn:E; [|exact (Hhead H)].
  injection H as <- <-. apply list_find_Some in E. tauto.
Qed.

Lemma userAndProfile_inv id st w user i prof :
  userAndProfile id st w = Some (user, i, prof) →
  findOne id (users w) = Some user ∧ telegramId user = id ∧ profiles user !! i = Some prof.
Proof.
  unfold userAndProfile. intros H.
  destruct (findOne id (users w)) as [u|] eqn:Hu; [|discriminate].
  destruct (data st) as [d|]; [|discriminate].
  destruct (targetProfile (d_profileId d) (profiles u)) as [[j q]|] eqn:Ht; [|discriminate].
  injection H as -> -> ->.
  split; [reflexivity|]. split; [exact (findOne_id _ _ _ Hu)|].
  exact (targetProfile_lookup _ _ _ _ Ht).
Qed.

(** ** The dispatcher on the steps of the two profile flows *)

Lemma turn_dispatched pass J f raw e w r :
  preempted raw = false →
  on_text_states pass (Text f raw) e w = Some r →
  turn pass J (Text f raw) e w = r.
Proof.
  intros Hp Hr. rewrite turn_not_preempted by exact Hp.
  unfold from_dispatcher. cbn [app run]. rewrite Hr. reflexivity.
Qed.

Ltac dispatch Hst Hs :=
  unfold on_text_states; rewrite Hst, Hs; reflexivity.

Lemma dispatch_edit_profile_full pass f raw e w st :
  states w !! from_id f = Some st → step st = "edit_profile_full" →
  on_text_states pass (Text f raw) e w
  = Some (flow_edit_profile_full (from_id f) st (trim raw) w).
Proof. intros Hst Hs. dispatch Hst Hs. Qed.

Lemma dispatch_edit_profile_weight pass f raw e w st :
  states w !! from_id f = Some st → step st = "edit_profile_weight" →
  on_text_states pass (Text f raw) e w
  = Some (flow_edit_profile_weight (from_id f) st (trim raw) e w).
Proof. intros Hst Hs. dispatch Hst Hs. Qed.

Lemma dispatch_edit_profile_height pass f raw e w st :
  states w !! from_id f = Some st → step st = "edit_profile_height" →
  on_text_states pass (Text f raw) e w
  = Some (flow_edit_profile_height (from_id f) st (trim raw) w).
Proof. intros Hst Hs. dispatch Hst Hs. Qed.

Lemma dispatch_editing_profile pass f raw e w st field :
  states w !! from_id f = Some st → step st = "editing_profile_" +:+ field →
  In field ["age"; "weight"; "height"; "timeavailability"; "fitnesslevel"] →
  on_text_states pass (Text f raw) e w
  = Some (flow_editing_profile (from_id f) st (trim raw) e w).
Proof.
  intros Hst Hs Hin. cbn [In] in Hin.
  repeat (destruct Hin as [<-|Hin]; [dispatch Hst Hs|]). destruct Hin.
Qed.

(** C2. Both ways of setting the weight, the onboarding step and the weight
    branch of the field editor, write the new value into the profile and
    append exactly one record (profile id, value, time) to the weight
    history of the user, in the turn that accepts the number. *)
Theorem C2_weight_dual_write pass J w f raw e st user i prof :
  states w !! from_id f = Some st →
  step st = "edit_profile_weight" ∨ step st = "editing_profile_weight" →
  isNaN (Number (trim raw)) = false →
  userAndProfile (from_id f) st w = Some (user, i, prof) →
  let r := turn pass J (Text f raw) e w in
  let val := Number (trim raw) in
  r_threw r = false ∧
  ∃ user', findOne (from_id f) (users (r_world r)) = Some user' ∧
           profiles user' = alter (set_weightKg val) i (profiles user) ∧
           (p_weightKg <$> profiles user' !! i) = Some (Some val) ∧
           weightHistory user'
           = weightHistory user ++ [mkWeightEntry (p_id prof) val (now e)].
Proof.
  intros Hst Hs Hnum Hup r val.
  destruct (userAndProfile_inv _ _ _ _ _ _ Hup) as (Hu & Hid & Hi).
  assert (Hp : preempted raw = false) by exact (numeric_not_preempted _ Hnum).
  set (user' := push_weightHistory (mkWeightEntry (p_id prof) val (now e))
                  (writeProfile i (set_weightKg val) user)).
  assert (Hsave : findOne (from_id f) (save user' (users w)) = Some user')
    by (apply (findOne_save _ _ user); [exact Hu | exact Hid]).
  assert (Hfield : (p_weightKg <$> profiles user' !! i) = Some (Some val)).
  { cbn [user' push_weightHistory writeProfile set_profiles profiles].
    rewrite list_lookup_alter_eq, Hi. reflexivity. }
  destruct Hs as [Hs|Hs].
  - assert (Hr : r = flow_edit_profile_weight (from_id f) st (trim raw) e w)
      by (apply turn_dispatched; [exact Hp | exact (dispatch_edit_profile_weight _ _ _ _ _ _ Hst Hs)]).
    rewrite Hr. unfold flow_edit_profile_weight. rewrite Hnum, Hup.
    split; [reflexivity|]. exists user'. repeat split; [exact Hsave | exact Hfield].
  - assert (Hr : r = flow_editing_profile (from_id f) st (trim raw) e w).
    { apply turn_dispatched; [exact Hp|].
      apply (dispatch_editing_profile _ _ _ _ _ _ "weight" Hst Hs). cbn. tauto. }
    rewrite Hr. unfold flow_editing_profile. rewrite Hs, Hup.
    cbn [String.length slice_from]. change (includes _ "weight") with true.
    cbv iota. rewrite Hnum.
    split; [reflexivity|]. exists user'. repeat split; [exact Hsave | exact Hfield].
Qed.

Lemma C2_weight_dual_write_witness :
  r_threw (turn None no_json (Text alice "82") env0
             (after_texts None ["/start"; "29"] empty_world)) = false.
Proof.
  refine (proj1 (C2_weight_dual_write None no_json
                   (after_texts None ["/start"; "29"] empty_world) alice "82" env0
                   _ _ _ _ _ _ _ _)).
  - reflexivity.
  - left. reflexivity.
  - reflexivity.
  - reflexivity.
Defined.

(** C4 (as amended). On a step that validates a number, a text that is not a
    number and that reaches the state dispatcher (it is neither the /start
    command nor a menu label registered before the dispatcher) changes
    nothing: the session, the stored users and every other part of the world
    are as before, and the only answer is the prompt again. *)
Theorem C4_non_numeric_reprompts pass J w f raw e st :
  states w !! from_id f = Some st →
  In (step st) numeric_steps →
  isNaN (Number (trim raw)) = true →
  preempted raw = false →
  let r := turn pass J (Text f raw) e w in
  r_world r = w ∧ r_handler r = H_states (step st) ∧
  (r_threw r = false → ∃ prompt, r_events r = [Reply prompt]).
Proof.
  intros Hst Hin Hnan Hp r. unfold numeric_steps in Hin. cbn [In] in Hin.
  destruct Hin as [Hs|[Hs|[Hs|Hin]]].
  - assert (Hr : r = flow_edit_profile_full (from_id f) st (trim raw) w)
      by (apply turn_dispatched;
          [exact Hp | exact (dispatch_edit_profile_full _ _ _ _ _ _ Hst (eq_sym Hs))]).
    rewrite Hr, <- Hs. unfold flow_edit_profile_full. rewrite Hnan.
    repeat split. eauto.
  - assert (Hr : r = flow_edit_profile_weight (from_id f) st (trim raw) e w)
      by (apply turn_dispatched;
          [exact Hp | exact (dispatch_edit_profile_weight _ _ _ _ _ _ Hst (eq_sym Hs))]).
    rewrite Hr, <- Hs. unfold flow_edit_profile_weight. rewrite Hnan.
    repeat split. eauto.
  - assert (Hr : r = flow_edit_profile_height (from_id f) st (trim raw) w)
      by (apply turn_dispatched;
          [exact Hp | exact (dispatch_edit_profile_height _ _ _ _ _ _ Hst (eq_sym Hs))]).
    rewrite Hr, <- Hs. unfold flow_edit_profile_height. rewrite Hnan.
    repeat split. eauto.
  - assert (Hf : ∃ field, In field ["age"; "weight"; "height"; "timeavailability"]
                          ∧ step st = "editing_profile_" +:+ field).
    { destruct Hin as [Hs|[Hs|[Hs|[Hs|[]]]]]; rewrite <- Hs;
        [exists "age" | exists "weight" | exists "height" | exists "timeavailability"];
        cbn; tauto. }
    destruct Hf as (field & Hfin & Hs).
    assert (Hr : r = flow_editing_profile (from_id f) st (trim raw) e w).
    { apply turn_dispatched; [exact Hp|].
      apply (dispatch_editing_profile _ _ _ _ _ _ field Hst Hs). cbn in *. tauto. }
    rewrite Hr. unfold flow_editing_profile. rewrite Hs.
    destruct (userAndProfile (from_id f) st w) as [[[user i] prof]|].
    + cbn [In] in Hfin.
      destruct Hfin as [<-|[<-|[<-|[<-|[]]]]];
        cbn [String.length slice_from append];
        match goal with
        | |- context [includes ?l ?x] => change (includes l x) with true
        end; cbv iota; rewrite Hnan; repeat split; eauto.
    + repeat split. discriminate.
Qed.

Lemma C4_non_numeric_reprompts_witness :
  let w := after_texts None ["/start"; "29"] empty_world in
  r_world (turn None no_json (Text alice "abc") env0 w) = w.
Proof.
  refine (proj1 (C4_non_numeric_reprompts None no_json
                   (after_texts None ["/start"; "29"] empty_world) alice "abc" env0
                   _ _ _ _ _)).
  - reflexivity.
  - right. left. reflexivity.
  - reflexivity.
  - reflexivity.
Defined.

(** C4 (as stated) fails: in the first onboarding step, which validates a
    number, the label of the delete-profile menu entry is not a number, yet
    the session moves to another step; and the label of the add-profile entry
    stores a second profile and makes it the active one. *)
Lemma C4_counterexample :
  let w := after_texts None ["/start"] empty_world in
  (step <$> states w !! 7) = Some "edit_profile_full" ∧
  isNaN (Number (trim "🗑️ Delete Profile")) = true ∧
  (step <$> states (r_world (turn None no_json (Text alice "🗑️ Delete Profile") env0 w)) !! 7)
  = Some "delete_profile" ∧
  isNaN (Number (trim "➕ Add Profile")) = true ∧
  users (r_world (turn None no_json (Text alice "➕ Add Profile") env1 w)) ≠ users w.
Proof. vm_compute. repeat split; try reflexivity. discriminate. Qed.

(** ** The onboarding chain, one accepted number at a time *)

Lemma targetProfile_single id p : targetProfile id [p] = Some (O, p).
Proof.
  unfold targetProfile. destruct id as [x|]; [|reflexivity].
  cbn. case_decide; reflexivity.
Qed.

Lemma accept_age pass J f raw e w st user i prof :
  states w !! from_id f = Some st → step st = "edit_profile_full" →
  isNaN (Number (trim raw)) = false →
  userAndProfile (from_id f) st w = Some (user, i, prof) →
  turn pass J (Text f raw) e w
  = ret (H_states "edit_profile_full")
      (states_set (from_id f)
         {| step := "edit_profile_weight"; data := Some (dataProfileId (Some (p_id prof))) |}
         (set_users (save (writeProfile i (set_age (Number (trim raw))) user)) w))
      [Reply "Send weight in kg (number)."].
Proof.
  intros Hst Hs Hnum Hup.
  rewrite (turn_dispatched pass J f raw e w _ (numeric_not_preempted _ Hnum)
             (dispatch_edit_profile_full _ _ _ _ _ _ Hst Hs)).
  unfold flow_edit_profile_full. rewrite Hnum, Hup. reflexivity.
Qed.

Lemma accept_weight pass J f raw e w st user i prof :
  states w !! from_id f = Some st → step st = "edit_profile_weight" →
  isNaN (Number (trim raw)) = false →
  userAndProfile (from_id f) st w = Some (user, i, prof) →
  turn pass J (Text f raw) e w
  = ret (H_states "edit_profile_weight")
      (states_set (from_id f)
         {| step := "edit_profile_height"; data := Some (dataProfileId (Some (p_id prof))) |}
         (set_users
            (save (push_weightHistory
                     (mkWeightEntry (p_id prof) (Number (trim raw)) (now e))
                     (writeProfile i (set_weightKg (Number (trim raw))) user))) w))
      [Reply "Send height in cm (number)."].
Proof.
  intros Hst Hs Hnum Hup.
  rewrite (turn_dispatched pass J f raw e w _ (numeric_not_preempted _ Hnum)
             (dispatch_edit_profile_weight _ _ _ _ _ _ Hst Hs)).
  unfold flow_edit_profile_weight. rewrite Hnum, Hup. reflexivity.
Qed.

Lemma accept_height pass J f raw e w st user i prof :
  states w !! from_id f = Some st → step st = "edit_profile_height" →
  isNaN (Number (trim raw)) = false →
  userAndProfile (from_id f) st w = Some (user, i, prof) →
  turn pass J (Text f raw) e w
  = ret (H_states "edit_profile_height")
      (states_delete (from_id f)
         (set_users (save (writeProfile i (set_heightCm (Number (trim raw))) user)) w))
      [Reply "Profile updated. Use the menu."].
Proof.
  intros Hst Hs Hnum Hup.
  rewrite (turn_dispatched pass J f raw e w _ (numeric_not_preempted _ Hnum)
             (dispatch_edit_profile_height _ _ _ _ _ _ Hst Hs)).
  unfold flow_edit_profile_height. rewrite Hnum, Hup. reflexivity.
Qed.

(** A stored user with a single profile is what the next onboarding step
    loads, whatever profile id the session carries. *)
Lemma userAndProfile_single id st w user p d :
  findOne id (users w) = Some user → data st = Some d → profiles user = [p] →
  userAndProfile id st w = Some (user, O, p).
Proof.
  intros Hu Hd Hp. unfold userAndProfile. rewrite Hu, Hd, Hp, targetProfile_single.
  reflexivity.
Qed.

(** C3. For a user the bot has not seen, /start stores a user with one
    default profile and opens the first onboarding step; then three texts
    that parse as numbers move the session age, weight, height, one step per
    turn, and the third one clears it. *)
Theorem C3_onboarding_chain pass J w f e0 e1 e2 e3 t1 t2 t3 :
  findOne (from_id f) (users w) = None →
  isNaN (Number (trim t1)) = false →
  isNaN (Number (trim t2)) = false →
  isNaN (Number (trim t3)) = false →
  let id := from_id f in
  let r0 := turn pass J (Text f "/start") e0 w in
  let r1 := turn pass J (Text f t1) e1 (r_world r0) in
  let r2 := turn pass J (Text f t2) e2 (r_world r1) in
  let r3 := turn pass J (Text f t3) e3 (r_world r2) in
  let p0 := newProfile (uuid e0) (or_else (first_name f) "You") (Some (ofZ 30)) in
  (findOne id (users (r_world r0))
   = Some (set_activeProfileId (Some (uuid e0))
             (set_profiles [p0] (newUser id (first_name f) (from_username f))))
   ∧ states (r_world r0) !! id
     = Some {| step := "edit_profile_full"; data := Some (dataProfileId (Some (uuid e0))) |})
  ∧ (step <$> states (r_world r1) !! id) = Some "edit_profile_weight"
  ∧ (step <$> states (r_world r2) !! id) = Some "edit_profile_height"
  ∧ states (r_world r3) !! id = None
  ∧ (r_threw r1 = false ∧ r_threw r2 = false ∧ r_threw r3 = false)
  ∧ (profiles <$> findOne id (users (r_world r3)))
    = Some [set_heightCm (Number (trim t3))
              (set_weightKg (Number (trim t2)) (set_age (Number (trim t1)) p0))].
Proof.
  intros Hnew H1 H2 H3 id r0 r1 r2 r3 p0. subst id.
  set (u0 := set_activeProfileId (Some (uuid e0))
               (set_profiles [p0] (newUser (from_id f) (first_name f) (from_username f)))).
  set (s0 := {| step := "edit_profile_full"; data := Some (dataProfileId (Some (uuid e0))) |}).
  (* /start *)
  assert (E0 : r_world r0
               = states_set (from_id f) s0
                   (set_users (λ us, save u0 (us ++ [newUser (from_id f) (first_name f)
                                                        (from_username f)])) w)).
  { unfold r0. rewrite turn_start by reflexivity. unfold on_start.
    rewrite Hnew. reflexivity. }
  assert (U0 : findOne (from_id f) (users (r_world r0)) = Some u0).
  { rewrite E0. cbn [users states_set set_states set_users].
    apply findOne_save_app; [exact Hnew | reflexivity | reflexivity]. }
  assert (S0 : states (r_world r0) !! (from_id f) = Some s0).
  { rewrite E0. cbn [states states_set set_states set_users]. apply lookup_insert_eq. }
  (* age *)
  set (u1 := writeProfile 0 (set_age (Number (trim t1))) u0).
  assert (E1 : r1 = _) by
    exact (accept_age pass J f t1 e1 _ s0 u0 O p0 S0 eq_refl H1
             (userAndProfile_single (from_id f) s0 _ u0 p0 _ U0 eq_refl eq_refl)).
  assert (U1 : findOne (from_id f) (users (r_world r1)) = Some u1).
  { rewrite E1. cbn [r_world ret users states_set set_states set_users].
    apply (findOne_save _ _ u0); [exact U0 | reflexivity]. }
  set (s1 := {| step := "edit_profile_weight";
                data := Some (dataProfileId (Some (p_id p0))) |}).
  assert (S1 : states (r_world r1) !! (from_id f) = Some s1).
  { rewrite E1. cbn [r_world ret states states_set set_states set_users].
    apply lookup_insert_eq. }
  (* weight *)
  set (u2 := push_weightHistory
               (mkWeightEntry (p_id (set_age (Number (trim t1)) p0)) (Number (trim t2)) (now e2))
               (writeProfile 0 (set_weightKg (Number (trim t2))) u1)).
  assert (E2 : r2 = _) by
    exact (accept_weight pass J f t2 e2 _ s1 u1 O _ S1 eq_refl H2
             (userAndProfile_single (from_id f) s1 _ u1 _ _ U1 eq_refl eq_refl)).
  assert (U2 : findOne (from_id f) (users (r_world r2)) = Some u2).
  { rewrite E2. cbn [r_world ret users states_set set_states set_users].
    apply (findOne_save _ _ u1); [exact U1 | reflexivity]. }
  set (s2 := {| step := "edit_profile_height";
                data := Some (dataProfileId (Some (p_id (set_age (Number (trim t1)) p0)))) |}).
  assert (S2 : states (r_world r2) !! (from_id f) = Some s2).
  { rewrite E2. cbn [r_world ret states states_set set_states set_users].
    apply lookup_insert_eq. }
  (* height *)
  set (u3 := writeProfile 0 (set_heightCm (Number (trim t3))) u2).
  assert (E3 : r3 = _) by
    exact (accept_height pass J f t3 e3 _ s2 u2 O _ S2 eq_refl H3
             (userAndProfile_single (from_id f) s2 _ u2 _ _ U2 eq_refl eq_refl)).
  assert (U3 : findOne (from_id f) (users (r_world r3)) = Some u3).
  { rewrite E3. cbn [r_world ret users states_delete set_states set_users].
    apply (findOne_save _ _ u2); [exact U2 | reflexivity]. }
  split; [split; [exact U0 | exact S0]|].
  split; [rewrite S1; reflexivity|].
  split; [rewrite S2; reflexivity|].
  split.
  { rewrite E3. cbn [r_world ret states states_delete set_states set_users].
    apply lookup_delete_eq. }
  split; [rewrite E1, E2, E3; repeat split|].
  rewrite U3. reflexivity.
Qed.

Lemma C3_onboarding_chain_witness :
  states (after_texts None ["/start"; "29"; "82"; "180"] empty_world) !! 7 = None.
Proof.
  refine (proj1 (proj2 (proj2 (proj2
            (C3_onboarding_chain None no_json empty_world alice env0 env0 env0 env0
               "29" "82" "180" _ _ _ _))))).
  - reflexivity.
  - reflexivity.
  - reflexivity.
  - reflexivity.
Defined.

(** ** The broadcast fan-out *)

Lemma failures_le ok i n : (failures ok i n ≤ n)%nat.
Proof.
  revert i. induction n as [|n IH]; intros i; cbn [failures]; [lia|].
  specialize (IH (S i)). destruct (ok i); lia.
Qed.

Lemma sendLoop_spec site text ok rs : ∀ i sent failed evs,
  sendLoop site text ok i rs sent failed evs
  = (evs ++ sends site text ok i rs,
     (sent + (length rs - failures ok i (length rs)))%nat,
     (failed + failures ok i (length rs))%nat).
Proof.
  induction rs as [|c rs IH]; intros i sent failed evs.
  - cbn. rewrite app_nil_r, !Nat.add_0_r. reflexivity.
  - cbn [sendLoop sends length failures].
    pose proof (failures_le ok (S i) (length rs)) as Hle.
    destruct (ok i); rewrite IH, <- app_assoc; cbn [app];
      (apply (f_equal2 pair); [apply (f_equal2 pair); [reflexivity | lia] | lia]).
Qed.

(** The failed sends among the events of a fan-out are the failures counted. *)
Lemma sends_failed site text ok rs : ∀ i,
  length (List.filter (λ ev, match ev with
                             | SendMessage _ _ _ false => true
                             | _ => false
                             end) (sends site text ok i rs))
  = failures ok i (length rs).
Proof.
  induction rs as [|c rs IH]; intros i; [reflexivity|].
  cbn [sends List.filter length failures]. destruct (ok i); cbn [length]; rewrite IH; lia.
Qed.

(** C8. A broadcast over the [N] stored users of which [K] sends throw never
    throws itself: every failure is caught and counted, all [N] sends are
    attempted, and the report to the admin gives [N - K] sent and [K]
    failed. This holds for both broadcast branches. *)
Theorem C8_broadcast_counts id text e w :
  let N := length (users w) in
  let K := failures (sendOk e) 0 N in
  let ids := List.map telegramId (users w) in
  let r1 := flow_admin_broadcast id text e w in
  let r2 := flow_admin_broadcast_fallback id text e w in
  (K ≤ N)%nat ∧
  (r_threw r1 = false ∧
   r_events r1
   = sends BroadcastSend ("📢 Message from Admin:" +:+ nl +:+ nl +:+ text) (sendOk e) 0 ids
     ++ [Reply ("Broadcast complete. Sent " +:+ show_nat (N - K) +:+ ", failed "
                +:+ show_nat K +:+ ".")]) ∧
  (r_threw r2 = false ∧
   r_events r2
   = sends BroadcastFallbackSend ("📢 Admin Broadcast:" +:+ nl +:+ nl +:+ text) (sendOk e) 0 ids
     ++ [Reply ("Broadcast sent to " +:+ show_nat (N - K) +:+ " users, failed "
                +:+ show_nat K +:+ ".")]) ∧
  (∀ site msg, length (sends site msg (sendOk e) 0 ids) = N ∧
               length (List.filter (λ ev, match ev with
                                          | SendMessage _ _ _ false => true
                                          | _ => false
                                          end) (sends site msg (sendOk e) 0 ids)) = K).
Proof.
  intros N K ids r1 r2.
  assert (Hlen : length ids = N) by apply length_map.
  split; [apply failures_le|].
  split; [|split].
  - unfold r1, flow_admin_broadcast. fold ids. rewrite sendLoop_spec, Hlen.
    split; reflexivity.
  - unfold r2, flow_admin_broadcast_fallback. fold ids. rewrite sendLoop_spec, Hlen.
    split; reflexivity.
  - intros site msg. split.
    + rewrite <- Hlen. clear. generalize 0%nat. induction ids as [|c l IH]; intros i;
        cbn [sends length]; [reflexivity | rewrite IH; reflexivity].
    + rewrite sends_failed, Hlen. reflexivity.
Qed.

(** ** The delete-profile flow *)









(** ** The fitness level *)

(** C9 fails on the code. From the empty world, the bot's own flow (start,
    the three onboarding numbers, Edit Profile, the field fitnessLevel, the
    text expert) stores a fitness level that is none of the three levels,
    while the default given at creation is one of them. *)
Lemma C9_fitnesslevel_unvalidated :
  let w := after_texts None
             ["/start"; "29"; "82"; "180"; "✏️ Edit Profile"; "fitnessLevel"; "expert"]
             empty_world in
  (List.map p_fitnessLevel <$> (profiles <$> findOne 7 (users w))) = Some [Some "expert"] ∧
  includes fitness_levels "expert" = false ∧
  (List.map p_fitnessLevel
     <$> (profiles <$> findOne 7 (users (after_texts None ["/start"] empty_world))))
  = Some [Some "beginner"].
Proof. vm_compute. repeat split; reflexivity. Qed.

(** ** Properties of every middleware *)

Lemma run_holds P ms upd e w r :
  Forall (holds_for P) ms → run ms upd e w = Some r → P upd e w r.
Proof.
  induction 1 as [|m ms Hm _ IH]; cbn [run]; [discriminate|].
  destruct (m upd e w) as [r'|] eqn:E; [|exact IH].
  intros [= <-]. exact (Hm _ _ _ _ E).
Qed.

Lemma holds_hears P l (b : From → Env → World → Result) :
  (∀ f e w, P (Text f l) e w (b f e w)) → holds_for P (hears l b).
Proof.
  intros H [f t|f d] e w r; cbn [hears]; [|discriminate].
  destruct (String.eqb t l) eqn:E; [|discriminate].
  apply String.eqb_eq in E. subst t. intros [= <-]. apply H.
Qed.

Lemma holds_command P name (b : From → Env → World → Result) :
  (∀ f t e w, P (Text f t) e w (b f e w)) → holds_for P (command name b).
Proof.
  intros H [f t|f d] e w r; cbn [command]; [|discriminate].
  destruct (is_command name t); [|discriminate]. intros [= <-]. apply H.
Qed.

Lemma holds_table P (tbl : list (string * (From → Env → World → Result))) :
  Forall (λ lb, ∀ f e w, P (Text f lb.1) e w (lb.2 f e w)) tbl →
  Forall (holds_for P) (List.map (λ lb, hears lb.1 lb.2) tbl).
Proof.
  induction 1 as [|[l b] tbl H _ IH]; cbn [List.map]; constructor; [|exact IH].
  apply holds_hears. exact H.
Qed.

Lemma turn_holds P pass J :
  Forall (holds_for P) (middlewares pass J) →
  (∀ upd e w, P upd e w (mkResult H_unhandled w [] false)) →
  ∀ upd e w, P upd e w (turn pass J upd e w).
Proof.
  intros Hms Hdef upd e w. unfold turn.
  destruct (run (middlewares pass J) upd e w) as [r|] eqn:E; cbn [default].
  - exact (run_holds _ _ _ _ _ _ Hms E).
  - apply Hdef.
Qed.

(** ** No admin operation without elevation *)

Lemma users_kept_refl us : users_kept us us.
Proof. exists []. rewrite app_nil_r. split; [reflexivity | constructor]. Qed.

Lemma save_idroles us u u0 :
  findOne (telegramId u) us = Some u0 → role u = role u0 →
  idroles (save u us) = idroles us.
Proof.
  unfold findOne. intros H Hr. induction us as [|v us IH]; [reflexivity|].
  cbn [List.find save] in *. destruct (telegramId v =? telegramId u)%Z eqn:E.
  - injection H as ->. apply Z.eqb_eq in E. cbn [idroles List.map]. rewrite E, Hr.
    reflexivity.
  - cbn [idroles List.map]. f_equal. exact (IH H).
Qed.

Lemma users_kept_save id us u u0 :
  findOne id us = Some u0 → telegramId u = telegramId u0 → role u = role u0 →
  users_kept us (save u us).
Proof.
  intros H Hid Hr. exists []. rewrite app_nil_r. split; [|constructor].
  apply (save_idroles _ _ u0); [|exact Hr].
  rewrite Hid, (findOne_id _ _ _ H). exact H.
Qed.

Lemma save_app_new id us u0 u :
  findOne id us = None → telegramId u0 = id → telegramId u = id →
  save u (us ++ [u0]) = us ++ [u].
Proof.
  unfold findOne. intros H H0 Hu. induction us as [|v us IH].
  - cbn [app save]. rewrite H0, Hu, Z.eqb_refl. reflexivity.
  - cbn [app save List.find] in *. rewrite Hu.
    destruct (telegramId v =? id)%Z; [discriminate|]. f_equal. exact (IH H).
Qed.

Lemma users_kept_create id us u0 u :
  findOne id us = None → telegramId u0 = id → telegramId u = id → role u = "user" →
  users_kept us (save u (us ++ [u0])).
Proof.
  intros H H0 Hu Hr. rewrite (save_app_new id) by assumption.
  exists [(telegramId u, role u)]. unfold idroles. rewrite map_app. split; [reflexivity|].
  constructor; [exact Hr | constructor].
Qed.

Lemma sends_unprivileged site text ok rs : ∀ i,
  privileged_event (SendMessage site (ofZ 0) text true) = false →
  Forall (λ ev, privileged_event ev = false) (sends site text ok i rs).
Proof.
  induction rs as [|c rs IH]; intros i H; cbn [sends]; constructor; [|exact (IH _ H)].
  destruct site; first [discriminate H | reflexivity].
Qed.

Lemma notifyAll_unprivileged site text ok rs :
  privileged_event (SendMessage site (ofZ 0) text true) = false →
  Forall (λ ev, privileged_event ev = false) (notifyAll site text ok rs).
Proof.
  intros H. unfold notifyAll. rewrite sendLoop_spec. cbn [fst app].
  exact (sends_unprivileged _ _ _ _ _ H).
Qed.

Ltac world_simpl :=
  cbn [r_world r_events r_handler r_threw ret thrown users exercises workouts challenges
       states adminSessions relays states_set states_delete set_states set_admins
       set_users set_relays add_exercise add_workout add_challenge] in *.

Ltac users_kept_tac :=
  first
    [ apply users_kept_refl
    | eapply users_kept_save; [eassumption | reflexivity | reflexivity]
    | eapply users_kept_create; [eassumption | reflexivity | reflexivity | reflexivity] ].

Ltac events_tac :=
  repeat first
    [ apply Forall_nil_2
    | apply Forall_cons_2; [reflexivity|]
    | apply Forall_app; split
    | apply notifyAll_unprivileged; reflexivity ].

Ltac npe :=
  unfold no_privileged_effect; world_simpl;
  split; [reflexivity|]; split; [users_kept_tac|];
  split; [reflexivity|]; split; [reflexivity|]; split; [reflexivity|]; events_tac.

Ltac by_cases tac :=
  try (tac; fail);
  repeat (case_match; try (tac; fail)).

Lemma start_unprivileged f t e w : unprivileged_turn (Text f t) e w (on_start f e w).
Proof. intros _. unfold on_start. by_cases npe. Qed.

Lemma menu_before_unprivileged :
  Forall (λ lb : string * (From → Env → World → Result),
            ∀ f e w, unprivileged_turn (Text f lb.1) e w (lb.2 f e w)) menu_before_table.
Proof.
  unfold menu_before_table.
  repeat (constructor; [intros f e w _; cbn [fst snd]; unfold_menu; by_cases npe|]).
  constructor.
Qed.

Ltac load_user :=
  repeat match goal with
         | H : userAndProfile _ _ _ = Some _ |- _ =>
             apply userAndProfile_inv in H as (? & ? & ?)
         end.

Ltac npe' := load_user; npe.

Create HintDb unprivileged.

Lemma flow_await_admin_pass_npe pass id text w :
  no_privileged_effect w (flow_await_admin_pass pass id text w).
Proof. unfold flow_await_admin_pass. by_cases npe'. Qed.

Lemma flow_edit_profile_full_npe id st text w :
  no_privileged_effect w (flow_edit_profile_full id st text w).
Proof. unfold flow_edit_profile_full. by_cases npe'. Qed.

Lemma flow_edit_profile_weight_npe id st text e w :
  no_privileged_effect w (flow_edit_profile_weight id st text e w).
Proof. unfold flow_edit_profile_weight. by_cases npe'. Qed.

Lemma flow_edit_profile_height_npe id st text w :
  no_privileged_effect w (flow_edit_profile_height id st text w).
Proof. unfold flow_edit_profile_height. by_cases npe'. Qed.

Lemma flow_editing_profile_field_npe id st text w :
  no_privileged_effect w (flow_editing_profile_field id st text w).
Proof. unfold flow_editing_profile_field. by_cases npe'. Qed.

Lemma flow_editing_profile_npe id st text e w :
  startsWith "editing_profile_" (step st) = true →
  no_privileged_effect w (flow_editing_profile id st text e w).
Proof.
  intros Hs.
  assert (Hh : privileged_handler (H_states (step st)) = false).
  { cbn [privileged_handler]. destruct (String.eqb (step st) "admin_broadcast") eqn:E;
      [|reflexivity]. apply String.eqb_eq in E. rewrite E in Hs. discriminate Hs. }
  unfold flow_editing_profile.
  by_cases ltac:(load_user; unfold no_privileged_effect; world_simpl;
                 split; [exact Hh|]; split; [users_kept_tac|];
                 split; [reflexivity|]; split; [reflexivity|]; split; [reflexivity|];
                 events_tac).
Qed.

Lemma flow_switch_profile_npe id st text w :
  no_privileged_effect w (flow_switch_profile id st text w).
Proof. unfold flow_switch_profile. by_cases npe'. Qed.

Lemma flow_delete_profile_npe id text w :
  no_privileged_effect w (flow_delete_profile id text w).
Proof. unfold flow_delete_profile. by_cases npe'. Qed.

Lemma flow_browse_exercises_npe id st text w :
  no_privileged_effect w (flow_browse_exercises id st text w).
Proof. unfold flow_browse_exercises. by_cases npe'. Qed.

Lemma flow_log_meal_npe id text e w :
  no_privileged_effect w (flow_log_meal id text e w).
Proof. unfold flow_log_meal. by_cases npe'. Qed.

Lemma flow_set_daily_reminder_npe id text w :
  no_privileged_effect w (flow_set_daily_reminder id text w).
Proof.
  unfold flow_set_daily_reminder, findOrCreate.
  destruct (is_hhmm text); cbn [negb]; [|npe].
  destruct (findOne id (users w)) eqn:E; npe.
Qed.

Lemma flow_set_water_reminders_npe id text w :
  no_privileged_effect w (flow_set_water_reminders id text w).
Proof.
  unfold flow_set_water_reminders, findOrCreate.
  destruct (String.eqb (toLowerCase text) "off").
  - destruct (findOne id (users w)) eqn:E; npe.
  - destruct (List.filter is_hhmm (List.map trim (split "," text))); [npe|].
    destruct (findOne id (users w)) eqn:E; npe.
Qed.

Lemma flow_message_trainer_npe f text e w :
  no_privileged_effect w (flow_message_trainer f text e w).
Proof. unfold flow_message_trainer. by_cases npe'. Qed.

#[local] Hint Resolve flow_await_admin_pass_npe flow_edit_profile_full_npe
  flow_edit_profile_weight_npe flow_edit_profile_height_npe flow_editing_profile_field_npe
  flow_editing_profile_npe flow_switch_profile_npe flow_delete_profile_npe
  flow_browse_exercises_npe flow_log_meal_npe flow_set_daily_reminder_npe
  flow_set_water_reminders_npe flow_message_trainer_npe : unprivileged.

Lemma on_text_states_unprivileged pass : holds_for unprivileged_turn (on_text_states pass).
Proof.
  intros [f raw|f d] e w r H Hnot; unfold on_text_states in H; [|discriminate].
  cbn [sender] in Hnot.
  destruct (states w !! from_id f) as [st|]; [|discriminate].
  rewrite (bool_decide_eq_false_2 _ Hnot) in H. cbn [andb] in H.
  repeat match type of H with
         | (if ?c then _ else _) = Some _ =>
             let E := fresh "E" in
             destruct c eqn:E; [injection H as <-; solve [auto with unprivileged]|]
         end.
  discriminate.
Qed.

Lemma on_callback_query_unprivileged : holds_for unprivileged_turn on_callback_query.
Proof.
  intros [f raw|f d] e w r H Hnot; unfold on_callback_query in H; [discriminate|].
  cbn [sender] in Hnot.
  rewrite (bool_decide_eq_false_2 _ Hnot) in H. cbn [negb] in H.
  repeat case_match; simplify_eq; npe.
Qed.

Lemma on_text_admin_reply_unprivileged : holds_for unprivileged_turn on_text_admin_reply.
Proof.
  intros [f raw|f d] e w r H Hnot; unfold on_text_admin_reply in H; [|discriminate].
  cbn [sender] in Hnot.
  destruct (states w !! from_id f); [|discriminate].
  rewrite (bool_decide_eq_false_2 _ Hnot), andb_false_r in H. discriminate.
Qed.

Lemma command_admin_unprivileged pass f t e w :
  unprivileged_turn (Text f t) e w (command_admin pass f e w).
Proof. intros _. unfold command_admin. by_cases npe. Qed.

Lemma menu_admin_unprivileged :
  Forall (λ lb : string * (From → Env → World → Result),
            ∀ f e w, unprivileged_turn (Text f lb.1) e w (lb.2 f e w)) menu_admin_table.
Proof.
  unfold menu_admin_table.
  repeat (constructor;
          [intros f e w Hnot; cbn [fst snd sender] in *;
           unfold admin_open_flow, admin_only, hears_LogoutAdmin;
           rewrite ?(bool_decide_eq_false_2 _ Hnot); cbn [negb]; npe|]).
  constructor.
Qed.

Lemma on_text_admin_states_unprivileged J : holds_for unprivileged_turn (on_text_admin_states J).
Proof.
  intros [f raw|f d] e w r H Hnot; unfold on_text_admin_states in H; [|discriminate].
  cbn [sender] in Hnot.
  destruct (states w !! from_id f); [|discriminate].
  cbv zeta in H. rewrite (bool_decide_eq_false_2 _ Hnot), !andb_false_r in H. discriminate.
Qed.

Lemma hears_RequestDataDeletion_unprivileged f t e w :
  unprivileged_turn (Text f t) e w (hears_RequestDataDeletion f e w).
Proof. intros _. unfold hears_RequestDataDeletion. by_cases npe. Qed.

Lemma command_report_unprivileged f t e w :
  unprivileged_turn (Text f t) e w (command_report f e w).
Proof. intros _. unfold command_report. npe. Qed.

Lemma on_text_report_unprivileged : holds_for unprivileged_turn on_text_report.
Proof.
  intros [f raw|f d] e w r H Hnot; unfold on_text_report in H; [|discriminate].
  repeat case_match; simplify_eq. npe.
Qed.

Lemma on_message_unprivileged : holds_for unprivileged_turn on_message.
Proof.
  intros [f raw|f d] e w r H Hnot; unfold on_message in H; [|discriminate].
  simplify_eq. npe.
Qed.

Lemma middlewares_unprivileged pass J :
  Forall (holds_for unprivileged_turn) (middlewares pass J).
Proof.
  unfold middlewares, menu_before, menu_admin.
  repeat first
    [ exact menu_before_unprivileged
    | exact menu_admin_unprivileged
    | exact (on_text_states_unprivileged pass)
    | exact on_callback_query_unprivileged
    | exact on_text_admin_reply_unprivileged
    | exact (on_text_admin_states_unprivileged J)
    | exact on_text_report_unprivileged
    | exact on_message_unprivileged
    | apply holds_command; intros; first [apply start_unprivileged
                                         | apply command_admin_unprivileged
                                         | apply command_report_unprivileged]
    | apply holds_hears; intros; apply hears_RequestDataDeletion_unprivileged
    | apply holds_table
    | apply Forall_app; split
    | apply Forall_nil_2
    | apply Forall_cons_2 ].
Qed.

(** C6. A turn of a sender who is not in the elevation set at that moment
    performs no admin operation, whatever the session step, the text or the
    button: the turn is not answered by a broadcast branch, the admin reply
    or a branch of the admin fallback middleware; no stored user is removed
    or changes role; no exercise, workout or challenge is created; and no
    broadcast or admin-reply message is sent. *)
Theorem C6_no_privileged_effect_without_elevation pass J upd e w :
  sender upd ∉ adminSessions w →
  no_privileged_effect w (turn pass J upd e w).
Proof.
  revert upd e w. apply (turn_holds unprivileged_turn).
  - apply middlewares_unprivileged.
  - intros upd e w _. npe.
Qed.

Lemma C6_no_privileged_effect_without_elevation_witness :
  (step <$> states logged_out_mid_flow !! 7) = Some "promote_user" ∧
  no_privileged_effect logged_out_mid_flow
    (turn (Some "secret") no_json (Text alice "7") env0 logged_out_mid_flow).
Proof.
  split; [reflexivity|].
  apply (C6_no_privileged_effect_without_elevation (Some "secret") no_json
           (Text alice "7") env0 logged_out_mid_flow).
  assert (H : bool_decide (7 ∉ adminSessions logged_out_mid_flow) = true)
    by (vm_compute; reflexivity).
  exact (bool_decide_eq_true_1 _ H).
Defined.

(** ** Who changes the elevation set *)

Ltac unfold_flows :=
  unfold flow_await_admin_pass, flow_edit_profile_full, flow_edit_profile_weight,
    flow_edit_profile_height, flow_editing_profile_field, flow_editing_profile,
    flow_switch_profile, flow_delete_profile, flow_browse_exercises, flow_log_meal,
    flow_set_daily_reminder, flow_set_water_reminders, flow_message_trainer,
    flow_admin_broadcast, findOrCreate in *.

Ltac unfold_admin_flows :=
  unfold flow_set_role, flow_remove_user, flow_create_exercise, flow_create_workout,
    flow_create_challenge, flow_admin_broadcast_fallback in *.

Ltac same_admins := left; reflexivity.

Lemma on_text_states_elevation pass : holds_for elevation_change (on_text_states pass).
Proof.
  intros [f raw|f d] e w r H; unfold on_text_states in H; [|discriminate].
  destruct (states w !! from_id f) as [st|]; [|discriminate].
  repeat match type of H with
         | (if ?c then _ else _) = Some _ => destruct c
         end; simplify_eq; unfold_flows;
    try (by_cases same_admins; fail).
  case_bool_decide; [right; left; split; reflexivity | same_admins].
Qed.

Lemma menu_before_elevation :
  Forall (λ lb : string * (From → Env → World → Result),
            ∀ f e w, elevation_change (Text f lb.1) e w (lb.2 f e w)) menu_before_table.
Proof.
  unfold menu_before_table.
  repeat (constructor; [intros f e w; cbn [fst snd]; unfold_menu; by_cases same_admins|]).
  constructor.
Qed.

Lemma menu_admin_elevation :
  Forall (λ lb : string * (From → Env → World → Result),
            ∀ f e w, elevation_change (Text f lb.1) e w (lb.2 f e w)) menu_admin_table.
Proof.
  unfold menu_admin_table. constructor.
  { intros f e w. cbn [fst snd]. unfold hears_LogoutAdmin. case_bool_decide.
    - right; right. split; [exists f; split; reflexivity | reflexivity].
    - same_admins. }
  repeat (constructor;
          [intros f e w; cbn [fst snd];
           unfold admin_open_flow, admin_only, hears_Feedback, just_reply;
           by_cases same_admins|]).
  constructor.
Qed.

Lemma on_callback_query_elevation : holds_for elevation_change on_callback_query.
Proof.
  intros [f raw|f d] e w r H; unfold on_callback_query in H; [discriminate|].
  repeat case_match; simplify_eq; same_admins.
Qed.

Lemma on_text_admin_reply_elevation : holds_for elevation_change on_text_admin_reply.
Proof.
  intros [f raw|f d] e w r H; unfold on_text_admin_reply in H; [|discriminate].
  repeat case_match; simplify_eq; same_admins.
Qed.

Lemma on_text_admin_states_elevation J : holds_for elevation_change (on_text_admin_states J).
Proof.
  intros [f raw|f d] e w r H; unfold on_text_admin_states in H; [|discriminate].
  destruct (states w !! from_id f) as [st|]; [|discriminate]. cbv zeta in H.
  repeat match type of H with
         | (if ?c then _ else _) = Some _ => destruct c
         end; simplify_eq; unfold_admin_flows; by_cases same_admins.
Qed.

Lemma on_text_report_elevation : holds_for elevation_change on_text_report.
Proof.
  intros [f raw|f d] e w r H; unfold on_text_report in H; [|discriminate].
  repeat case_match; simplify_eq; same_admins.
Qed.

Lemma on_message_elevation : holds_for elevation_change on_message.
Proof.
  intros [f raw|f d] e w r H; unfold on_message in H; [|discriminate].
  simplify_eq. same_admins.
Qed.

Lemma middlewares_elevation pass J : Forall (holds_for elevation_change) (middlewares pass J).
Proof.
  unfold middlewares, menu_before, menu_admin.
  repeat first
    [ exact menu_before_elevation
    | exact menu_admin_elevation
    | exact (on_text_states_elevation pass)
    | exact on_callback_query_elevation
    | exact on_text_admin_reply_elevation
    | exact (on_text_admin_states_elevation J)
    | exact on_text_report_elevation
    | exact on_message_elevation
    | apply holds_command; intros; unfold on_start, command_admin, command_report;
      by_cases same_admins
    | apply holds_hears; intros; unfold hears_RequestDataDeletion; by_cases same_admins
    | apply holds_table
    | apply Forall_app; split
    | apply Forall_nil_2
    | apply Forall_cons_2 ].
Qed.

Lemma turn_elevation pass J upd e w : elevation_change upd e w (turn pass J upd e w).
Proof.
  revert upd e w. apply (turn_holds elevation_change).
  - apply middlewares_elevation.
  - intros. same_admins.
Qed.

Lemma elevation_kept pass J upd e w uid :
  uid ∈ adminSessions w → ¬ is_logout uid upd →
  uid ∈ adminSessions (r_world (turn pass J upd e w)).
Proof.
  intros Hin Hno. destruct (turn_elevation pass J upd e w) as [->|[[_ ->]|[Hl ->]]].
  - exact Hin.
  - set_solver.
  - destruct (decide (uid = sender upd)) as [->|Hne]; [contradiction | set_solver].
Qed.

Lemma dispatch_await_admin_pass pass f raw e w st :
  states w !! from_id f = Some st → step st = "await_admin_pass" →
  on_text_states pass (Text f raw) e w
  = Some (flow_await_admin_pass pass (from_id f) (trim raw) w).
Proof. intros Hst Hs. dispatch Hst Hs. Qed.

(** C5 (as amended). In the password step, a text that reaches the state
    dispatcher is a password attempt whatever it says: the session is
    cleared; the sender joins the elevation set when the trimmed text is the
    configured secret, and the set stays as it was otherwise. Elevation then
    survives every later update, of anyone, that is not the logout text sent
    by that user. *)
Theorem C5_admin_password pass J :
  (∀ w f raw e st,
      states w !! from_id f = Some st →
      step st = "await_admin_pass" →
      preempted raw = false →
      let r := turn pass J (Text f raw) e w in
      r_handler r = H_states "await_admin_pass" ∧
      states (r_world r) !! from_id f = None ∧
      (ADMIN_PASS pass = Some (trim raw) →
       adminSessions (r_world r) = {[from_id f]} ∪ adminSessions w
       ∧ r_events r = [Reply "Admin access granted"]) ∧
      (ADMIN_PASS pass ≠ Some (trim raw) →
       adminSessions (r_world r) = adminSessions w
       ∧ r_events r = [Reply "Wrong password"])) ∧
  (∀ l w uid,
      uid ∈ adminSessions w →
      Forall (λ ue : Update * Env, ¬ is_logout uid ue.1) l →
      uid ∈ adminSessions (turns pass J l w)).
Proof.
  split.
  - intros w f raw e st Hst Hs Hp r.
    assert (Hr : r = flow_await_admin_pass pass (from_id f) (trim raw) w)
      by (apply turn_dispatched;
          [exact Hp | exact (dispatch_await_admin_pass _ _ _ _ _ _ Hst Hs)]).
    rewrite Hr. unfold flow_await_admin_pass.
    case_bool_decide as Hpw; world_simpl.
    + split; [reflexivity|]. split; [apply lookup_delete_eq|].
      split; [intros _; split; reflexivity | intros Hno; contradiction].
    + split; [reflexivity|]. split; [apply lookup_delete_eq|].
      split; [intros Hyes; contradiction | intros _; split; reflexivity].
  - intros l. induction l as [|[upd e] l IH]; intros w uid Hin Hall; [exact Hin|].
    cbn [turns]. apply Forall_cons in Hall as [Hno Hall].
    apply IH; [|exact Hall]. apply elevation_kept; [exact Hin | exact Hno].
Qed.

Lemma C5_admin_password_witness :
  adminSessions (r_world (turn (Some "secret") no_json (Text alice " secret ") env0
                            (after_texts (Some "secret") ["/admin"] empty_world)))
  = {[7]} ∪ ∅.
Proof.
  refine (proj1 (proj1 (proj2 (proj2
            (proj1 (C5_admin_password (Some "secret") no_json)
               (after_texts (Some "secret") ["/admin"] empty_world) alice " secret " env0
               {| step := "await_admin_pass"; data := None |} _ _ _))) _)).
  - vm_compute. reflexivity.
  - reflexivity.
  - vm_compute. reflexivity.
  - vm_compute. reflexivity.
Defined.

(** C5 (as stated) fails: in the password step the label of the profile
    menu is answered by the menu handler; it is not taken as a password
    attempt and the session is not cleared. *)
Lemma C5_counterexample :
  let w := after_texts (Some "secret") ["/start"; "29"; "82"; "180"; "/admin"] empty_world in
  let r := turn (Some "secret") no_json (Text alice "📋 Profile") env0 w in
  (step <$> states w !! 7) = Some "await_admin_pass" ∧
  r_handler r = H_hears "📋 Profile" ∧
  r_events r = [ReplyDoc "*Profiles*"] ∧
  (step <$> states (r_world r) !! 7) = Some "await_admin_pass".
Proof. vm_compute. repeat split; reflexivity. Qed.

(** ** The two broadcast branches *)

Ltac tag_ne := unfold not_fallback_broadcast; cbn [r_handler ret thrown]; discriminate.

Lemma menu_before_not_fallback :
  Forall (λ lb : string * (From → Env → World → Result),
            ∀ f e w, not_fallback_broadcast (Text f lb.1) e w (lb.2 f e w)) menu_before_table.
Proof.
  unfold menu_before_table.
  repeat (constructor; [intros f e w; cbn [fst snd]; unfold_menu; by_cases tag_ne|]).
  constructor.
Qed.

Lemma menu_admin_not_fallback :
  Forall (λ lb : string * (From → Env → World → Result),
            ∀ f e w, not_fallback_broadcast (Text f lb.1) e w (lb.2 f e w)) menu_admin_table.
Proof.
  unfold menu_admin_table.
  repeat (constructor;
          [intros f e w; cbn [fst snd];
           unfold admin_open_flow, admin_only, hears_Feedback, hears_LogoutAdmin, just_reply;
           by_cases tag_ne|]).
  constructor.
Qed.

Lemma on_text_states_not_fallback pass : holds_for not_fallback_broadcast (on_text_states pass).
Proof.
  intros [f raw|f d] e w r H; unfold on_text_states in H; [|discriminate].
  destruct (states w !! from_id f) as [st|]; [|discriminate].
  repeat match type of H with
         | (if ?c then _ else _) = Some _ => destruct c
         end; simplify_eq; unfold not_fallback_broadcast; autorewrite with tags;
    discriminate.
Qed.

Lemma on_callback_query_not_fallback : holds_for not_fallback_broadcast on_callback_query.
Proof.
  intros [f raw|f d] e w r H; unfold on_callback_query in H; [discriminate|].
  repeat case_match; simplify_eq; tag_ne.
Qed.

Lemma on_text_admin_reply_not_fallback : holds_for not_fallback_broadcast on_text_admin_reply.
Proof.
  intros [f raw|f d] e w r H; unfold on_text_admin_reply in H; [|discriminate].
  repeat case_match; simplify_eq; tag_ne.
Qed.

Lemma on_text_report_not_fallback : holds_for not_fallback_broadcast on_text_report.
Proof.
  intros [f raw|f d] e w r H; unfold on_text_report in H; [|discriminate].
  repeat case_match; simplify_eq; tag_ne.
Qed.

Lemma on_message_not_fallback : holds_for not_fallback_broadcast on_message.
Proof.
  intros [f raw|f d] e w r H; unfold on_message in H; [|discriminate].
  simplify_eq. tag_ne.
Qed.

(** The fallback middleware reaches its broadcast branch only on an update
    that the state dispatcher would have consumed. *)
Lemma on_text_admin_states_after_dispatcher pass J upd e w r :
  on_text_states pass upd e w = None →
  on_text_admin_states J upd e w = Some r →
  r_handler r ≠ H_admin_states "admin_broadcast".
Proof.
  destruct upd as [f raw|f d]; unfold on_text_states, on_text_admin_states;
    [|discriminate].
  destruct (states w !! from_id f) as [st|]; [|discriminate]. cbv zeta.
  intros Hnone H.
  repeat match type of H with
         | (if String.eqb (step st) ?l && ?h then _ else _) = Some _ =>
             let E := fresh "E" in
             destruct (String.eqb (step st) l && h) eqn:E;
             [apply andb_true_iff in E as [E Eh]; apply String.eqb_eq in E;
              clear - E Eh Hnone H|clear E]
         end; [| | | | | | |discriminate].
  1-6: injection H as <-; unfold_admin_flows; rewrite ?E; by_cases tag_ne.
  rewrite E, Eh in Hnone. discriminate Hnone.
Qed.

Lemma before_dispatcher_not_fallback :
  Forall (holds_for not_fallback_broadcast) ([command "start" on_start] ++ menu_before).
Proof.
  unfold menu_before.
  repeat first
    [ exact menu_before_not_fallback
    | apply holds_command; intros; unfold on_start; by_cases tag_ne
    | apply holds_table
    | apply Forall_app; split
    | apply Forall_nil_2
    | apply Forall_cons_2 ].
Qed.

Lemma between_not_fallback pass :
  Forall (holds_for not_fallback_broadcast)
    ([on_callback_query; on_text_admin_reply; command "admin" (command_admin pass)]
     ++ menu_admin).
Proof.
  unfold menu_admin.
  repeat first
    [ exact menu_admin_not_fallback
    | exact on_callback_query_not_fallback
    | exact on_text_admin_reply_not_fallback
    | apply holds_command; intros; unfold command_admin; by_cases tag_ne
    | apply holds_table
    | apply Forall_app; split
    | apply Forall_nil_2
    | apply Forall_cons_2 ].
Qed.

Lemma middlewares_order pass J :
  middlewares pass J
  = ([command "start" on_start] ++ menu_before)
    ++ [on_text_states pass]
    ++ ([on_callback_query; on_text_admin_reply; command "admin" (command_admin pass)]
        ++ menu_admin)
    ++ [on_text_admin_states J]
    ++ [hears "Request Data Deletion" hears_RequestDataDeletion;
        command "report" command_report; on_text_report; on_message].
Proof. unfold middlewares. rewrite <- !app_assoc. reflexivity. Qed.

Lemma fallback_broadcast_unreachable pass J upd e w :
  r_handler (turn pass J upd e w) ≠ H_admin_states "admin_broadcast".
Proof.
  unfold turn. rewrite middlewares_order.
  set (A := [command "start" on_start] ++ menu_before).
  set (B := [on_callback_query; on_text_admin_reply; command "admin" (command_admin pass)]
            ++ menu_admin).
  rewrite !run_app.
  destruct (run A upd e w) as [r|] eqn:E1.
  { exact (run_holds _ _ _ _ _ _ before_dispatcher_not_fallback E1). }
  cbn [run]. destruct (on_text_states pass upd e w) as [r|] eqn:E2.
  { exact (on_text_states_not_fallback pass _ _ _ _ E2). }
  destruct (run B upd e w) as [r|] eqn:E3.
  { exact (run_holds _ _ _ _ _ _ (between_not_fallback pass) E3). }
  destruct (on_text_admin_states J upd e w) as [r|] eqn:E4.
  { exact (on_text_admin_states_after_dispatcher pass J _ _ _ _ E2 E4). }
  match goal with
  | |- context [match ?x with Some _ => _ | None => _ end] => destruct x as [r|] eqn:E5
  end.
  - apply (holds_hears not_fallback_broadcast) in E5; [exact E5|].
    intros; unfold hears_RequestDataDeletion; by_cases tag_ne.
  - match goal with
    | |- context [match ?x with Some _ => _ | None => _ end] => destruct x as [r|] eqn:E6
    end.
    + apply (holds_command not_fallback_broadcast) in E6; [exact E6|].
      intros; unfold command_report; by_cases tag_ne.
    + match goal with
      | |- context [match ?x with Some _ => _ | None => _ end] => destruct x as [r|] eqn:E7
      end.
      * exact (on_text_report_not_fallback _ _ _ _ E7).
      * match goal with
        | |- context [match ?x with Some _ => _ | None => _ end] =>
            destruct x as [r|] eqn:E8
        end; [exact (on_message_not_fallback _ _ _ _ E8) | discriminate].
Qed.

Lemma dispatch_admin_broadcast pass f raw e w st :
  from_id f ∈ adminSessions w →
  states w !! from_id f = Some st → step st = "admin_broadcast" →
  on_text_states pass (Text f raw) e w
  = Some (flow_admin_broadcast (from_id f) (trim raw) e w).
Proof.
  intros Hin Hst Hs. unfold on_text_states.
  rewrite Hst, Hs, (bool_decide_eq_true_2 _ Hin). reflexivity.
Qed.

(** C10 (as amended). For an elevated admin in the broadcast step, every
    text that reaches the state dispatcher is handled there by the first
    broadcast branch; the broadcast branch of the fallback middleware answers
    no update at all; and on the same inputs, with the same outcome of each
    send, the two branches leave the same world, address the same recipients
    in the same order with the same deliveries and count the same sent and
    failed, differing in the message prefix and in the wording of the
    report. *)
Theorem C10_broadcast_branches pass J :
  (∀ w f raw e st,
      from_id f ∈ adminSessions w →
      states w !! from_id f = Some st →
      step st = "admin_broadcast" →
      preempted raw = false →
      turn pass J (Text f raw) e w = flow_admin_broadcast (from_id f) (trim raw) e w) ∧
  (∀ upd e w, r_handler (turn pass J upd e w) ≠ H_admin_states "admin_broadcast") ∧
  (∀ id text e w,
      let ids := List.map telegramId (users w) in
      let r1 := flow_admin_broadcast id text e w in
      let r2 := flow_admin_broadcast_fallback id text e w in
      r_world r1 = states_delete id w ∧ r_world r2 = states_delete id w ∧
      r_threw r1 = r_threw r2 ∧
      ∃ sent failed,
        r_events r1
        = sends BroadcastSend ("📢 Message from Admin:" +:+ nl +:+ nl +:+ text)
            (sendOk e) 0 ids
          ++ [Reply ("Broadcast complete. Sent " +:+ show_nat sent +:+ ", failed "
                     +:+ show_nat failed +:+ ".")] ∧
        r_events r2
        = sends BroadcastFallbackSend ("📢 Admin Broadcast:" +:+ nl +:+ nl +:+ text)
            (sendOk e) 0 ids
          ++ [Reply ("Broadcast sent to " +:+ show_nat sent +:+ " users, failed "
                     +:+ show_nat failed +:+ ".")]).
Proof.
  split; [|split].
  - intros w f raw e st Hin Hst Hs Hp.
    apply turn_dispatched; [exact Hp | exact (dispatch_admin_broadcast _ _ _ _ _ _ Hin Hst Hs)].
  - apply fallback_broadcast_unreachable.
  - intros id text e w ids r1 r2.
    unfold r1, r2, flow_admin_broadcast, flow_admin_broadcast_fallback. fold ids.
    rewrite !sendLoop_spec. cbn [r_world r_threw r_events ret app].
    split; [reflexivity|]. split; [reflexivity|]. split; [reflexivity|].
    eexists _, _. split; reflexivity.
Qed.

Lemma C10_broadcast_branches_witness :
  r_handler (turn (Some "secret") no_json (Text alice "hello") env0
               (after_texts (Some "secret") ["/admin"; "secret"; "📢 Broadcast"] empty_world))
  = H_states "admin_broadcast".
Proof.
  rewrite (proj1 (C10_broadcast_branches (Some "secret") no_json)
             (after_texts (Some "secret") ["/admin"; "secret"; "📢 Broadcast"] empty_world)
             alice "hello" env0 {| step := "admin_broadcast"; data := None |}).
  - reflexivity.
  - assert (H : bool_decide
                 (7 ∈ adminSessions
                        (after_texts (Some "secret") ["/admin"; "secret"; "📢 Broadcast"]
                           empty_world)) = true)
      by (vm_compute; reflexivity).
    exact (bool_decide_eq_true_1 _ H).
  - vm_compute. reflexivity.
  - reflexivity.
  - vm_compute. reflexivity.
Defined.

(** C10 (as stated) fails: an elevated admin in the broadcast step who sends
    the label of the profile menu is answered by the menu handler; the first
    broadcast branch does not run, nothing is sent, and the session stays in
    the broadcast step. *)
Lemma C10_counterexample :
  let w := after_texts (Some "secret") ["/admin"; "secret"; "📢 Broadcast"] empty_world in
  let r := turn (Some "secret") no_json (Text alice "📋 Profile") env0 w in
  bool_decide (7 ∈ adminSessions w) = true ∧
  (step <$> states w !! 7) = Some "admin_broadcast" ∧
  r_handler r = H_hears "📋 Profile" ∧
  r_events r = [Reply "Please /start first."] ∧
  (step <$> states (r_world r) !! 7) = Some "admin_broadcast".
Proof. vm_compute. repeat split; reflexivity. Qed.

(** ** Who answers a user in a flow *)

Lemma on_text_states_unowned pass f raw e w st :
  states w !! from_id f = Some st →
  dispatcher_step (step st) = false →
  on_text_states pass (Text f raw) e w
  = if bool_decide (from_id f ∈ adminSessions w) && String.eqb (step st) "admin_broadcast"
    then Some (flow_admin_broadcast (from_id f) (trim raw) e w) else None.
Proof.
  intros Hst Hd. unfold on_text_states. rewrite Hst.
  unfold dispatcher_step, includes in Hd. cbn [existsb] in Hd.
  repeat match goal with
         | Hx : (_ || _)%bool = false |- _ => apply orb_false_elim in Hx as [? ?]
         end.
  repeat match goal with
         | Hx : String.eqb (step st) ?l = false |- _ => rewrite !Hx; clear Hx
         | Hx : startsWith _ (step st) = false |- _ => rewrite !Hx; clear Hx
         end.
  reflexivity.
Qed.

Lemma on_text_admin_reply_tag f raw e w r :
  on_text_admin_reply (Text f raw) e w = Some r → r_handler r = H_admin_reply.
Proof.
  unfold on_text_admin_reply. intros H. repeat case_match; simplify_eq; reflexivity.
Qed.

Lemma on_text_admin_reply_taken f raw e w st :
  states w !! from_id f = Some st →
  is_Some (on_text_admin_reply (Text f raw) e w)
  ↔ String.eqb (step st) "admin_reply" && bool_decide (from_id f ∈ adminSessions w) = true.
Proof.
  intros Hst. unfold on_text_admin_reply. rewrite Hst.
  destruct (String.eqb (step st) "admin_reply" && bool_decide (from_id f ∈ adminSessions w)).
  - split; [reflexivity|]. intros _. repeat case_match; eauto.
  - split; [intros [? ?]; discriminate | discriminate].
Qed.

Lemma command_admin_tag pass f e w : r_handler (command_admin pass f e w) = H_command "admin".
Proof. unfold command_admin. tag_cases. Qed.

Lemma menu_admin_tags :
  Forall (λ lb : string * (From → Env → World → Result),
            ∀ f e w, r_handler (lb.2 f e w) = H_hears lb.1) menu_admin_table.
Proof.
  unfold menu_admin_table.
  repeat (constructor;
          [intros f e w; cbn [fst snd];
           unfold admin_open_flow, admin_only, hears_Feedback, hears_LogoutAdmin, just_reply;
           tag_cases|]).
  constructor.
Qed.

Lemma on_text_admin_states_routes J f raw e w st :
  states w !! from_id f = Some st →
  String.eqb (step st) "admin_broadcast" && bool_decide (from_id f ∈ adminSessions w) = false →
  if includes fallback_steps (step st) && bool_decide (from_id f ∈ adminSessions w)
  then ∃ r, on_text_admin_states J (Text f raw) e w = Some r
            ∧ r_handler r = H_admin_states (step st)
  else on_text_admin_states J (Text f raw) e w = None.
Proof.
  intros Hst Hb. unfold on_text_admin_states. rewrite Hst. cbv zeta.
  unfold fallback_steps, includes. cbn [existsb].
  destruct (bool_decide (from_id f ∈ adminSessions w));
    [|rewrite !andb_false_r; reflexivity].
  rewrite !andb_true_r in *. rewrite Hb.
  repeat match goal with
         | |- context [if String.eqb (step st) ?l then Some _ else _] =>
             let E := fresh "E" in
             destruct (String.eqb (step st) l) eqn:E;
             [apply String.eqb_eq in E; rewrite E; cbn [orb];
              eexists; split; [reflexivity|];
              unfold_admin_flows; tag_cases|]
         end.
  reflexivity.
Qed.

Lemma on_text_report_routes f raw e w st :
  states w !! from_id f = Some st →
  if String.eqb (step st) "report_bug"
  then ∃ r, on_text_report (Text f raw) e w = Some r ∧ r_handler r = H_report_bug
  else on_text_report (Text f raw) e w = None.
Proof.
  intros Hst. unfold on_text_report. rewrite Hst.
  destruct (String.eqb (step st) "report_bug"); [|reflexivity].
  eexists. split; reflexivity.
Qed.

(** C1 (as amended). Which handler answers a text of a user who has a
    session, whatever the step: the handlers are tried in registration order,
    so the branch of the active step gets the text unless a command or menu
    handler registered before the middleware of that branch consumes it.
    The /start command and the main-menu labels come before every branch;
    the /admin command and the admin-menu labels come before the branches of
    the admin fallback middleware and of the report step; the data deletion
    label and the /report command come before the branch of the report step.
    A branch guarded by elevation exists only for an elevated user, and a
    step without a branch leaves the text to the later handlers. *)
Theorem C1_flow_wins_unless_preempted pass J w f raw e st :
  states w !! from_id f = Some st →
  let s := step st in
  let elevated := bool_decide (from_id f ∈ adminSessions w) in
  r_handler (turn pass J (Text f raw) e w) =
    if is_command "start" raw then H_start
    else if includes labels_before raw then H_hears raw
    else if dispatcher_step s then H_states s
    else if String.eqb s "admin_broadcast" && elevated then H_states s
    else if String.eqb s "admin_reply" && elevated then H_admin_reply
    else if is_command "admin" raw then H_command "admin"
    else if includes labels_admin raw then H_hears raw
    else if includes fallback_steps s && elevated then H_admin_states s
    else if String.eqb raw "Request Data Deletion" then H_hears raw
    else if is_command "report" raw then H_command "report"
    else if String.eqb s "report_bug" then H_report_bug
    else H_message.
Proof.
  intros Hst s elevated. destruct (is_command "start" raw) eqn:Hc.
  { rewrite turn_start by exact Hc. apply on_start_tag. }
  destruct (includes labels_before raw) eqn:Hl.
  { destruct (turn_label pass J f raw e w Hc Hl) as (b & Hin & ->).
    exact (proj1 (List.Forall_forall _ _) menu_before_tags _ Hin f e w). }
  rewrite turn_not_preempted by (unfold preempted; rewrite Hc, Hl; reflexivity).
  unfold from_dispatcher. rewrite !run_app. cbn [run].
  destruct (dispatcher_step s) eqn:Hd.
  { destruct (on_text_states_owned pass f raw e w st Hst Hd) as (r & -> & Htag). exact Htag. }
  rewrite (on_text_states_unowned pass f raw e w st Hst Hd).
  fold s elevated. rewrite (andb_comm elevated).
  destruct (String.eqb s "admin_broadcast" && elevated) eqn:Hb.
  { apply andb_true_iff in Hb as [Hb _]. apply String.eqb_eq in Hb. rewrite Hb.
    apply flow_admin_broadcast_tag. }
  cbn [on_callback_query].
  pose proof (on_text_admin_reply_taken f raw e w st Hst) as Hreply. fold s elevated in Hreply.
  destruct (String.eqb s "admin_reply" && elevated) eqn:Hr.
  { destruct (proj2 Hreply eq_refl) as [r Hr']. rewrite Hr'.
    exact (on_text_admin_reply_tag _ _ _ _ _ Hr'). }
  destruct (on_text_admin_reply (Text f raw) e w) as [r|] eqn:Hr';
    [destruct Hreply as [Hreply _]; discriminate (Hreply (mk_is_Some _ _ eq_refl))|].
  cbn [command]. destruct (is_command "admin" raw) eqn:Ha; [apply command_admin_tag|].
  unfold menu_admin. rewrite run_hears.
  destruct (includes labels_admin raw) eqn:Hla.
  { destruct (find_label_Some menu_admin_table raw Hla) as (b & -> & Hin).
    exact (proj1 (List.Forall_forall _ _) menu_admin_tags _ Hin f e w). }
  rewrite (find_label_None menu_admin_table raw Hla). cbn [fmap option_fmap option_map].
  pose proof (on_text_admin_states_routes J f raw e w st Hst Hb) as Hfb.
  fold s elevated in Hfb.
  destruct (includes fallback_steps s && elevated).
  { destruct Hfb as (r & -> & Htag). exact Htag. }
  rewrite Hfb. cbn [hears].
  destruct (String.eqb raw "Request Data Deletion") eqn:Hrdd.
  { apply String.eqb_eq in Hrdd. subst raw. unfold hears_RequestDataDeletion. tag_cases. }
  destruct (is_command "report" raw) eqn:Hrep; [reflexivity|].
  pose proof (on_text_report_routes f raw e w st Hst) as Hrb. fold s in Hrb.
  destruct (String.eqb s "report_bug").
  { destruct Hrb as (r & -> & Htag). exact Htag. }
  rewrite Hrb. reflexivity.
Qed.

Lemma C1_flow_wins_unless_preempted_witness :
  r_handler (turn (Some "secret") no_json (Text alice "9") env0 admin_in_promote_flow)
  = H_admin_states "promote_user".
Proof.
  apply (C1_flow_wins_unless_preempted (Some "secret") no_json admin_in_promote_flow alice "9" env0
           {| step := "promote_user"; data := None |}).
  vm_compute. reflexivity.
Defined.

(** C1 (as stated) fails, in each of the ways the amendment names. A user in
    the middle of onboarding who sends the label of the profile menu, or the
    /start command, is answered by that handler and not by the flow. An
    elevated admin in the promote step who sends the logout label or the
    /admin command is answered by those. A user in the report step who sends
    the data deletion label, the /report command, the /admin command or an
    admin-menu label is answered by those. A user in the step the water
    tracker stores, and a logged-out admin still in the promote step, have
    no flow handler: the final fallback answers. *)
Lemma C1_counterexample :
  let w := after_texts None ["/start"] empty_world in
  let wr := after_texts None ["/report"] empty_world in
  let ww := after_texts None ["/start"; "💧 Water Tracker"] empty_world in
  ((step <$> states w !! 7) = Some "edit_profile_full" ∧
   r_handler (turn None no_json (Text alice "📋 Profile") env0 w) = H_hears "📋 Profile" ∧
   r_world (turn None no_json (Text alice "📋 Profile") env0 w) = w ∧
   r_handler (turn None no_json (Text alice "/start") env0 w) = H_start) ∧
  ((step <$> states admin_in_promote_flow !! 7) = Some "promote_user" ∧
   r_handler (turn (Some "secret") no_json (Text alice "⬅️ Logout Admin") env0
                admin_in_promote_flow) = H_hears "⬅️ Logout Admin" ∧
   r_handler (turn (Some "secret") no_json (Text alice "/admin") env0
                admin_in_promote_flow) = H_command "admin") ∧
  ((step <$> states wr !! 7) = Some "report_bug" ∧
   r_handler (turn None no_json (Text alice "Request Data Deletion") env0 wr)
   = H_hears "Request Data Deletion" ∧
   r_handler (turn None no_json (Text alice "/report") env0 wr) = H_command "report" ∧
   r_handler (turn None no_json (Text alice "/admin") env0 wr) = H_command "admin" ∧
   r_handler (turn None no_json (Text alice "🐞 Feedback") env0 wr) = H_hears "🐞 Feedback") ∧
  ((step <$> states ww !! 7) = Some "set_water_times" ∧
   r_handler (turn None no_json (Text alice "10:00") env0 ww) = H_message) ∧
  ((step <$> states logged_out_mid_flow !! 7) = Some "promote_user" ∧
   r_handler (turn (Some "secret") no_json (Text alice "9") env0 logged_out_mid_flow)
   = H_message).
Proof. vm_compute. repeat split; reflexivity. Qed.

(** ** The example scenario of the specification, run on the model *)

(** After "/start" and "29": the age is stored and the session is in the
    weight step. *)
Example scenario_age :
  let w := after_texts None ["/start"; "29"] empty_world in
  (step <$> states w !! 7) = Some "edit_profile_weight" ∧
  (List.map p_age <$> (profiles <$> findOne 7 (users w))) = Some [Some (ofZ 29)].
Proof. vm_compute. split; reflexivity. Qed.

(** "abc" in the weight step: the prompt again, nothing else changes. *)
Example scenario_abc :
  let w := after_texts None ["/start"; "29"] empty_world in
  let r := turn None no_json (Text alice "abc") env0 w in
  r_events r = [Reply "Send numeric weight in kg."] ∧ r_world r = w.
Proof. vm_compute. split; reflexivity. Qed.

(** "82": the weight, one history record, and the height step. *)
Example scenario_weight :
  let w := after_texts None ["/start"; "29"; "abc"; "82"] empty_world in
  (step <$> states w !! 7) = Some "edit_profile_height" ∧
  (weightHistory <$> findOne 7 (users w)) = Some [mkWeightEntry "uuid-1" (ofZ 82) 1000] ∧
  (List.map p_weightKg <$> (profiles <$> findOne 7 (users w))) = Some [Some (ofZ 82)].
Proof. vm_compute. repeat split; reflexivity. Qed.

(** "180": the height, and the session is cleared. *)
Example scenario_height :
  let w := after_texts None ["/start"; "29"; "abc"; "82"; "180"] empty_world in
  states w !! 7 = None ∧
  (List.map p_heightCm <$> (profiles <$> findOne 7 (users w))) = Some [Some (ofZ 180)].
Proof. vm_compute. split; reflexivity. Qed.

(** Deleting the active second profile of two moves the active reference to
    the remaining one; a fractional position is truncated by [splice]. *)
Example scenario_delete_active :
  let r := turn None no_json (Text alice "2") env0 two_profiles in
  (activeProfileId <$> findOne 7 (users two_profiles)) = Some (Some "uuid-2") ∧
  (activeProfileId <$> findOne 7 (users (r_world r))) = Some (Some "uuid-1") ∧
  (List.map p_id <$> (profiles <$> findOne 7 (users (r_world r)))) = Some ["uuid-1"] ∧
  (List.map p_id
     <$> (profiles
            <$> findOne 7 (users (r_world (turn None no_json (Text alice "1.5") env0
                                             two_profiles)))))
  = Some ["uuid-2"].
Proof. vm_compute. repeat split; reflexivity. Qed.

(** A broadcast to three users of which the second send fails. *)
Example scenario_broadcast :
  let w := set_users (λ _, [newUser 1 "a" "a"; newUser 2 "b" "b"; newUser 3 "c" "c"])
             empty_world in
  let e := mkEnv 0 "u" "o" (λ i, negb (i =? 1)%nat) "blocked" in
  last (r_events (flow_admin_broadcast 7 "hi" e w))
  = Some (Reply "Broadcast complete. Sent 2, failed 1.") ∧
  last (r_events (flow_admin_broadcast_fallback 7 "hi" e w))
  = Some (Reply "Broadcast sent to 2 users, failed 1.").
Proof. vm_compute. split; reflexivity. Qed.

(** A user document created by the reminder flow has no profile: the delete
    flow then rejects every number and changes nothing. *)
Example scenario_delete_without_profiles :
  let w := after_texts None ["Set Daily Workout"; "18:30"; "🗑️ Delete Profile"] empty_world in
  let r := turn None no_json (Text alice "1") env0 w in
  (profiles <$> findOne 7 (users w)) = Some [] ∧
  r_events r = [Reply "Invalid number."] ∧ r_world r = w.
Proof. vm_compute. repeat split; reflexivity. Qed.

(** * Further properties of the code *)

(** ** Proving a property of every registered middleware *)

Lemma holds_command_matched P name (b : From → Env → World → Result) :
  (∀ f t e w, is_command name t = true → P (Text f t) e w (b f e w)) →
  holds_for P (command name b).
Proof.
  intros H [f t|f d] e w r; cbn [command]; [|discriminate].
  destruct (is_command name t) eqn:E; [|discriminate]. intros [= <-]. apply H, E.
Qed.

Lemma middlewares_holds P pass J :
  (∀ f t e w, is_command "start" t = true → P (Text f t) e w (on_start f e w)) →
  Forall (λ lb : string * (From → Env → World → Result),
            ∀ f e w, P (Text f lb.1) e w (lb.2 f e w)) menu_before_table →
  holds_for P (on_text_states pass) →
  holds_for P on_callback_query →
  holds_for P on_text_admin_reply →
  (∀ f t e w, is_command "admin" t = true → P (Text f t) e w (command_admin pass f e w)) →
  Forall (λ lb : string * (From → Env → World → Result),
            ∀ f e w, P (Text f lb.1) e w (lb.2 f e w)) menu_admin_table →
  holds_for P (on_text_admin_states J) →
  (∀ f e w, P (Text f "Request Data Deletion") e w (hears_RequestDataDeletion f e w)) →
  (∀ f t e w, is_command "report" t = true → P (Text f t) e w (command_report f e w)) →
  holds_for P on_text_report →
  holds_for P on_message →
  Forall (holds_for P) (middlewares pass J).
Proof.
  intros Hstart Hbefore Hstates Hcb Hreply Hadmin Hmenu Hfallback Hrdd Hreport Htext Hmsg.
  unfold middlewares, menu_before, menu_admin.
  repeat first
    [ exact Hstates | exact Hcb | exact Hreply | exact Hfallback | exact Htext | exact Hmsg
    | apply holds_table; first [exact Hbefore | exact Hmenu]
    | apply holds_command_matched; first [exact Hstart | exact Hadmin | exact Hreport]
    | apply holds_hears; exact Hrdd
    | apply Forall_app; split
    | apply Forall_nil_2
    | apply Forall_cons_2 ].
Qed.

(** The [if]-chain of a state middleware, one branch at a time. *)
Ltac branches H :=
  repeat match type of H with
         | (if ?c then _ else _) = Some _ => let E := fresh "E" in destruct c eqn:E
         end; simplify_eq.

Ltac unfold_admin_menu :=
  unfold admin_open_flow, admin_only, hears_Feedback, hears_LogoutAdmin, just_reply.

(** ** Session isolation *)

Ltac others_kept :=
  unfold sessions_of_others_kept; intros ? ?; world_simpl; cbn [sender] in *;
  rewrite ?lookup_insert_ne, ?lookup_delete_ne by congruence; reflexivity.

Lemma middlewares_sessions pass J :
  Forall (holds_for sessions_of_others_kept) (middlewares pass J).
Proof.
  apply middlewares_holds.
  - intros. unfold on_start. by_cases others_kept.
  - unfold menu_before_table.
    repeat (constructor; [intros f e w; cbn [fst snd]; unfold_menu; by_cases others_kept|]).
    constructor.
  - intros [f raw|f d] e w r H; unfold on_text_states in H; [|discriminate].
    destruct (states w !! from_id f) as [st|]; [|discriminate].
    branches H; unfold_flows; by_cases others_kept.
  - intros [f raw|f d] e w r H; unfold on_callback_query in H; [discriminate|].
    repeat case_match; simplify_eq; others_kept.
  - intros [f raw|f d] e w r H; unfold on_text_admin_reply in H; [|discriminate].
    repeat case_match; simplify_eq; others_kept.
  - intros. unfold command_admin. by_cases others_kept.
  - unfold menu_admin_table.
    repeat (constructor;
            [intros f e w; cbn [fst snd]; unfold_admin_menu; by_cases others_kept|]).
    constructor.
  - intros [f raw|f d] e w r H; unfold on_text_admin_states in H; [|discriminate].
    destruct (states w !! from_id f) as [st|]; [|discriminate]. cbv zeta in H.
    branches H; unfold_admin_flows; by_cases others_kept.
  - intros. unfold hears_RequestDataDeletion. by_cases others_kept.
  - intros. unfold command_report. others_kept.
  - intros [f raw|f d] e w r H; unfold on_text_report in H; [|discriminate].
    repeat case_match; simplify_eq; others_kept.
  - intros [f raw|f d] e w r H; unfold on_message in H; [|discriminate].
    simplify_eq. others_kept.
Qed.

(** X1. Whatever an update is and whoever sends it, elevated or not, the
    turn neither creates, changes nor clears the session of any other user. *)
Theorem X1_session_isolation pass J upd e w k :
  k ≠ sender upd →
  states (r_world (turn pass J upd e w)) !! k = states w !! k.
Proof.
  revert k. change (sessions_of_others_kept upd e w (turn pass J upd e w)).
  revert upd e w. apply turn_holds.
  - apply middlewares_sessions.
  - intros. others_kept.
Qed.

(** ** What a turn does to the stored users *)

Lemma findOneNum_findOne n us u0 :
  findOneNum n us = Some u0 → findOne (telegramId u0) us = Some u0.
Proof.
  unfold findOneNum, findOne. induction us as [|v us IH]; [discriminate|].
  cbn [List.find]. destruct (eqn (ofZ (telegramId v)) n) eqn:E.
  - intros [= ->]. rewrite Z.eqb_refl. reflexivity.
  - intros H. destruct (telegramId v =? telegramId u0)%Z eqn:E'; [|exact (IH H)].
    apply Z.eqb_eq in E'. apply find_some in H as [_ H]. rewrite <- E', E in H.
    discriminate.
Qed.

Ltac prefix_tac :=
  first [ exists []; symmetry; apply app_nil_r | eexists; reflexivity ].

Ltac logs_tac := unfold logs_grow; cbn; split; [prefix_tac | split; prefix_tac].

Ltac own_id :=
  cbn; first [ reflexivity | eapply findOne_id; eassumption ].

Ltac users_tac :=
  unfold users_touch; world_simpl; cbn [sender] in *;
  first
    [ left; reflexivity
    | right; left; eexists _, _, _;
      split; [eassumption|]; split; [reflexivity|]; split; [own_id|];
      split; [logs_tac|]; left; split; reflexivity
    | right; right; left; eexists;
      split; [eassumption|];
      split; [first [reflexivity | apply (save_app_new (telegramId _)); own_id
                    | eapply save_app_new; [eassumption | reflexivity | reflexivity]]|];
      split; reflexivity ].

Ltac users_tac' := simplify_eq; load_user; users_tac.

Lemma middlewares_users pass J : Forall (holds_for users_touch) (middlewares pass J).
Proof.
  apply middlewares_holds.
  - intros. unfold on_start. by_cases users_tac.
  - unfold menu_before_table.
    repeat (constructor; [intros f e w; cbn [fst snd]; unfold_menu; by_cases users_tac|]).
    constructor.
  - intros [f raw|f d] e w r H; unfold on_text_states in H; [|discriminate].
    destruct (states w !! from_id f) as [st|]; [|discriminate].
    branches H; unfold_flows; by_cases users_tac'.
  - intros [f raw|f d] e w r H; unfold on_callback_query in H; [discriminate|].
    repeat case_match; simplify_eq; users_tac.
  - intros [f raw|f d] e w r H; unfold on_text_admin_reply in H; [|discriminate].
    repeat case_match; simplify_eq; users_tac.
  - intros. unfold command_admin. by_cases users_tac.
  - unfold menu_admin_table.
    repeat (constructor;
            [intros f e w; cbn [fst snd]; unfold_admin_menu; by_cases users_tac|]).
    constructor.
  - intros [f raw|f d] e w r H; unfold on_text_admin_states in H; [|discriminate].
    destruct (states w !! from_id f) as [st|]; [|discriminate]. cbv zeta in H.
    branches H; unfold_admin_flows;
      repeat match goal with
             | E : (_ && bool_decide _)%bool = true |- _ =>
                 apply andb_true_iff in E as [? ?%bool_decide_eq_true_1]
             end;
      by_cases ltac:(first
        [ users_tac
        | unfold users_touch; world_simpl; cbn [sender];
          right; left; eexists _, _, _;
          split; [eapply findOneNum_findOne; eassumption|];
          split; [reflexivity|]; split; [reflexivity|]; split; [logs_tac|];
          right; assumption
        | unfold users_touch; world_simpl; cbn [sender];
          right; right; right; split; [assumption|]; split; [reflexivity|];
          eexists; reflexivity ]).
  - intros. unfold hears_RequestDataDeletion. by_cases users_tac.
  - intros. unfold command_report. users_tac.
  - intros [f raw|f d] e w r H; unfold on_text_report in H; [|discriminate].
    repeat case_match; simplify_eq; users_tac.
  - intros [f raw|f d] e w r H; unfold on_message in H; [|discriminate].
    simplify_eq. users_tac.
Qed.

Lemma turn_users pass J upd e w : users_touch upd e w (turn pass J upd e w).
Proof.
  revert upd e w. apply turn_holds; [apply middlewares_users|].
  intros. left. reflexivity.
Qed.

Lemma findOne_save_other k us u :
  k ≠ telegramId u → findOne k (save u us) = findOne k us.
Proof.
  unfold findOne. intros Hk. induction us as [|v us IH]; [reflexivity|].
  cbn [save]. destruct (telegramId v =? telegramId u)%Z eqn:E; cbn [List.find].
  - apply Z.eqb_eq in E. rewrite E.
    destruct (telegramId u =? k)%Z eqn:E'; [|reflexivity].
    apply Z.eqb_eq in E'. congruence.
  - rewrite IH. reflexivity.
Qed.

Lemma findOne_app_Some k us u l : findOne k us = Some u → findOne k (us ++ l) = Some u.
Proof.
  unfold findOne. induction us as [|v us IH]; [discriminate|].
  cbn [app List.find]. destruct (telegramId v =? k)%Z; [trivial | exact IH].
Qed.

Lemma findOne_app_other k us u :
  k ≠ telegramId u → findOne k (us ++ [u]) = findOne k us.
Proof.
  unfold findOne. intros Hk. induction us as [|v us IH]; cbn [app List.find].
  - destruct (telegramId u =? k)%Z eqn:E; [|reflexivity].
    apply Z.eqb_eq in E. congruence.
  - destruct (telegramId v =? k)%Z; [reflexivity | exact IH].
Qed.

(** X1 on a concrete input. *)
Lemma X1_session_isolation_witness :
  states (r_world (turn None no_json (Text alice "/start") env0 bob_logging)) !! 9
  = states bob_logging !! 9.
Proof.
  apply (X1_session_isolation None no_json (Text alice "/start") env0 bob_logging 9).
  cbn. lia.
Defined.

(** X2. A turn of a sender who is not elevated leaves the stored document
    of every other user exactly as it was. *)
Theorem X2_user_isolation pass J upd e w k :
  sender upd ∉ adminSessions w →
  k ≠ sender upd →
  findOne k (users (r_world (turn pass J upd e w))) = findOne k (users w).
Proof.
  intros Hnot Hk.
  destruct (turn_users pass J upd e w)
    as [->|[(t & u0 & u & Hf & -> & Ht & _ & [[-> _]|Hin])
           |[(u & Hf & -> & Ht & _)|[Hin _]]]];
    try contradiction.
  - reflexivity.
  - apply findOne_save_other. congruence.
  - apply findOne_app_other. congruence.
Qed.

Lemma X2_user_isolation_witness :
  findOne 9 (users (r_world (turn None no_json (Text alice "/start") env0 bob_logging)))
  = findOne 9 (users bob_logging).
Proof.
  apply (X2_user_isolation None no_json (Text alice "/start") env0 bob_logging 9).
  - assert (H : bool_decide (7 ∉ adminSessions bob_logging) = true)
      by (vm_compute; reflexivity).
    exact (bool_decide_eq_true_1 _ H).
  - cbn. lia.
Defined.

Lemma logs_grow_refl u : logs_grow u u.
Proof. unfold logs_grow. split; [|split]; exists []; symmetry; apply app_nil_r. Qed.

(** X3. The weight history, the meal log and the workout log of a stored
    user are append-only: after any turn other than an admin's removal of a
    user, the user is still stored and each log extends the one before. *)
Theorem X3_logs_append_only pass J upd e w k u0 :
  r_handler (turn pass J upd e w) ≠ H_admin_states "remove_user" →
  findOne k (users w) = Some u0 →
  ∃ u, findOne k (users (r_world (turn pass J upd e w))) = Some u ∧ logs_grow u0 u.
Proof.
  intros Hh Hk.
  destruct (turn_users pass J upd e w)
    as [->|[(t & u1 & u & Hf & -> & Ht & Hg & _)
           |[(u & Hf & -> & Ht & _)|(_ & Hr & _)]]];
    try contradiction.
  - exists u0. split; [exact Hk | apply logs_grow_refl].
  - destruct (decide (k = t)) as [->|Hne].
    + exists u. split; [exact (findOne_save _ _ _ _ Hf Ht)|]. congruence.
    + exists u0. split; [|apply logs_grow_refl].
      rewrite findOne_save_other by congruence. exact Hk.
  - exists u0. split; [exact (findOne_app_Some _ _ _ _ Hk) | apply logs_grow_refl].
Qed.

Lemma X3_logs_append_only_witness :
  ∃ u, findOne 9 (users (r_world (turn None no_json (Text bob "600 oats") env0 bob_logging)))
       = Some u
       ∧ logs_grow (default (newUser 0 EmptyString EmptyString) (findOne 9 (users bob_logging))) u.
Proof.
  apply (X3_logs_append_only None no_json (Text bob "600 oats") env0 bob_logging 9).
  - vm_compute. discriminate.
  - vm_compute. reflexivity.
Defined.

(** ** Relayed messages are immutable *)

Lemma relay_same_refl a : relay_same a a.
Proof. unfold relay_same. tauto. Qed.

Lemma relays_same_refl l : Forall2 relay_same l l.
Proof. induction l; constructor; [apply relay_same_refl | assumption]. Qed.

Lemma relays_same_markread rId l :
  Forall2 relay_same l
    (List.map (λ r, if String.eqb (mr_id r) rId
                    then mkRelay (mr_id r) (mr_fromId r) (mr_profileId r)
                           (mr_text r) (mr_type r) true
                    else r) l).
Proof.
  induction l as [|a l IH]; cbn [List.map]; constructor; [|exact IH].
  destruct (String.eqb (mr_id a) rId); [|apply relay_same_refl].
  unfold relay_same. cbn. tauto.
Qed.

Ltac relays_tac :=
  unfold relays_touch; world_simpl;
  first
    [ eexists _, []; split; [symmetry; apply app_nil_r|];
      split; [first [apply relays_same_refl | apply relays_same_markread] | cbn; lia]
    | eexists _, [_]; split; [reflexivity|];
      split; [apply relays_same_refl | cbn; lia] ].

Lemma middlewares_relays pass J : Forall (holds_for relays_touch) (middlewares pass J).
Proof.
  apply middlewares_holds.
  - intros. unfold on_start. by_cases relays_tac.
  - unfold menu_before_table.
    repeat (constructor; [intros f e w; cbn [fst snd]; unfold_menu; by_cases relays_tac|]).
    constructor.
  - intros [f raw|f d] e w r H; unfold on_text_states in H; [|discriminate].
    destruct (states w !! from_id f) as [st|]; [|discriminate].
    branches H; unfold_flows; by_cases ltac:(simplify_eq; relays_tac).
  - intros [f raw|f d] e w r H; unfold on_callback_query in H; [discriminate|].
    repeat case_match; simplify_eq; relays_tac.
  - intros [f raw|f d] e w r H; unfold on_text_admin_reply in H; [|discriminate].
    repeat case_match; simplify_eq; relays_tac.
  - intros. unfold command_admin. by_cases relays_tac.
  - unfold menu_admin_table.
    repeat (constructor;
            [intros f e w; cbn [fst snd]; unfold_admin_menu; by_cases relays_tac|]).
    constructor.
  - intros [f raw|f d] e w r H; unfold on_text_admin_states in H; [|discriminate].
    destruct (states w !! from_id f) as [st|]; [|discriminate]. cbv zeta in H.
    branches H; unfold_admin_flows; by_cases relays_tac.
  - intros. unfold hears_RequestDataDeletion. by_cases relays_tac.
  - intros. unfold command_report. relays_tac.
  - intros [f raw|f d] e w r H; unfold on_text_report in H; [|discriminate].
    repeat case_match; simplify_eq; relays_tac.
  - intros [f raw|f d] e w r H; unfold on_message in H; [|discriminate].
    simplify_eq. relays_tac.
Qed.

(** X4. No turn deletes or rewrites a relayed message: after any update the
    stored messages are the ones before, each with the same id, sender,
    profile, text and kind and with its read flag never unset, followed by
    at most one new message. *)
Theorem X4_relays_immutable pass J upd e w :
  ∃ kept new,
    relays (r_world (turn pass J upd e w)) = kept ++ new ∧
    Forall2 relay_same (relays w) kept ∧ (length new ≤ 1)%nat.
Proof.
  change (relays_touch upd e w (turn pass J upd e w)).
  revert upd e w. apply turn_holds; [apply middlewares_relays|].
  intros. relays_tac.
Qed.

(** ** Elevation comes from the password only *)

Ltac elevation_tac :=
  unfold elevated_by_password; world_simpl; cbn [sender] in *;
  intros ? ?; left;
  first [ assumption
        | match goal with
          | H : _ ∈ _ ∖ _ |- _ => apply elem_of_difference in H as [H _]; exact H
          end ].

Lemma middlewares_password pass J :
  Forall (holds_for (elevated_by_password pass)) (middlewares pass J).
Proof.
  apply middlewares_holds.
  - intros. unfold on_start. by_cases elevation_tac.
  - unfold menu_before_table.
    repeat (constructor;
            [intros f e w; cbn [fst snd]; unfold_menu; by_cases elevation_tac|]).
    constructor.
  - intros [f raw|f d] e w r H; unfold on_text_states in H; [|discriminate].
    destruct (states w !! from_id f) as [st|] eqn:Hst; [|discriminate].
    destruct (String.eqb (step st) "await_admin_pass") eqn:Hs.
    { injection H as <-. apply String.eqb_eq in Hs. unfold flow_await_admin_pass.
      case_bool_decide as Hpw; [|elevation_tac].
      unfold elevated_by_password. world_simpl. intros id Hin.
      apply elem_of_union in Hin as [Hin|Hin]; [|left; exact Hin].
      apply elem_of_singleton in Hin. subst id. right. eauto 10. }
    branches H; unfold_flows; by_cases ltac:(simplify_eq; elevation_tac).
  - intros [f raw|f d] e w r H; unfold on_callback_query in H; [discriminate|].
    repeat case_match; simplify_eq; elevation_tac.
  - intros [f raw|f d] e w r H; unfold on_text_admin_reply in H; [|discriminate].
    repeat case_match; simplify_eq; elevation_tac.
  - intros. unfold command_admin. by_cases elevation_tac.
  - unfold menu_admin_table.
    repeat (constructor;
            [intros f e w; cbn [fst snd]; unfold_admin_menu; by_cases elevation_tac|]).
    constructor.
  - intros [f raw|f d] e w r H; unfold on_text_admin_states in H; [|discriminate].
    destruct (states w !! from_id f) as [st|]; [|discriminate]. cbv zeta in H.
    branches H; unfold_admin_flows; by_cases elevation_tac.
  - intros. unfold hears_RequestDataDeletion. by_cases elevation_tac.
  - intros. unfold command_report. elevation_tac.
  - intros [f raw|f d] e w r H; unfold on_text_report in H; [|discriminate].
    repeat case_match; simplify_eq; elevation_tac.
  - intros [f raw|f d] e w r H; unfold on_message in H; [|discriminate].
    simplify_eq. elevation_tac.
Qed.

(** X5. Elevation is granted by the password and by nothing else: a user
    who is elevated after a turn and was not before it is the sender of that
    turn, was in the password step, and sent a text whose trimmed form is the
    configured secret. In particular nobody is ever elevated when no secret
    is configured, and promoting a user does not elevate them. *)
Theorem X5_elevation_only_by_password pass J upd e w id :
  id ∉ adminSessions w →
  id ∈ adminSessions (r_world (turn pass J upd e w)) →
  ∃ f raw st, upd = Text f raw ∧ from_id f = id ∧ states w !! id = Some st ∧
              step st = "await_admin_pass" ∧ ADMIN_PASS pass = Some (trim raw).
Proof.
  intros Hnot Hin.
  assert (H : elevated_by_password pass upd e w (turn pass J upd e w)).
  { clear Hnot Hin. revert upd e w.
    apply (turn_holds (elevated_by_password pass)); [apply middlewares_password|].
    intros. elevation_tac. }
  destruct (H id Hin) as [?|?]; [contradiction | assumption].
Qed.

Lemma X5_elevation_only_by_password_witness :
  ∃ f raw st, Text alice " secret " = Text f raw ∧ from_id f = 7 ∧
              states awaiting_password !! 7 = Some st ∧
              step st = "await_admin_pass" ∧ ADMIN_PASS (Some "secret") = Some (trim raw).
Proof.
  apply (X5_elevation_only_by_password (Some "secret") no_json (Text alice " secret ") env0
           awaiting_password 7).
  - assert (H : bool_decide (7 ∉ adminSessions awaiting_password) = true)
      by (vm_compute; reflexivity).
    exact (bool_decide_eq_true_1 _ H).
  - assert (H : bool_decide
                  (7 ∈ adminSessions
                         (r_world (turn (Some "secret") no_json (Text alice " secret ") env0
                                     awaiting_password))) = true)
      by (vm_compute; reflexivity).
    exact (bool_decide_eq_true_1 _ H).
Defined.

(** ** Steps without a branch, texts without a handler *)

Ltac split_andb H :=
  repeat match type of H with
         | (_ && _)%bool = true =>
             let H1 := fresh "Hp" in apply andb_true_iff in H as [H H1]
         end.

Ltac split_orb H :=
  repeat match type of H with
         | (_ || _)%bool = false =>
             let H1 := fresh "Ho" in apply orb_false_elim in H as [H H1]
         end.

(** The state middlewares all pass on a session they have no branch for. *)
Lemma unowned_passes pass J f raw e w :
  no_owned_session w (from_id f) →
  on_text_states pass (Text f raw) e w = None ∧
  on_text_admin_reply (Text f raw) e w = None ∧
  on_text_admin_states J (Text f raw) e w = None ∧
  on_text_report (Text f raw) e w = None.
Proof.
  unfold no_owned_session, on_text_states, on_text_admin_reply, on_text_admin_states,
    on_text_report.
  destruct (states w !! from_id f) as [st|]; [|intros _; repeat split].
  unfold owned_step, dispatcher_step, includes. cbn [existsb]. intros H. cbv zeta.
  repeat match goal with
         | Hx : (_ || _)%bool = false |- _ => apply orb_false_elim in Hx as [? ?]
         end.
  repeat match goal with
         | Hx : String.eqb (step st) ?l = false |- _ => rewrite !Hx; clear Hx
         | Hx : startsWith _ (step st) = false |- _ => rewrite !Hx; clear Hx
         end.
  cbn [andb]. rewrite ?andb_false_r. repeat split.
Qed.

Lemma run_menu_admin_None f raw e w :
  includes labels_admin raw = false → run menu_admin (Text f raw) e w = None.
Proof.
  intros H. unfold menu_admin. rewrite run_hears, find_label_None by exact H. reflexivity.
Qed.

Lemma falls_through pass J f raw e w :
  no_owned_session w (from_id f) →
  plain_text raw = true →
  turn pass J (Text f raw) e w
  = ret H_message w [Reply "I did not understand that. Use the menu below or /help."].
Proof.
  intros Hno Hplain. unfold plain_text in Hplain. split_andb Hplain.
  apply negb_true_iff in Hplain, Hp, Hp0, Hp1, Hp2.
  destruct (unowned_passes pass J f raw e w Hno) as (H1 & H2 & H3 & H4).
  rewrite turn_not_preempted by exact Hplain.
  unfold from_dispatcher. rewrite !run_app. cbn [run].
  rewrite H1, H2, (run_menu_admin_None _ _ _ _ Hp1), H3, H4.
  cbn [on_callback_query command hears on_message]. rewrite Hp2, Hp0, Hp. reflexivity.
Qed.

(** X6. A text that is no command and no menu label, sent by a user who is
    idle or whose session is in a step no middleware has a branch for, is
    answered by the final fallback and changes nothing: such a session is
    never advanced or cleared by typing. *)
Theorem X6_unowned_session_falls_through pass J f raw e w :
  no_owned_session w (from_id f) →
  plain_text raw = true →
  turn pass J (Text f raw) e w
  = ret H_message w [Reply "I did not understand that. Use the menu below or /help."].
Proof. exact (falls_through pass J f raw e w). Qed.

Lemma X6_unowned_session_falls_through_witness :
  turn None no_json (Text alice "10:00,14:00") env0 water_tracker_open
  = ret H_message water_tracker_open
      [Reply "I did not understand that. Use the menu below or /help."].
Proof.
  apply (X6_unowned_session_falls_through None no_json alice "10:00,14:00" env0
           water_tracker_open).
  - vm_compute. reflexivity.
  - vm_compute. reflexivity.
Defined.

Lemma turn_hears_before pass J f label b e w :
  is_command "start" label = false →
  List.find (λ lb : string * (From → Env → World → Result), String.eqb label lb.1)
    menu_before_table = Some (label, b) →
  turn pass J (Text f label) e w = b f e w.
Proof.
  intros Hc Hf. unfold turn. rewrite middlewares_split, run_app.
  cbn [app run command]. rewrite Hc. unfold menu_before. rewrite run_hears, Hf.
  reflexivity.
Qed.

(** X7. The water tracker entry of the nutrition menu opens a step that no
    middleware has a branch for: after pressing it, whatever the user had
    before, the session is stuck in that step and every plain text, the
    requested list of times included, is answered by the fallback without
    storing anything. *)
Theorem X7_water_tracker_dead_end pass J f e w :
  let w1 := r_world (turn pass J (Text f "💧 Water Tracker") e w) in
  w1 = states_set (from_id f) {| step := "set_water_times"; data := Some noData |} w ∧
  ∀ raw e2,
    plain_text raw = true →
    turn pass J (Text f raw) e2 w1
    = ret H_message w1 [Reply "I did not understand that. Use the menu below or /help."].
Proof.
  intros w1.
  assert (E : w1 = states_set (from_id f)
                     {| step := "set_water_times"; data := Some noData |} w).
  { unfold w1. rewrite (turn_hears_before pass J f "💧 Water Tracker"
                          (open_flow "💧 Water Tracker" "set_water_times"
                             ("Send water reminder times separated by comma (e.g., 10:00,14:00,18:00) or "
                              +:+ dq +:+ "off" +:+ dq +:+ " to disable.")));
      reflexivity. }
  split; [exact E|]. intros raw e2 Hplain.
  apply falls_through; [|exact Hplain].
  unfold no_owned_session. rewrite E. cbn [states states_set set_states].
  rewrite lookup_insert_eq. reflexivity.
Qed.

Lemma X7_water_tracker_dead_end_witness :
  let w1 := r_world (turn None no_json (Text alice "💧 Water Tracker") env0
                       (after_texts None ["/start"] empty_world)) in
  turn None no_json (Text alice "10:00,14:00") env0 w1
  = ret H_message w1 [Reply "I did not understand that. Use the menu below or /help."].
Proof.
  intros w1.
  apply (proj2 (X7_water_tracker_dead_end None no_json alice env0
                  (after_texts None ["/start"] empty_world)) "10:00,14:00" env0).
  vm_compute. reflexivity.
Defined.

(** ** Logging out *)

Lemma reaches_admin_menu_passes pass f raw e w :
  reaches_admin_menu w (from_id f) →
  on_text_states pass (Text f raw) e w = None ∧
  on_text_admin_reply (Text f raw) e w = None.
Proof.
  unfold reaches_admin_menu, on_text_states, on_text_admin_reply.
  destruct (states w !! from_id f) as [st|]; [|intros _; split; reflexivity].
  unfold dispatcher_step, includes. cbn [existsb]. intros (H & Hb & Hr).
  apply String.eqb_neq in Hb, Hr.
  repeat match goal with
         | Hx : (_ || _)%bool = false |- _ => apply orb_false_elim in Hx as [? ?]
         end.
  repeat match goal with
         | Hx : String.eqb (step st) ?l = false |- _ => rewrite !Hx; clear Hx
         | Hx : startsWith _ (step st) = false |- _ => rewrite !Hx; clear Hx
         end.
  cbn [andb]. rewrite ?andb_false_r. split; reflexivity.
Qed.

Lemma turn_hears_admin pass J f label b e w :
  preempted label = false →
  is_command "admin" label = false →
  reaches_admin_menu w (from_id f) →
  List.find (λ lb : string * (From → Env → World → Result), String.eqb label lb.1)
    menu_admin_table = Some (label, b) →
  turn pass J (Text f label) e w = b f e w.
Proof.
  intros Hp Hc Hreach Hf.
  destruct (reaches_admin_menu_passes pass f label e w Hreach) as [H1 H2].
  rewrite turn_not_preempted by exact Hp.
  unfold from_dispatcher. rewrite !run_app. cbn [run].
  rewrite H1, H2. cbn [on_callback_query command]. rewrite Hc.
  unfold menu_admin. rewrite run_hears, Hf. reflexivity.
Qed.

(** X8. The logout button works only where it is heard. For an elevated
    user who is idle, or in a step of the admin fallback middleware, the
    logout text removes the user from the elevation set and leaves
    everything else, the stored session included, as it was. For an elevated
    user composing a broadcast, the same text is taken as the message: it is
    broadcast and the user stays elevated. *)
Theorem X8_logout pass J f e w :
  from_id f ∈ adminSessions w →
  (reaches_admin_menu w (from_id f) →
   turn pass J (Text f "⬅️ Logout Admin") e w
   = ret (H_hears "⬅️ Logout Admin") (set_admins (λ s, s ∖ {[from_id f]}) w)
       [Reply "Logged out of admin."]) ∧
  (∀ st, states w !! from_id f = Some st → step st = "admin_broadcast" →
         turn pass J (Text f "⬅️ Logout Admin") e w
         = flow_admin_broadcast (from_id f) "⬅️ Logout Admin" e w
         ∧ from_id f ∈ adminSessions
                         (r_world (turn pass J (Text f "⬅️ Logout Admin") e w))).
Proof.
  intros Hin. split.
  - intros Hreach.
    rewrite (turn_hears_admin pass J f "⬅️ Logout Admin" hears_LogoutAdmin e w);
      try reflexivity; [|exact Hreach].
    unfold hears_LogoutAdmin. rewrite (bool_decide_eq_true_2 _ Hin). reflexivity.
  - intros st Hst Hs.
    assert (E : turn pass J (Text f "⬅️ Logout Admin") e w
                = flow_admin_broadcast (from_id f) "⬅️ Logout Admin" e w).
    { apply turn_dispatched; [reflexivity|].
      exact (dispatch_admin_broadcast pass f _ e w st Hin Hst Hs). }
    split; [exact E|]. rewrite E. unfold flow_admin_broadcast.
    destruct (sendLoop _ _ _ _ _ _ _ _) as [[evs sent] failed]. exact Hin.
Qed.

Lemma X8_logout_witness :
  from_id alice ∈ adminSessions
                    (r_world (turn (Some "secret") no_json (Text alice "⬅️ Logout Admin")
                                env0 composing_broadcast)).
Proof.
  assert (H : bool_decide (7 ∈ adminSessions composing_broadcast) = true)
    by (vm_compute; reflexivity).
  refine (proj2 (proj2 (X8_logout (Some "secret") no_json alice env0 composing_broadcast
                          (bool_decide_eq_true_1 _ H))
                   {| step := "admin_broadcast"; data := None |} _ _)).
  - vm_compute. reflexivity.
  - reflexivity.
Defined.

(** ** Button presses *)

Lemma run_hears_callback tbl f d e w :
  run (List.map (λ lb : string * (From → Env → World → Result), hears lb.1 lb.2) tbl)
    (CallbackQuery f d) e w = None.
Proof. induction tbl as [|[l b] tbl IH]; [reflexivity | exact IH]. Qed.

(** A button press goes straight to the callback middleware. *)
Lemma turn_callback pass J f d e w r :
  on_callback_query (CallbackQuery f d) e w = Some r →
  turn pass J (CallbackQuery f d) e w = r.
Proof.
  intros H. unfold turn. rewrite middlewares_split, !run_app.
  cbn [app run command]. unfold menu_before. rewrite run_hears_callback.
  unfold from_dispatcher. cbn [app run on_text_states]. rewrite H. reflexivity.
Qed.

Lemma NoDup_snoc {A} (l : list A) x : x ∉ l → NoDup l → NoDup (l ++ [x]).
Proof.
  intros Hx Hl. apply NoDup_app. split; [exact Hl|]. split.
  - intros y Hy Hy'. apply list_elem_of_singleton in Hy'. subst y. contradiction.
  - apply NoDup_singleton.
Qed.

Lemma includes_elem_of l x : includes l x = true ↔ x ∈ l.
Proof.
  unfold includes. rewrite existsb_exists. split.
  - intros (y & Hin & Heq). apply String.eqb_eq in Heq. subst y.
    apply list_elem_of_In. exact Hin.
  - intros Hin. exists x. split; [apply list_elem_of_In; exact Hin | apply String.eqb_refl].
Qed.

(** X9. The done button of a workout, pressed by a stored user: the streak
    grows by one and one completion is logged for the active profile with the
    workout id of the button. The seven-day badge is held afterwards exactly
    when it was held before or the streak has just reached seven, and it is
    never stored twice. *)
Theorem X9_done_button pass J f d e w u :
  findOne (from_id f) (users w) = Some u →
  startsWith "done:" d = true →
  let r := turn pass J (CallbackQuery f d) e w in
  r_threw r = false ∧
  ∃ u', findOne (from_id f) (users (r_world r)) = Some u' ∧
        streak u' = (streak u + 1)%Z ∧
        workoutsCompleted u'
        = workoutsCompleted u ++ [mkWorkoutDone (activeProfileId u) (after_colon d) (now e)] ∧
        ("7-day-streak" ∈ badges u' ↔ "7-day-streak" ∈ badges u ∨ streak u' = 7%Z) ∧
        (NoDup (badges u) → NoDup (badges u')) ∧
        profiles u' = profiles u ∧ weightHistory u' = weightHistory u.
Proof.
  intros Hu Hd r.
  set (u1 := push_workoutsCompleted
               (mkWorkoutDone (activeProfileId u) (after_colon d) (now e)) u).
  set (n := (streak u1 + 1)%Z).
  set (bs := if (n =? 7)%Z && negb (includes (badges u1) "7-day-streak")
             then badges u1 ++ ["7-day-streak"] else badges u1).
  assert (Hr : r = ret H_callback_query (set_users (save (set_streak n bs u1)) w)
                     [AnswerCbQuery "Logged done!"; Reply "Workout logged. Good job!"]).
  { apply turn_callback. unfold on_callback_query. rewrite Hd, Hu. reflexivity. }
  rewrite Hr. split; [reflexivity|]. exists (set_streak n bs u1).
  split; [world_simpl; apply (findOne_save _ _ u); [exact Hu | exact (findOne_id _ _ _ Hu)]|].
  split; [reflexivity|]. split; [reflexivity|].
  cbn [badges set_streak streak]. change (badges u1) with (badges u) in bs.
  change (streak u1) with (streak u) in n.
  destruct (includes (badges u) "7-day-streak") eqn:Hb.
  - apply includes_elem_of in Hb. unfold bs. rewrite andb_false_r.
    split; [tauto|]. split; [trivial|]. split; reflexivity.
  - assert (Hnb : "7-day-streak" ∉ badges u).
    { intros Hin. apply includes_elem_of in Hin. congruence. }
    unfold bs. destruct (n =? 7)%Z eqn:E7; cbn [andb negb].
    + apply Z.eqb_eq in E7. split.
      * split; [intros _; right; exact E7|]. intros _. apply elem_of_app. right.
        apply list_elem_of_singleton. reflexivity.
      * split; [intros Hnd; exact (NoDup_snoc _ _ Hnb Hnd)|]. split; reflexivity.
    + apply Z.eqb_neq in E7. split; [tauto|]. split; [trivial|]. split; reflexivity.
Qed.

Lemma X9_done_button_witness :
  r_threw (turn None no_json (CallbackQuery alice "done:g") env0 six_day_streak) = false.
Proof.
  refine (proj1 (X9_done_button None no_json alice "done:g" env0 six_day_streak
                   (default (newUser 0 EmptyString EmptyString)
                      (findOne 7 (users six_day_streak))) _ _)).
  - vm_compute. reflexivity.
  - reflexivity.
Defined.

(** ** Replying to a user *)

Lemma on_text_states_passes pass f raw e w :
  match states w !! from_id f with
  | None => True
  | Some st => dispatcher_step (step st) = false ∧ step st ≠ "admin_broadcast"
  end →
  on_text_states pass (Text f raw) e w = None.
Proof.
  unfold on_text_states.
  destruct (states w !! from_id f) as [st|]; [|reflexivity].
  unfold dispatcher_step, includes. cbn [existsb]. intros (H & Hb).
  apply String.eqb_neq in Hb.
  repeat match goal with
         | Hx : (_ || _)%bool = false |- _ => apply orb_false_elim in Hx as [? ?]
         end.
  repeat match goal with
         | Hx : String.eqb (step st) ?l = false |- _ => rewrite !Hx; clear Hx
         | Hx : startsWith _ (step st) = false |- _ => rewrite !Hx; clear Hx
         end.
  rewrite andb_false_r. reflexivity.
Qed.

Lemma replyto_not_done cb :
  startsWith "replyto:" cb = true →
  startsWith "done:" cb = false ∧ startsWith "skip:" cb = false.
Proof.
  destruct cb as [|c cb]; [discriminate|]. cbn [startsWith].
  destruct (Ascii.eqb "r" c) eqn:E; [|discriminate].
  apply Ascii.eqb_eq in E. subst c. intros _. split; reflexivity.
Qed.

(** X10. The reply button and the text after it. An elevated admin who
    presses the reply button of a message and then sends a text that reaches
    the admin-reply middleware has that text, untrimmed, sent once to the user
    id carried by the button; whether the send is delivered or throws, the
    admin gets an answer, the session is cleared, and stored users and the
    elevation set stay as they were. *)
Theorem X10_admin_reply pass J f cb raw e1 e2 w :
  from_id f ∈ adminSessions w →
  startsWith "replyto:" cb = true →
  preempted raw = false →
  let w1 := r_world (turn pass J (CallbackQuery f cb) e1 w) in
  let r := turn pass J (Text f raw) e2 w1 in
  r_events r
  = [SendMessage AdminReplySend (Number (after_colon cb))
       ("Trainer reply:" +:+ nl +:+ nl +:+ raw) (sendOk e2 0);
     Reply (if sendOk e2 0 then "Reply forwarded."
            else "Failed to forward: " +:+ sendError e2)] ∧
  r_threw r = false ∧
  states (r_world r) !! from_id f = None ∧
  users (r_world r) = users w ∧
  adminSessions (r_world r) = adminSessions w.
Proof.
  intros Hin Hcb Hp w1 r.
  destruct (replyto_not_done cb Hcb) as [Hd Hs].
  set (st := {| step := "admin_reply";
                data := Some {| d_profileId := None; d_profiles := None; d_list := None;
                                d_toId := Some (Number (after_colon cb)) |} |}).
  assert (E1 : w1 = states_set (from_id f) st w).
  { unfold w1. rewrite (turn_callback pass J f cb e1 w
                          (ret H_callback_query (states_set (from_id f) st w)
                             [AnswerCbQuery EmptyString;
                              Reply "Type reply to forward to user."])); [reflexivity|].
    unfold on_callback_query. rewrite Hd, Hs, Hcb, (bool_decide_eq_true_2 _ Hin).
    reflexivity. }
  assert (Hst : states w1 !! from_id f = Some st).
  { rewrite E1. cbn [states states_set set_states]. apply lookup_insert_eq. }
  assert (Hin1 : from_id f ∈ adminSessions w1) by (rewrite E1; exact Hin).
  assert (Er : r = if sendOk e2 0
                   then ret H_admin_reply (states_delete (from_id f) w1)
                          [SendMessage AdminReplySend (Number (after_colon cb))
                             ("Trainer reply:" +:+ nl +:+ nl +:+ raw) true;
                           Reply "Reply forwarded."]
                   else ret H_admin_reply (states_delete (from_id f) w1)
                          [SendMessage AdminReplySend (Number (after_colon cb))
                             ("Trainer reply:" +:+ nl +:+ nl +:+ raw) false;
                           Reply ("Failed to forward: " +:+ sendError e2)]).
  { unfold r. rewrite turn_not_preempted by exact Hp.
    unfold from_dispatcher. cbn [app run].
    rewrite on_text_states_passes
      by (rewrite Hst; split; [reflexivity | discriminate]).
    cbn [on_callback_query]. unfold on_text_admin_reply.
    rewrite Hst, (bool_decide_eq_true_2 _ Hin1). cbn [step st data andb d_toId default].
    change (String.eqb "admin_reply" "admin_reply") with true. cbv iota.
    destruct (sendOk e2 0); reflexivity. }
  rewrite Er, E1. destruct (sendOk e2 0); world_simpl;
    (split; [reflexivity|]; split; [reflexivity|]; split; [apply lookup_delete_eq|];
     split; reflexivity).
Qed.

Lemma X10_admin_reply_witness :
  r_threw (turn (Some "secret") no_json (Text alice "thanks") env0
             (r_world (turn (Some "secret") no_json (CallbackQuery alice "replyto:9") env0
                         elevated_idle))) = false.
Proof.
  assert (H : bool_decide (7 ∈ adminSessions elevated_idle) = true)
    by (vm_compute; reflexivity).
  refine (proj1 (proj2 (X10_admin_reply (Some "secret") no_json alice "replyto:9" "thanks"
                          env0 env0 elevated_idle (bool_decide_eq_true_1 _ H) _ _))).
  - reflexivity.
  - reflexivity.
Defined.

(** ** Writing to the trainer *)




(** ** Lists typed by the user *)








(** ** Choosing a profile by its number *)

Lemma lt_ofZ a b : lt (ofZ a) (ofZ b) = (a <? b)%Z.
Proof. unfold lt, ofZ, Qltb, inject_Z. cbn [Qnum Qden]. rewrite !Z.mul_1_r. reflexivity. Qed.

Lemma index_pred_ofZ z : (1 ≤ z)%Z → index_pred (ofZ z) = Some (Z.to_nat (z - 1)).
Proof.
  intros Hz. unfold index_pred, ofZ.
  assert (Hq : Qred (inject_Z z - 1) = inject_Z (z - 1)).
  { transitivity (Qred (inject_Z (z - 1))).
    - apply Qred_complete. unfold Qeq, inject_Z, Qminus, Qplus, Qopp. cbn. lia.
    - unfold Qred, inject_Z.
      pose proof (Z.ggcd_gcd (z - 1) 1) as Hg.
      pose proof (Z.ggcd_correct_divisors (z - 1) 1) as Hd.
      destruct (Z.ggcd (z - 1) 1) as (g & a & b). cbn [fst snd] in Hg, Hd.
      rewrite Z.gcd_1_r in Hg. subst g. destruct Hd as [Ha Hb].
      replace a with (z - 1) by lia. replace b with 1 by lia. reflexivity. }
  rewrite Hq. cbn [inject_Z Qnum Qden]. rewrite Z.eqb_refl.
  destruct (Z.leb_spec 0 (z - 1)); [reflexivity | lia].
Qed.

(** X13. Switch Profile followed by a number: a stored user who presses the
    button and then sends the number of one of the listed profiles gets that
    profile as the active one; nothing else of the document changes, and the
    session is cleared. *)
Theorem X13_switch_profile pass J f raw e1 e2 w u k p :
  findOne (from_id f) (users w) = Some u →
  profiles u !! k = Some p →
  Number (trim raw) = ofZ (Z.of_nat k + 1) →
  preempted raw = false →
  let w1 := r_world (turn pass J (Text f "🔁 Switch Profile") e1 w) in
  let r := turn pass J (Text f raw) e2 w1 in
  r_threw r = false ∧
  findOne (from_id f) (users (r_world r))
  = Some (set_activeProfileId (Some (p_id p)) u) ∧
  states (r_world r) !! from_id f = None.
Proof.
  intros Hu Hk HN Hp w1 r.
  assert (Hw1 : w1 = states_set (from_id f)
                       {| step := "switch_profile";
                          data := Some {| d_profileId := None;
                                          d_profiles := Some (profiles u);
                                          d_list := None; d_toId := None |} |} w).
  { unfold w1. rewrite (turn_hears_before pass J f _ hears_SwitchProfile)
      by (vm_compute; reflexivity).
    unfold hears_SwitchProfile. rewrite Hu.
    destruct (profiles u) eqn:E; [discriminate Hk | reflexivity]. }
  assert (Hlen : (k < length (profiles u))%nat) by (eapply lookup_lt_Some; exact Hk).
  assert (Hr : r = flow_switch_profile (from_id f)
                     {| step := "switch_profile";
                        data := Some {| d_profileId := None;
                                        d_profiles := Some (profiles u);
                                        d_list := None; d_toId := None |} |}
                     (trim raw) w1).
  { apply turn_dispatched; [exact Hp|].
    assert (Hst : states w1 !! from_id f
                  = Some {| step := "switch_profile";
                            data := Some {| d_profileId := None;
                                            d_profiles := Some (profiles u);
                                            d_list := None; d_toId := None |} |}).
    { rewrite Hw1. apply lookup_insert_eq. }
    unfold on_text_states. rewrite Hst. reflexivity. }
  rewrite Hr. unfold flow_switch_profile. rewrite HN.
  cbn [isNaN ofZ data d_profiles].
  change (default [] (Some (profiles u))) with (profiles u). unfold gt. fold (ofZ (Z.of_nat k + 1)).
  fold (ofZ 1). fold (ofZ (Z.of_nat (length (profiles u)))). rewrite !lt_ofZ.
  destruct (Z.ltb_spec (Z.of_nat k + 1) 1); [lia|].
  destruct (Z.ltb_spec (Z.of_nat (length (profiles u))) (Z.of_nat k + 1)); [lia|].
  cbn [orb]. rewrite index_pred_ofZ by lia.
  replace (Z.to_nat (Z.of_nat k + 1 - 1)) with k by lia.
  change (Some k ≫= (λ j, profiles u !! j)) with (profiles u !! k). rewrite Hk.
  assert (Huw : users w1 = users w) by (rewrite Hw1; reflexivity).
  rewrite Huw, Hu. world_simpl.
  split; [reflexivity|].
  split; [|apply lookup_delete_eq].
  rewrite Huw. apply (findOne_save _ _ u); [exact Hu|].
  exact (findOne_id _ _ _ Hu).
Qed.

Lemma X13_switch_profile_witness :
  r_threw (turn None no_json (Text alice " 1 ") env1
             (r_world (turn None no_json (Text alice "🔁 Switch Profile") env0 two_profiles)))
  = false.
Proof.
  refine (proj1 (X13_switch_profile None no_json alice " 1 " env0 env1 two_profiles
                   (default (newUser 0 EmptyString EmptyString)
                      (findOne 7 (users two_profiles))) 0
                   (default (newProfile EmptyString EmptyString None)
                      (profiles (default (newUser 0 EmptyString EmptyString)
                                   (findOne 7 (users two_profiles))) !! 0%nat))
                   _ _ _ _)).
  - vm_compute. reflexivity.
  - vm_compute. reflexivity.
  - vm_compute. reflexivity.
  - vm_compute. reflexivity.
Defined.

(** ** Logging a meal *)

Lemma split_nonempty sep s : split sep s ≠ [].
Proof.
  destruct s as [|c r]; cbn [split]; [discriminate|].
  destruct (Ascii.eqb c sep); [discriminate|]. destruct (split sep r); discriminate.
Qed.

(** Cutting at the first separator. *)
Lemma split_first sep c d :
  has_char sep c = false → split sep (c +:+ String sep d) = c :: split sep d.
Proof.
  induction c as [|a c IH]; cbn [has_char]; intros H.
  - change (EmptyString +:+ String sep d) with (String sep d). cbn [split].
    rewrite Ascii.eqb_refl. reflexivity.
  - apply orb_false_elim in H as [Ha Hc].
    change (String a c +:+ String sep d) with (String a (c +:+ String sep d)).
    cbn [split]. rewrite Ha, (IH Hc). reflexivity.
Qed.

(** Joining the pieces with the separator gives the text back. *)
Lemma join_split sep s : join (String sep EmptyString) (split sep s) = s.
Proof.
  induction s as [|a r IH]; [reflexivity|]. cbn [split].
  destruct (split sep r) as [|x xs] eqn:Er; [destruct (split_nonempty _ _ Er)|].
  destruct (Ascii.eqb a sep) eqn:E.
  - apply Ascii.eqb_eq in E. subst a.
    change (String sep (join (String sep EmptyString) (x :: xs)) = String sep r).
    rewrite IH. reflexivity.
  - destruct xs as [|y ys].
    + change (String a x = String a r). change (x = r) in IH. rewrite IH. reflexivity.
    + change (String a (join (String sep EmptyString) (x :: y :: ys)) = String a r).
      rewrite IH. reflexivity.
Qed.

(** X14. A meal text is read as the calories up to the first space and the
    description after it: when the trimmed text is [c], a space and [d],
    with no space in [c] and [c] a number for [Number], the meal logged for
    the active profile has the calories [Number c] and the description [d]
    as typed (or the word meal when [d] is empty), dated now; it is added
    after the meals already stored, and the session is cleared. *)
Theorem X14_log_meal pass J f raw e w st u c d :
  states w !! from_id f = Some st →
  step st = "log_meal" →
  preempted raw = false →
  findOne (from_id f) (users w) = Some u →
  trim raw = c +:+ " " +:+ d →
  has_char " " c = false →
  isNaN (Number c) = false →
  let r := turn pass J (Text f raw) e w in
  r_threw r = false ∧
  findOne (from_id f) (users (r_world r))
  = Some (push_meals (mkMeal (activeProfileId u) (Number c) (or_else d "meal") (now e)) u) ∧
  states (r_world r) !! from_id f = None.
Proof.
  intros Hst Hs Hp Hu Ht Hc Hn r.
  assert (Hr : r = flow_log_meal (from_id f) (trim raw) e w).
  { apply turn_dispatched; [exact Hp|]. dispatch Hst Hs. }
  rewrite Hr. unfold flow_log_meal. cbv zeta. rewrite Ht.
  change (c +:+ " " +:+ d) with (c +:+ String " " d).
  rewrite (split_first " " c d Hc).
  change (default EmptyString (head (c :: split " " d))) with c.
  change (tail (c :: split " " d)) with (split " " d).
  rewrite Hn, (join_split " " d), Hu. world_simpl.
  split; [reflexivity|].
  split; [|apply lookup_delete_eq].
  apply (findOne_save _ _ u); [exact Hu | exact (findOne_id _ _ _ Hu)].
Qed.

Lemma X14_log_meal_witness :
  r_threw (turn None no_json (Text alice "600  oats + banana") env1 logging_meal) = false.
Proof.
  refine (proj1 (X14_log_meal None no_json alice "600  oats + banana" env1 logging_meal
                   {| step := "log_meal"; data := Some noData |}
                   (default (newUser 0 EmptyString EmptyString)
                      (findOne 7 (users logging_meal)))
                   "600" " oats + banana" _ _ _ _ _ _ _)).
  - vm_compute. reflexivity.
  - reflexivity.
  - vm_compute. reflexivity.
  - vm_compute. reflexivity.
  - vm_compute. reflexivity.
  - reflexivity.
  - vm_compute. reflexivity.
Defined.

(** ** Reminders: from the flow to the job *)

Lemma save_unique u' us v :
  NoDup (List.map telegramId us) → v ∈ save u' us → telegramId v = telegramId u' → v = u'.
Proof.
  induction us as [|v0 r IH]; cbn [save List.map]; intros Hnd Hin Hid.
  - apply elem_of_nil in Hin. destruct Hin.
  - apply NoDup_cons in Hnd as [Hv0 Hnd].
    destruct (telegramId v0 =? telegramId u')%Z eqn:E.
    + apply Z.eqb_eq in E. apply elem_of_cons in Hin as [Hin|Hin]; [exact Hin|].
      destruct Hv0. rewrite E, <- Hid. apply list_elem_of_In, in_map, list_elem_of_In.
      exact Hin.
    + apply Z.eqb_neq in E. apply elem_of_cons in Hin as [Hin|Hin]; [|exact (IH Hnd Hin Hid)].
      subst v. destruct (E Hid).
Qed.

Lemma save_elem id us u u' :
  findOne id us = Some u → telegramId u' = id → u' ∈ save u' us.
Proof.
  unfold findOne. intros H Hid. induction us as [|v r IH]; [discriminate|].
  cbn [List.find save] in *. rewrite Hid.
  destruct (telegramId v =? id)%Z; [apply list_elem_of_here|].
  apply list_elem_of_further. exact (IH H).
Qed.

Lemma findOne_None id us v : findOne id us = None → v ∈ us → telegramId v ≠ id.
Proof.
  unfold findOne. intros H Hin Hid. apply list_elem_of_In in Hin.
  pose proof (find_none _ _ H v Hin) as Hv. cbv beta in Hv.
  apply Z.eqb_neq in Hv. exact (Hv Hid).
Qed.

(** With unique ids, the saved copy is the only stored document of its id. *)
Lemma stored_after_save id us u u' v :
  NoDup (List.map telegramId us) → findOne id us = Some u → telegramId u' = id →
  (v ∈ save u' us ∧ telegramId v = id) ↔ v = u'.
Proof.
  intros Hnd Hu Hid. split.
  - intros [Hin Hv]. apply (save_unique u' us v Hnd Hin). congruence.
  - intros ->. split; [exact (save_elem id us u u' Hu Hid) | exact Hid].
Qed.

Lemma findOne_app_new id us u :
  findOne id us = None → telegramId u = id → findOne id (us ++ [u]) = Some u.
Proof.
  unfold findOne. intros H Hu. induction us as [|v us IH]; cbn [app List.find] in *.
  - rewrite Hu, Z.eqb_refl. reflexivity.
  - destruct (telegramId v =? id)%Z; [discriminate | exact (IH H)].
Qed.

Lemma findOrCreate_spec id us user us' :
  findOrCreate id us = (user, us') → NoDup (List.map telegramId us) →
  NoDup (List.map telegramId us') ∧ findOne id us' = Some user ∧ telegramId user = id.
Proof.
  unfold findOrCreate. destruct (findOne id us) as [u|] eqn:E; intros [= <- <-] Hnd.
  - split; [exact Hnd|]. split; [exact E | exact (findOne_id _ _ _ E)].
  - split; [|split; [|reflexivity]].
    + rewrite List.map_app. apply NoDup_app. split; [exact Hnd|].
      split; [|apply NoDup_singleton].
      intros x Hx Hx'. cbn in Hx'. apply list_elem_of_singleton in Hx'. subst x.
      apply list_elem_of_In, in_map_iff in Hx as (v & Hv & Hin).
      apply list_elem_of_In in Hin. exact (findOne_None _ _ _ E Hin Hv).
    + apply findOne_app_new; [exact E | reflexivity].
Qed.

Lemma format_HHmm_length h m :
  (h < 24)%nat → (m < 60)%nat → String.length (format_HHmm h m) = 5%nat.
Proof.
  intros Hh Hm.
  assert (H : forallb (λ a, forallb (λ b, (String.length (format_HHmm a b) =? 5)%nat)
                              (seq 0 60)) (seq 0 24) = true) by (vm_compute; reflexivity).
  rewrite forallb_forall in H. specialize (H h). rewrite in_seq in H.
  specialize (H ltac:(lia)). rewrite forallb_forall in H. specialize (H m).
  rewrite in_seq in H. specialize (H ltac:(lia)). apply Nat.eqb_eq in H. exact H.
Qed.

(** Who gets a workout reminder at a tick. *)
Lemma workout_reminded h m ok w id :
  (∃ d, WorkoutReminder id d ∈ reminders_job h m ok w)
  ↔ ∃ u, u ∈ users w ∧ telegramId u = id ∧ workoutDailyAt u = Some (format_HHmm h m).
Proof.
  unfold reminders_job. cbv zeta. split.
  - intros [d Hin]. apply elem_of_app in Hin as [Hin|Hin];
      apply elem_of_lookup_imap_1 in Hin as (i & u & Heq & Hl); [|discriminate Heq].
    injection Heq as -> ->. apply list_elem_of_lookup_2, list_elem_of_In in Hl.
    apply filter_In in Hl as [Hin Hb]. apply bool_decide_eq_true_1 in Hb.
    exists u. split; [apply list_elem_of_In; exact Hin|]. split; [reflexivity | exact Hb].
  - intros (u & Hin & Hid & Hd).
    assert (Hf : u ∈ List.filter
                       (λ u, bool_decide (workoutDailyAt u = Some (format_HHmm h m)))
                       (users w)).
    { apply list_elem_of_In, filter_In. split; [apply list_elem_of_In; exact Hin|].
      apply bool_decide_eq_true_2. exact Hd. }
    apply list_elem_of_lookup_1 in Hf as [i Hi]. exists (ok i). apply elem_of_app. left.
    rewrite <- Hid.
    exact (elem_of_lookup_imap_2 (λ i u, WorkoutReminder (telegramId u) (ok i)) _ _ _ Hi).
Qed.

(** Who gets a water reminder at a tick. *)
Lemma water_reminded h m ok w id :
  (∃ d, WaterReminder id d ∈ reminders_job h m ok w)
  ↔ ∃ u, u ∈ users w ∧ telegramId u = id
         ∧ includes (waterReminderTimes u) (format_HHmm h m) = true.
Proof.
  unfold reminders_job. cbv zeta. split.
  - intros [d Hin]. apply elem_of_app in Hin as [Hin|Hin];
      apply elem_of_lookup_imap_1 in Hin as (i & u & Heq & Hl); [discriminate Heq|].
    injection Heq as -> ->. apply list_elem_of_lookup_2, list_elem_of_In in Hl.
    apply filter_In in Hl as [Hin Hb].
    exists u. split; [apply list_elem_of_In; exact Hin|]. split; [reflexivity | exact Hb].
  - intros (u & Hin & Hid & Hd).
    assert (Hf : u ∈ List.filter (λ u, includes (waterReminderTimes u) (format_HHmm h m))
                       (users w)).
    { apply list_elem_of_In, filter_In. split; [apply list_elem_of_In; exact Hin|].
      exact Hd. }
    apply list_elem_of_lookup_1 in Hf as [i Hi]. eexists. apply elem_of_app. right.
    rewrite <- Hid.
    exact (elem_of_lookup_imap_2
             (λ i u, WaterReminder (telegramId u) (ok (_ + i)%nat)) _ _ _ Hi).
Qed.

(** X15. From the reminder flow to the job of every minute. A user with
    unique id who sends a time the flow accepts is stored with that text, and
    the job sends the workout reminder to that user exactly at the ticks
    whose [HH:mm] rendering is that text. The flow accepts a one-digit hour
    but the job renders two digits, so a time of four characters is
    confirmed to the user and the reminder is sent at no minute of the
    day. *)
Theorem X15_daily_reminder pass J f raw e w st :
  states w !! from_id f = Some st →
  step st = "set_daily_reminder" →
  preempted raw = false →
  is_hhmm (trim raw) = true →
  NoDup (List.map telegramId (users w)) →
  let r := turn pass J (Text f raw) e w in
  r_events r = [Reply ("Daily reminder set at " +:+ trim raw +:+ " (server time).")] ∧
  (∀ h m ok, (∃ d, WorkoutReminder (from_id f) d ∈ reminders_job h m ok (r_world r))
             ↔ trim raw = format_HHmm h m) ∧
  (String.length (trim raw) = 4%nat →
   ∀ h m ok d, (h < 24)%nat → (m < 60)%nat →
               WorkoutReminder (from_id f) d ∉ reminders_job h m ok (r_world r)).
Proof.
  intros Hst Hs Hp Hok Hnd r.
  assert (Hr : r = flow_set_daily_reminder (from_id f) (trim raw) w).
  { apply turn_dispatched; [exact Hp|]. dispatch Hst Hs. }
  assert (Hiff : ∀ h m ok,
             (∃ d, WorkoutReminder (from_id f) d ∈ reminders_job h m ok (r_world r))
             ↔ trim raw = format_HHmm h m).
  { intros h m ok. rewrite workout_reminded, Hr. unfold flow_set_daily_reminder.
    rewrite Hok. cbn [negb].
    destruct (findOrCreate (from_id f) (users w)) as [user us] eqn:E.
    destruct (findOrCreate_spec _ _ _ _ E Hnd) as (Hnd' & Hu & Hid). world_simpl.
    split.
    - intros (v & Hin & Hv & Hd).
      pose proof (proj1 (stored_after_save (from_id f) us user
                           (set_reminders (Some (trim raw)) (waterReminderTimes user) user)
                           v Hnd' Hu Hid) (conj Hin Hv)) as Hv'.
      subst v. cbn in Hd. congruence.
    - intros Ht.
      exists (set_reminders (Some (trim raw)) (waterReminderTimes user) user).
      split; [apply (save_elem (from_id f) us user); [exact Hu | exact Hid]|].
      split; [exact Hid | cbn; congruence]. }
  split; [|split; [exact Hiff|]].
  - rewrite Hr. unfold flow_set_daily_reminder. rewrite Hok. cbn [negb].
    destruct (findOrCreate (from_id f) (users w)). reflexivity.
  - intros Hlen h m ok d Hh Hm Hin.
    assert (Ht : trim raw = format_HHmm h m) by (apply (Hiff h m ok); eauto).
    rewrite Ht, format_HHmm_length in Hlen by assumption. discriminate.
Qed.

Lemma X15_daily_reminder_witness :
  WorkoutReminder 7 true
  ∉ reminders_job 9 30 (λ _, true)
      (r_world (turn None no_json (Text alice "9:30") env0 setting_reminder)).
Proof.
  refine (proj2 (proj2 (X15_daily_reminder None no_json alice "9:30" env0 setting_reminder
                          {| step := "set_daily_reminder"; data := Some noData |}
                          _ _ _ _ _)) _ 9%nat 30%nat (λ _, true) true _ _).
  - vm_compute. reflexivity.
  - reflexivity.
  - vm_compute. reflexivity.
  - vm_compute. reflexivity.
  - vm_compute. apply NoDup_singleton.
  - vm_compute. reflexivity.
  - lia.
  - lia.
Defined.

(** X16. Remove Reminders silences the job of every minute. The button is
    heard in any step; for a stored user with unique id it leaves the
    session as it was, and afterwards no tick sends that user a workout or a
    water reminder. *)
Theorem X16_remove_reminders pass J f e w u :
  findOne (from_id f) (users w) = Some u →
  NoDup (List.map telegramId (users w)) →
  let r := turn pass J (Text f "Remove Reminders") e w in
  r_events r = [Reply "Removed reminders."] ∧
  states (r_world r) = states w ∧
  ∀ h m ok d, (WorkoutReminder (from_id f) d ∉ reminders_job h m ok (r_world r))
              ∧ (WaterReminder (from_id f) d ∉ reminders_job h m ok (r_world r)).
Proof.
  intros Hu Hnd r.
  assert (Hr : r = ret (H_hears "Remove Reminders")
                     (set_users (save (set_reminders None [] u)) w)
                     [Reply "Removed reminders."]).
  { unfold r. rewrite (turn_hears_before pass J f _ hears_RemoveReminders)
      by (vm_compute; reflexivity).
    unfold hears_RemoveReminders. rewrite Hu. reflexivity. }
  rewrite Hr. world_simpl. split; [reflexivity|]. split; [reflexivity|].
  pose proof (findOne_id _ _ _ Hu) as Hid.
  intros h m ok d. split; intros Hin.
  - assert (H : ∃ d, WorkoutReminder (from_id f) d
                     ∈ reminders_job h m ok (set_users (save (set_reminders None [] u)) w))
      by eauto.
    apply workout_reminded in H as (v & Hv & Hvid & Hd). world_simpl.
    pose proof (proj1 (stored_after_save (from_id f) (users w) u (set_reminders None [] u)
                         v Hnd Hu Hid) (conj Hv Hvid)) as ->.
    discriminate Hd.
  - assert (H : ∃ d, WaterReminder (from_id f) d
                     ∈ reminders_job h m ok (set_users (save (set_reminders None [] u)) w))
      by eauto.
    apply water_reminded in H as (v & Hv & Hvid & Hd). world_simpl.
    pose proof (proj1 (stored_after_save (from_id f) (users w) u (set_reminders None [] u)
                         v Hnd Hu Hid) (conj Hv Hvid)) as ->.
    discriminate Hd.
Qed.

Lemma X16_remove_reminders_witness :
  WaterReminder 7 true
  ∉ reminders_job 9 0 (λ _, true)
      (r_world (turn None no_json (Text alice "Remove Reminders") env0 with_reminders)).
Proof.
  refine (proj2 (proj2 (proj2 (X16_remove_reminders None no_json alice env0 with_reminders
                                 (default (newUser 0 EmptyString EmptyString)
                                    (findOne 7 (users with_reminders))) _ _))
                   9%nat 0%nat (λ _, true) true)).
  - vm_compute. reflexivity.
  - vm_compute. apply NoDup_singleton.
Defined.

(** X17. From the water flow to the job of every minute. The text is cut at
    the commas; the items that, trimmed, have the form of a time are kept in
    order and the others are dropped without a word. When one is left, a user
    with unique id is sent the water reminder exactly at the ticks whose
    [HH:mm] rendering is one of the kept items, and the daily workout time of
    the document is not changed. *)
Theorem X17_water_reminders pass J f raw e w st :
  states w !! from_id f = Some st →
  step st = "set_water_reminders" →
  preempted raw = false →
  toLowerCase (trim raw) ≠ "off" →
  NoDup (List.map telegramId (users w)) →
  let r := turn pass J (Text f raw) e w in
  let times := List.filter is_hhmm (List.map trim (split "," (trim raw))) in
  times ≠ [] →
  r_events r = [Reply "Water reminders set."] ∧
  (∀ h m ok, (∃ d, WaterReminder (from_id f) d ∈ reminders_job h m ok (r_world r))
             ↔ format_HHmm h m ∈ times) ∧
  (workoutDailyAt <$> findOne (from_id f) (users (r_world r)))
  = Some (findOne (from_id f) (users w) ≫= workoutDailyAt).
Proof.
  intros Hst Hs Hp Hoff Hnd r times Hne.
  assert (Hr : r = flow_set_water_reminders (from_id f) (trim raw) w).
  { apply turn_dispatched; [exact Hp|]. dispatch Hst Hs. }
  apply String.eqb_neq in Hoff.
  destruct (findOrCreate (from_id f) (users w)) as [user us] eqn:E.
  destruct (findOrCreate_spec _ _ _ _ E Hnd) as (Hnd' & Hu & Hid).
  assert (Hw : r = ret (H_states "set_water_reminders")
                     (states_delete (from_id f)
                        (set_users (λ _, save (set_reminders (workoutDailyAt user) times user)
                                           us) w))
                     [Reply "Water reminders set."]).
  { rewrite Hr. unfold flow_set_water_reminders. rewrite Hoff. fold times.
    destruct times; [destruct Hne; reflexivity|]. rewrite E. reflexivity. }
  rewrite Hw. world_simpl. split; [reflexivity|]. split.
  - intros h m ok. rewrite water_reminded. world_simpl. split.
    + intros (v & Hin & Hv & Hd).
      pose proof (proj1 (stored_after_save (from_id f) us user
                           (set_reminders (workoutDailyAt user) times user)
                           v Hnd' Hu Hid) (conj Hin Hv)) as ->.
      cbn in Hd. apply includes_elem_of. exact Hd.
    + intros Ht. exists (set_reminders (workoutDailyAt user) times user).
      split; [apply (save_elem (from_id f) us user); [exact Hu | exact Hid]|].
      split; [exact Hid|]. cbn. apply includes_elem_of. exact Ht.
  - rewrite (findOne_save _ _ user (set_reminders (workoutDailyAt user) times user) Hu Hid).
    cbn [fmap option_fmap option_map].
    change (workoutDailyAt (set_reminders (workoutDailyAt user) times user))
      with (workoutDailyAt user). f_equal.
    unfold findOrCreate in E. destruct (findOne (from_id f) (users w)) as [u0|];
      injection E as <- <-; reflexivity.
Qed.

Lemma X17_water_reminders_witness :
  r_events (turn None no_json (Text alice "09:00, noon ,7:5, 12:00") env0 setting_water)
  = [Reply "Water reminders set."].
Proof.
  refine (proj1 (X17_water_reminders None no_json alice "09:00, noon ,7:5, 12:00" env0
                   setting_water {| step := "set_water_reminders"; data := Some noData |}
                   _ _ _ _ _ _)).
  - vm_compute. reflexivity.
  - reflexivity.
  - vm_compute. reflexivity.
  - vm_compute. discriminate.
  - vm_compute. apply NoDup_singleton.
  - vm_compute. discriminate.
Defined.

(** ** The steps a session can be in *)

Lemma field_step_known field :
  includes allowed field = true →
  includes stored_steps ("editing_profile_" +:+ field) = true.
Proof.
  intros H. apply includes_elem_of in H. unfold allowed in H.
  repeat (apply elem_of_cons in H as [->|H]; [reflexivity|]).
  apply elem_of_nil in H. destruct H.
Qed.

Ltac steps_tac :=
  unfold steps_stay_known, steps_known; world_simpl; intros Hknown;
  repeat first
    [ assumption
    | apply map_Forall_delete
    | apply map_Forall_insert_2;
      [first [reflexivity | apply field_step_known; apply negb_false_iff; assumption]|] ].

Lemma middlewares_steps pass J : Forall (holds_for steps_stay_known) (middlewares pass J).
Proof.
  apply middlewares_holds.
  - intros. unfold on_start. by_cases steps_tac.
  - unfold menu_before_table.
    repeat (constructor; [intros f e w; cbn [fst snd]; unfold_menu; by_cases steps_tac|]).
    constructor.
  - intros [f raw|f d] e w r H; unfold on_text_states in H; [|discriminate].
    destruct (states w !! from_id f) as [st|]; [|discriminate].
    branches H; unfold_flows; by_cases steps_tac.
  - intros [f raw|f d] e w r H; unfold on_callback_query in H; [discriminate|].
    repeat case_match; simplify_eq; steps_tac.
  - intros [f raw|f d] e w r H; unfold on_text_admin_reply in H; [|discriminate].
    repeat case_match; simplify_eq; steps_tac.
  - intros. unfold command_admin. by_cases steps_tac.
  - unfold menu_admin_table.
    repeat (constructor;
            [intros f e w; cbn [fst snd]; unfold_admin_menu; by_cases steps_tac|]).
    constructor.
  - intros [f raw|f d] e w r H; unfold on_text_admin_states in H; [|discriminate].
    destruct (states w !! from_id f) as [st|]; [|discriminate]. cbv zeta in H.
    branches H; unfold_admin_flows; by_cases steps_tac.
  - intros. unfold hears_RequestDataDeletion. by_cases steps_tac.
  - intros. unfold command_report. steps_tac.
  - intros [f raw|f d] e w r H; unfold on_text_report in H; [|discriminate].
    repeat case_match; simplify_eq; steps_tac.
  - intros [f raw|f d] e w r H; unfold on_message in H; [|discriminate].
    simplify_eq. steps_tac.
Qed.

Lemma stored_steps_owned s :
  includes stored_steps s = true → owned_step s = true ∨ s = "set_water_times".
Proof.
  intros H. apply includes_elem_of in H. unfold stored_steps, allowed in H.
  cbn [List.map app] in H.
  repeat (apply elem_of_cons in H as [->|H]; [first [left; reflexivity | right; reflexivity]|]).
  apply elem_of_nil in H. destruct H.
Qed.

(** X18. The steps of the sessions are a closed set: if every session is in
    one of the steps the program stores, so is every session after any
    update. Each of those steps has a branch in one of the text middlewares,
    with the one exception of the step the water tracker stores; and the
    field editor only ever stores the step of one of its nine fields. *)
Theorem X18_steps_closed pass J upd e w :
  steps_known w →
  ∀ k st, states (r_world (turn pass J upd e w)) !! k = Some st →
          includes stored_steps (step st) = true ∧
          (owned_step (step st) = true ∨ step st = "set_water_times") ∧
          (startsWith "editing_profile_" (step st) = true →
           step st = "editing_profile_field" ∨
           includes allowed (slice_from 16 (step st)) = true).
Proof.
  intros Hknown k st Hst.
  assert (H : steps_stay_known upd e w (turn pass J upd e w)).
  { clear Hknown Hst. revert upd e w.
    apply turn_holds; [apply middlewares_steps|]. intros. steps_tac. }
  specialize (H Hknown k st Hst). cbv beta in H.
  split; [exact H|]. split; [exact (stored_steps_owned _ H)|].
  intros Hsw. apply includes_elem_of in H. unfold stored_steps, allowed in H.
  cbn [List.map app] in H.
  repeat (apply elem_of_cons in H as [Hx|H];
          [rewrite Hx in *; first [discriminate Hsw | left; reflexivity | right; reflexivity]|]).
  apply elem_of_nil in H. destruct H.
Qed.

Lemma X18_steps_closed_witness :
  includes stored_steps "editing_profile_equipment" = true.
Proof.
  refine (proj1 (X18_steps_closed None no_json (Text alice "Equipment") env0
                   (after_texts None ["/start"; "29"; "82"; "180"; "✏️ Edit Profile"]
                      empty_world) _ 7
                   {| step := "editing_profile_equipment";
                      data := Some (dataProfileId (Some "uuid-1")) |} _)).
  - assert (Hd : bool_decide
                   (steps_known (after_texts None
                                   ["/start"; "29"; "82"; "180"; "✏️ Edit Profile"]
                                   empty_world)) = true) by (vm_compute; reflexivity).
    exact (bool_decide_eq_true_1 _ Hd).
  - vm_compute. reflexivity.
Defined.

(** ** The weekly summary *)

Lemma save_length u us : length (save u us) = length us.
Proof.
  induction us as [|v l IH]; [reflexivity|]. cbn [save].
  destruct (telegramId v =? telegramId u)%Z; cbn [length]; congruence.
Qed.

Lemma turn_done pass J f d e w u :
  findOne (from_id f) (users w) = Some u →
  startsWith "done:" d = true →
  let u1 := push_workoutsCompleted
              (mkWorkoutDone (activeProfileId u) (after_colon d) (now e)) u in
  let n := (streak u1 + 1)%Z in
  let bs := if (n =? 7)%Z && negb (includes (badges u1) "7-day-streak")
            then badges u1 ++ ["7-day-streak"] else badges u1 in
  turn pass J (CallbackQuery f d) e w
  = ret H_callback_query (set_users (save (set_streak n bs u1)) w)
      [AnswerCbQuery "Logged done!"; Reply "Workout logged. Good job!"].
Proof.
  intros Hu Hd u1 n bs. apply turn_callback. unfold on_callback_query.
  rewrite Hd, Hu. reflexivity.
Qed.

(** X19. From the done button to the weekly summary. When a stored user
    with unique id presses the done button of a workout, every weekly summary
    computed within the seven days that follow reports, to that user, one
    completed workout more than the same summary would have reported without
    the press; the user gets exactly one summary message. *)
Theorem X19_weekly_summary_counts_done pass J f d e w u t ok :
  findOne (from_id f) (users w) = Some u →
  startsWith "done:" d = true →
  NoDup (List.map telegramId (users w)) →
  (t - 7 * 24 * 3600 * 1000 ≤ now e)%Z →
  let r := turn pass J (CallbackQuery f d) e w in
  (∃ dl, WeeklySummary (from_id f) (S (weekly_count t u)) dl ∈ weekly_job t ok (r_world r)) ∧
  (∀ c dl, WeeklySummary (from_id f) c dl ∈ weekly_job t ok (r_world r) →
           c = S (weekly_count t u)) ∧
  length (weekly_job t ok (r_world r)) = length (users w).
Proof.
  intros Hu Hd Hnd Ht r. unfold r. rewrite (turn_done pass J f d e w u Hu Hd).
  unfold weekly_job. world_simpl.
  set (u1 := push_workoutsCompleted
               (mkWorkoutDone (activeProfileId u) (after_colon d) (now e)) u).
  set (u' := set_streak _ _ u1).
  pose proof (findOne_id _ _ _ Hu) as Hid.
  assert (Hc : weekly_count t u' = S (weekly_count t u)).
  { unfold weekly_count. change (workoutsCompleted u')
      with (workoutsCompleted u
            ++ [mkWorkoutDone (activeProfileId u) (after_colon d) (now e)]).
    change (activeProfileId u') with (activeProfileId u).
    rewrite List.filter_app, length_app. cbn [List.filter wd_profileId wd_date].
    rewrite bool_decide_eq_true_2 by reflexivity.
    destruct (Z.leb_spec (t - 7 * 24 * 3600 * 1000) (now e)); [|lia].
    cbn [andb length]. lia. }
  split; [|split].
  - assert (Hin : u' ∈ save u' (users w))
      by (apply (save_elem (from_id f) _ u); [exact Hu | exact Hid]).
    apply list_elem_of_lookup_1 in Hin as [i Hi]. exists (ok i).
    rewrite <- Hc, <- Hid.
    exact (elem_of_lookup_imap_2
             (λ i u, WeeklySummary (telegramId u) (weekly_count t u) (ok i)) _ _ _ Hi).
  - intros c dl Hin. apply elem_of_lookup_imap_1 in Hin as (i & v & Heq & Hl).
    injection Heq as Hv -> ->. apply list_elem_of_lookup_2 in Hl.
    pose proof (proj1 (stored_after_save (from_id f) (users w) u u' v Hnd Hu Hid)
                  (conj Hl (eq_sym Hv))) as ->.
    exact Hc.
  - rewrite length_imap. apply save_length.
Qed.

Lemma X19_weekly_summary_counts_done_witness :
  length (weekly_job 5000 (λ _, true)
            (r_world (turn None no_json (CallbackQuery alice "done:g") env0 six_day_streak)))
  = length (users six_day_streak).
Proof.
  refine (proj2 (proj2 (X19_weekly_summary_counts_done None no_json alice "done:g" env0
                          six_day_streak
                          (default (newUser 0 EmptyString EmptyString)
                             (findOne 7 (users six_day_streak)))
                          5000 (λ _, true) _ _ _ _))).
  - vm_compute. reflexivity.
  - reflexivity.
  - vm_compute. apply NoDup_singleton.
  - vm_compute. discriminate.
Defined.

(** ** Roles and removal *)

Lemma eqn_ofZ a b : eqn (ofZ a) (ofZ b) = (a =? b)%Z.
Proof.
  unfold eqn, ofZ, Qeq_bool, inject_Z. cbn [Qnum Qden]. rewrite !Z.mul_1_r.
  reflexivity.
Qed.

Lemma findOneNum_ofZ k us : findOneNum (ofZ k) us = findOne k us.
Proof.
  unfold findOneNum, findOne. induction us as [|v us IH]; [reflexivity|].
  cbn [List.find]. rewrite eqn_ofZ, IH. reflexivity.
Qed.

Lemma findOne_deleteOne_other j k us :
  j ≠ k → findOne j (deleteOne (ofZ k) us) = findOne j us.
Proof.
  unfold findOne. intros Hj. induction us as [|v us IH]; [reflexivity|].
  cbn [deleteOne List.find]. rewrite eqn_ofZ.
  destruct (telegramId v =? k)%Z eqn:E; cbn [List.find].
  - apply Z.eqb_eq in E. destruct (telegramId v =? j)%Z eqn:E'; [|reflexivity].
    apply Z.eqb_eq in E'. congruence.
  - rewrite IH. reflexivity.
Qed.

Lemma findOne_deleteOne k us :
  NoDup (List.map telegramId us) → findOne k (deleteOne (ofZ k) us) = None.
Proof.
  unfold findOne. induction us as [|v us IH]; [reflexivity|].
  cbn [deleteOne List.map]. intros Hnd. apply NoDup_cons in Hnd as [Hv Hnd].
  rewrite eqn_ofZ. destruct (telegramId v =? k)%Z eqn:E.
  - apply Z.eqb_eq in E. subst k.
    destruct (List.find (λ u, (telegramId u =? telegramId v)%Z) us) as [x|] eqn:Ex;
      [|reflexivity].
    apply find_some in Ex as [Hin Hx]. apply Z.eqb_eq in Hx. destruct Hv.
    rewrite <- Hx. apply list_elem_of_In, in_map. exact Hin.
  - cbn [List.find]. rewrite E. exact (IH Hnd).
Qed.

(** A text with a number in it is no command and no label. *)
Lemma numeric_plain raw : isNaN (Number (trim raw)) = false → plain_text raw = true.
Proof.
  intros H. unfold plain_text. rewrite (numeric_not_preempted raw H). cbn [negb andb].
  assert (Hc : ∀ name, is_command name raw = false).
  { intros name. destruct (is_command name raw) eqn:E; [|reflexivity].
    unfold is_command in E. apply andb_true_iff in E as [E _].
    apply startsWith_slash in E as [r ->]. destruct (trim_slash r) as [r' Hr].
    rewrite Hr, Number_slash in H. discriminate. }
  rewrite !Hc. cbn [negb andb].
  assert (Hl : includes (labels_admin ++ ["Request Data Deletion"]) raw = false).
  { destruct (includes _ raw) eqn:E; [|reflexivity].
    unfold includes in E. apply existsb_exists in E as (l & Hin & Heq).
    apply String.eqb_eq in Heq. subst l. unfold labels_admin in Hin. simpl in Hin.
    repeat (destruct Hin as [<-|Hin]; [vm_compute in H; discriminate H|]).
    destruct Hin. }
  unfold includes in Hl. rewrite existsb_app in Hl. apply orb_false_elim in Hl as [Hl Hr].
  fold (includes labels_admin raw) in Hl. rewrite Hl. cbn [existsb] in Hr.
  rewrite orb_false_r in Hr. rewrite Hr. reflexivity.
Qed.

(** A text that gets as far as the admin fallback middleware. *)
Lemma turn_admin_states pass J f raw e w r :
  plain_text raw = true →
  reaches_admin_menu w (from_id f) →
  on_text_admin_states J (Text f raw) e w = Some r →
  turn pass J (Text f raw) e w = r.
Proof.
  intros Hplain Hreach Hr. unfold plain_text in Hplain. split_andb Hplain.
  apply negb_true_iff in Hplain, Hp, Hp0, Hp1, Hp2.
  destruct (reaches_admin_menu_passes pass f raw e w Hreach) as [H1 H2].
  rewrite turn_not_preempted by exact Hplain.
  unfold from_dispatcher. rewrite !run_app. cbn [run].
  rewrite H1, H2, (run_menu_admin_None _ _ _ _ Hp1), Hr.
  cbn [on_callback_query command]. rewrite Hp2. reflexivity.
Qed.

(** X20. Promoting and demoting. An elevated user in the promote (demote)
    step who sends the id of a user as a number sets the role of that
    document to admin (user) and nothing else in it; every other document is
    as before. The role gives no access: the set of elevated users is not
    changed, so the promoted user is elevated afterwards only if already
    elevated before. *)
Theorem X20_promote_demote pass J f raw e w st k :
  from_id f ∈ adminSessions w →
  states w !! from_id f = Some st →
  step st = "promote_user" ∨ step st = "demote_user" →
  Number (trim raw) = ofZ k →
  let newRole := if String.eqb (step st) "promote_user" then "admin" else "user" in
  let r := turn pass J (Text f raw) e w in
  r_threw r = false ∧
  findOne k (users (r_world r)) = set_role newRole <$> findOne k (users w) ∧
  (∀ j, j ≠ k → findOne j (users (r_world r)) = findOne j (users w)) ∧
  adminSessions (r_world r) = adminSessions w ∧
  states (r_world r) !! from_id f = None.
Proof.
  intros Hin Hst Hs HN newRole r.
  assert (Hplain : plain_text raw = true) by (apply numeric_plain; rewrite HN; reflexivity).
  assert (Hreach : reaches_admin_menu w (from_id f)).
  { unfold reaches_admin_menu. rewrite Hst.
    destruct Hs as [-> | ->]; (split; [reflexivity | split; discriminate]). }
  assert (Hr : r = flow_set_role (step st) newRole (from_id f) (trim raw) w).
  { apply turn_admin_states; [exact Hplain | exact Hreach|].
    unfold on_text_admin_states. rewrite Hst. cbv zeta.
    rewrite (bool_decide_eq_true_2 _ Hin). unfold newRole.
    destruct Hs as [-> | ->]; reflexivity. }
  rewrite Hr. unfold flow_set_role. rewrite HN, findOneNum_ofZ.
  destruct (findOne k (users w)) as [u|] eqn:Hu; world_simpl.
  - pose proof (findOne_id _ _ _ Hu) as Hid.
    split; [reflexivity|].
    split; [exact (findOne_save k (users w) u (set_role newRole u) Hu Hid)|].
    split; [|split; [reflexivity | apply lookup_delete_eq]].
    intros j Hj. apply findOne_save_other. cbn. congruence.
  - split; [reflexivity|]. split; [exact Hu|].
    split; [reflexivity|]. split; [reflexivity | apply lookup_delete_eq].
Qed.

Lemma X20_promote_demote_witness :
  adminSessions (r_world (turn (Some "secret") no_json (Text alice " 9 ") env0 promoting))
  = adminSessions promoting.
Proof.
  assert (H : bool_decide (7 ∈ adminSessions promoting) = true) by (vm_compute; reflexivity).
  refine (proj1 (proj2 (proj2 (proj2
            (X20_promote_demote (Some "secret") no_json alice " 9 " env0 promoting
               {| step := "promote_user"; data := None |} 9
               (bool_decide_eq_true_1 _ H) _ _ _))))).
  - vm_compute. reflexivity.
  - left. reflexivity.
  - vm_compute. reflexivity.
Defined.

(** X21. Removing a user. An elevated user in the remove step who sends an
    id as a number deletes the document of that id and no other; with unique
    ids no document of that id is left. Only the document goes: the session
    of the removed user and the set of elevated users are as before, so a
    removed user who was elevated still is. *)
Theorem X21_remove_user pass J f raw e w st k :
  from_id f ∈ adminSessions w →
  states w !! from_id f = Some st →
  step st = "remove_user" →
  Number (trim raw) = ofZ k →
  NoDup (List.map telegramId (users w)) →
  let r := turn pass J (Text f raw) e w in
  r_threw r = false ∧
  findOne k (users (r_world r)) = None ∧
  (∀ j, j ≠ k → findOne j (users (r_world r)) = findOne j (users w)) ∧
  adminSessions (r_world r) = adminSessions w ∧
  (k ≠ from_id f → states (r_world r) !! k = states w !! k).
Proof.
  intros Hin Hst Hs HN Hnd r.
  assert (Hplain : plain_text raw = true) by (apply numeric_plain; rewrite HN; reflexivity).
  assert (Hreach : reaches_admin_menu w (from_id f)).
  { unfold reaches_admin_menu. rewrite Hst, Hs. split; [reflexivity | split; discriminate]. }
  assert (Hr : r = flow_remove_user (from_id f) (trim raw) w).
  { apply turn_admin_states; [exact Hplain | exact Hreach|].
    unfold on_text_admin_states. rewrite Hst, Hs. cbv zeta.
    rewrite (bool_decide_eq_true_2 _ Hin). reflexivity. }
  rewrite Hr. unfold flow_remove_user. rewrite HN. world_simpl.
  split; [reflexivity|]. split; [exact (findOne_deleteOne k _ Hnd)|].
  split; [intros j Hj; exact (findOne_deleteOne_other j k _ Hj)|].
  split; [reflexivity|]. intros Hk. apply lookup_delete_ne. congruence.
Qed.

Lemma X21_remove_user_witness :
  states (r_world (turn (Some "secret") no_json (Text alice "9") env0 removing)) !! 9
  = states removing !! 9.
Proof.
  assert (H : bool_decide (7 ∈ adminSessions removing) = true) by (vm_compute; reflexivity).
  refine (proj2 (proj2 (proj2 (proj2
            (X21_remove_user (Some "secret") no_json alice "9" env0 removing
               {| step := "remove_user"; data := None |} 9
               (bool_decide_eq_true_1 _ H) _ _ _ _)))) _).
  - vm_compute. reflexivity.
  - reflexivity.
  - vm_compute. reflexivity.
  - vm_compute. apply NoDup_singleton.
  - discriminate.
Defined.

(** ** The text fields of the field editor *)



(** ** Reporting a bug *)

(** X23. The report command followed by the description. For a user who is
    idle, or in a step without a branch, the command opens the report step;
    the next text that is no command and no menu label is stored as it was
    typed, not trimmed, as one unread relay of kind bug with no profile, one
    notification is attempted for each elevated admin, and whatever sends
    fail the user is thanked and the session is cleared. *)
Theorem X23_report_flow pass J f raw e1 e2 w :
  no_owned_session w (from_id f) →
  plain_text raw = true →
  let w1 := r_world (turn pass J (Text f "/report") e1 w) in
  let r := turn pass J (Text f raw) e2 w1 in
  let note := "🐞 Bug reported by " +:+ mention f +:+ ":" +:+ nl +:+ raw in
  r_handler r = H_report_bug ∧
  r_threw r = false ∧
  relays (r_world r)
  = relays w ++ [mkRelay (objectId e2) (from_id f) None raw "bug" false] ∧
  r_events r
  = sends BugNotify note (sendOk e2) 0 (elements (adminSessions w))
    ++ [Reply "Thanks — bug report submitted."] ∧
  states (r_world r) !! from_id f = None ∧
  users (r_world r) = users w.
Proof.
  intros Hno Hplain w1 r note.
  assert (Hw1 : w1 = states_set (from_id f) {| step := "report_bug"; data := None |} w).
  { unfold w1. destruct (unowned_passes pass J f "/report" e1 w Hno) as (H1 & H2 & H3 & H4).
    rewrite turn_not_preempted by reflexivity.
    unfold from_dispatcher. rewrite !run_app. cbn [run].
    rewrite H1, H2, (run_menu_admin_None f "/report" e1 w) by reflexivity.
    rewrite H3. reflexivity. }
  unfold plain_text in Hplain. split_andb Hplain.
  apply negb_true_iff in Hplain, Hp, Hp0, Hp1, Hp2.
  assert (Hst : states w1 !! from_id f = Some {| step := "report_bug"; data := None |})
    by (rewrite Hw1; apply lookup_insert_eq).
  assert (Hr : r = ret H_report_bug
                     (states_delete (from_id f)
                        (set_relays (λ rs, rs ++ [mkRelay (objectId e2) (from_id f) None raw
                                                    "bug" false]) w1))
                     (notifyAll BugNotify note (sendOk e2) (elements (adminSessions w1))
                      ++ [Reply "Thanks — bug report submitted."])).
  { unfold r. rewrite turn_not_preempted by exact Hplain.
    unfold from_dispatcher. rewrite !run_app. cbn [run].
    rewrite (run_menu_admin_None _ _ _ _ Hp1).
    unfold on_text_states, on_text_admin_reply, on_text_admin_states, on_text_report.
    rewrite Hst. cbn [step String.eqb Ascii.eqb Bool.eqb startsWith andb].
    rewrite andb_false_r.
    cbn [on_callback_query command hears default]. rewrite Hp2, Hp0, Hp. reflexivity. }
  rewrite Hr, Hw1. unfold notifyAll. rewrite sendLoop_spec. world_simpl. cbn [fst app].
  split; [reflexivity|]. split; [reflexivity|]. split; [reflexivity|].
  split; [reflexivity|]. split; [apply lookup_delete_eq | reflexivity].
Qed.

Lemma X23_report_flow_witness :
  r_handler (turn None no_json (Text alice " it crashed ") env1
               (r_world (turn None no_json (Text alice "/report") env0 water_tracker_open)))
  = H_report_bug.
Proof.
  refine (proj1 (X23_report_flow None no_json alice " it crashed " env0 env1
                   water_tracker_open _ _)).
  - vm_compute. reflexivity.
  - vm_compute. reflexivity.
Defined.

(** ** Asking for the deletion of one's data *)

Lemma turn_data_deletion pass J f e w :
  no_owned_session w (from_id f) →
  turn pass J (Text f "Request Data Deletion") e w = hears_RequestDataDeletion f e w.
Proof.
  intros Hno.
  destruct (unowned_passes pass J f "Request Data Deletion" e w Hno) as (H1 & H2 & H3 & H4).
  rewrite turn_not_preempted by reflexivity.
  unfold from_dispatcher. rewrite !run_app. cbn [run].
  rewrite H1, H2, (run_menu_admin_None f "Request Data Deletion" e w) by reflexivity.
  rewrite H3. reflexivity.
Qed.

(** X24. A request for data deletion deletes nothing and reaches nobody.
    For a stored user who is idle (or in a step without a branch) the button
    switches the consent flag of the document off and changes nothing else in
    it, profiles and logs included, nor in any other document; one unread
    relay of kind privacy is stored; no message is sent to any admin, and the
    feedback listing of the admin menu answers after the request what it
    answered before it. *)
Theorem X24_data_deletion_request pass J f e w u :
  no_owned_session w (from_id f) →
  findOne (from_id f) (users w) = Some u →
  let r := turn pass J (Text f "Request Data Deletion") e w in
  findOne (from_id f) (users (r_world r)) = Some (set_consent false u) ∧
  (∀ j, j ≠ from_id f → findOne j (users (r_world r)) = findOne j (users w)) ∧
  relays (r_world r)
  = relays w ++ [mkRelay (objectId e) (from_id f) None "User requested data deletion"
                   "privacy" false] ∧
  (∀ site chat text ok, SendMessage site chat text ok ∉ r_events r) ∧
  (∀ a e', r_events (hears_Feedback a e' (r_world r)) = r_events (hears_Feedback a e' w)) ∧
  states (r_world r) = states w ∧ adminSessions (r_world r) = adminSessions w.
Proof.
  intros Hno Hu r. unfold r. rewrite (turn_data_deletion pass J f e w Hno).
  unfold hears_RequestDataDeletion. rewrite Hu. world_simpl.
  pose proof (findOne_id _ _ _ Hu) as Hid.
  split; [exact (findOne_save _ _ u (set_consent false u) Hu Hid)|].
  split; [intros j Hj; apply findOne_save_other; cbn; congruence|].
  split; [reflexivity|].
  split; [intros site chat text ok Hin; apply list_elem_of_singleton in Hin; discriminate|].
  split; [|split; reflexivity].
  intros a e'. unfold hears_Feedback. world_simpl.
  rewrite List.filter_app. cbn [List.filter mr_type]. change (includes _ "privacy") with false.
  cbv iota. rewrite app_nil_r.
  destruct (take 50 _); reflexivity.
Qed.

Lemma X24_data_deletion_request_witness :
  states (r_world (turn None no_json (Text alice "Request Data Deletion") env0
                     water_tracker_open))
  = states water_tracker_open.
Proof.
  refine (proj1 (proj2 (proj2 (proj2 (proj2 (proj2
            (X24_data_deletion_request None no_json alice env0 water_tracker_open
               (default (newUser 0 EmptyString EmptyString)
                  (findOne 7 (users water_tracker_open))) _ _))))))).
  - vm_compute. reflexivity.
  - vm_compute. reflexivity.
Defined.

(** ** Creating an exercise from the pipe format *)




